(* ===== verification/_CoqProject ===== *)
-Q . S2P
Prelude.v
PyNum.v
Strtod.v
PyVal.v
Format.v
Json.v
Repr.v
Shortest.v
Extern.v
Preprocess.v
Service.v
