(* ===== verification/Prelude.v ===== *)
(** * A verification development for [src/python-ocr/ocr_service.py]

    ** The program

    [ocr_service.py] is a one-shot command-line OCR wrapper.  [main]
    (lines 51-96) runs four stages in a straight line:
    - the entry point: reconfigure stdout to UTF-8, ignoring any failure
      (lines 53-56); print a usage line and exit 1 when [sys.argv] has
      fewer than two entries (lines 58-60);
    - [minimal_preprocess] (lines 21-39): [cv2.imread] the image, raise
      [ValueError] when it returns [None], call [upscale_if_needed]
      (lines 8-19: when the width [w] is below 1200, compute
      [scale_factor = 1200 / w] in double precision, truncate [w * scale]
      and [h * scale] with [int] and resize), then convert to grey;
    - [run_easyocr] (lines 41-49): build an [easyocr.Reader] for English
      and call [readtext] with [detail=1, paragraph=True];
    - the result formatter (lines 71-93): a loop over the engine's
      detections that skips values that are not lists or tuples or have
      fewer than two fields, reads the polygon, the text and the optional
      confidence (default [1.0]), takes [int(min(xs))], [int(max(xs))],
      [int(min(ys))], [int(max(ys))] of the polygon's coordinates, and
      appends a record; then [print(json.dumps(...))] (line 96).
    Every exception the stages raise (OpenCV's, EasyOCR's, and the
    built-ins [min], [int], [float] and indexing raise on malformed
    detections) propagates out of [main]: the process prints a
    traceback and exits with status 1, and nothing reaches stdout.  The
    final [print] itself can raise: it encodes the line with stdout's
    encoding, which stays the platform default when [reconfigure] fails.

    ** The library

    - [Prelude] (this file): the Python exception type [exn], the result
      type [res] with its bind and [let*] notation in [py_scope], the
      list comprehension [map_res], integer ranges for bounded checks,
      the tactics [inv_res] and [res_run], and the hint databases
      [pyres] (resolution) and [pyrw] (rewriting).
    - [PyNum]: Python's numbers.  [int] is [Z]; [float] is an IEEE-754
      binary64 value as Rocq's [SpecFloat.spec_float] at precision 53 and
      exponent bound 1024, with [float(int)] (round to nearest even,
      [OverflowError] past the range), [int(float)] (truncation toward
      zero, [ValueError] on NaN, [OverflowError] on infinities), [*], [/]
      and Python's exact mixed [int]/[float] comparison, all computed with
      binary integers.  The exact value of a number is a rational ([Q])
      on an extended line; truncation agrees with the rational
      truncation, and the comparison is a total preorder on non-NaN
      numbers.
    - [Strtod]: [float()] on decimal text: [round_q s p q], the binary64
      value nearest to [p/q] (ties to even, gradual underflow, overflow to
      infinity), and the parser of number tokens.  Its lemmas show that
      [round_q] is correct (a canonical result within half a unit),
      depends only on [p/q], is monotone ([round_rank_mono]), sends an
      interval of rationals to each float ([round_q_between]) and rounds
      to [m * 2^e] whatever lies within half a unit of it
      ([round_q_near]).
    - [PyVal]: the Python values a detection is made of (None, int,
      float, str as code points, list, tuple) and the built-ins the
      formatter applies to them: [isinstance(_, (list, tuple))], [len],
      [v[i]], iteration, [<], [>], [min], [max], [int()], [float()], with
      CPython 3.11's exceptions and messages.  Comparisons follow rich
      comparison (numbers by value, strings by code points, sequences
      lexicographically); [int()] and [float()] parse strings.
    - [Format]: the loop of lines 71-93 ([build_record], [format_loop],
      [format_results]), an abstract specification of the output (module
      [Spec]: [record_spec], [spec_outputs]), the refinement theorem that
      the loop computes it on well-formed detections, its invariants
      (order, length, [min <= max] of each box) and its error paths.
    - [Json]: [json.dumps(output_data, ensure_ascii=False)] of line 96:
      the records as JSON values ([json_of_rec], keys in the order of
      lines 89-93) and CPython's encoder for them ([encode]: escapes of
      [ESCAPE_DCT], separators [", "] and [": "], [NaN]/[Infinity]);
      [float.__repr__] is the interface [FloatRepr] with its laws (a
      JSON float token that reads back, for finite binary64 values).  A
      decoder [parse_json] and the round-trip theorems show the printed
      line decodes to the spec's object of each record ([spec_object]).
    - [Repr]: [float.__repr__] ([repr]: for 1 to 17 significant digits,
      the two candidates around the value, kept when [float()] reads them
      back, the nearer one when both do, laid out by [repr_text] as
      [format_float_short] with code ['r']).  The instance [cpython_repr]
      discharges [FloatRepr], so the end-to-end witnesses print CPython's
      exact digits ([0.87], [1.0]).
    - [Shortest]: the text of [repr] is the shortest decimal that reads
      back and the nearest of its length; 17 digits always read back.
      The argument is on rationals ([round_Q], [dec_q]).
    - [Extern]: the process state ([world]: argv, stdout's [codec],
      stdout, stderr, the trace of library calls) in a state-and-exception
      monad [IO], [print] (stdout encodes the whole line with its codec
      and raises [UnicodeEncodeError] at the first code point it cannot
      encode; stderr never fails), [try/except Exception], [sys.exit];
      the interfaces of OpenCV and EasyOCR as type classes with the laws
      the program relies on; frame lemmas ([commutes], [keeps_stdout]);
      small computable instances and the codecs [utf8] and [cp1252].
    - [Preprocess]: [upscale_if_needed] and [minimal_preprocess] against
      the OpenCV interface, and the floating-point facts of the upscale
      rule, checked exhaustively on every width below 1200.
    - [Service]: [run_easyocr], [build_output], [process], [main] and
      [run_main] (the exit status, stdout, stderr and calls of a process
      run), and the end-to-end theorems.

    ** What the theorems show
    - C1-C8 ([Format]): the loop refines its specification; boxes are
      ordered when no coordinate is a string; at most one record per
      detection; order and all-or-nothing over concatenations; silent
      guards; the default confidence; an empty polygon raises; a NaN
      first coordinate raises after any successful prefix.
    - C9-C12 ([Preprocess]): the exact upscaled width of every width
      below 1200 (1199, not 1200, for nine widths); the three paths of
      [minimal_preprocess] with their library calls.
    - C13-C22 ([Service]): the usage path; extra arguments ignored; the
      [reconfigure] fallback (the same run, or [UnicodeEncodeError] at the
      [print] when the default codec cannot encode the line); stdout is
      empty or one printable JSON line; the unreadable image, success,
      engine error and format error paths with their calls in order;
      zero records print exactly [[]].
    - C23-C24 ([Json]): every encoded value decodes back; the printed
      line decodes to the spec's object of each record.
    - C25 ([Repr]): [float(confidence)] of a decimal string is the
      correctly rounded binary64 value.
    - C26 ([Shortest]): [repr] prints the shortest decimal that reads
      back, the nearest of its length.

    ** Bounds and fuel
    The width table of [Preprocess] is checked by evaluation on all of
    [1, 1199], which is every width the branch takes.  [int_truediv]
    models [/] exactly only for operands below 2^53 (every image size);
    beyond, it raises [NotModelled].  The JSON decoder recurses on a fuel
    argument, started at the length of the text; [encode_length] proves
    that this is at least the nesting measure [jsize] the decoder needs.
    [repr] tries 1 to 17 significant digits ([search] with fuel 17);
    [Shortest.seventeen_digits] proves that 17 digits always read back
    (the nearer 17-digit candidate lies within [v / (2 * 10^16)] of the
    value [v], less than half a unit since [2^53 < 10^16]), so the
    fallback to the exact decimal value after the search is never taken.
    [strip_zeros] runs with the number of digits as fuel, which
    [strip_zeros_full] shows removes every trailing zero.  [int()] of a
    string is modelled up to CPython's 4300-digit limit.

    ** Not modelled
    The pixel algorithms of OpenCV ([imread]'s decoders, [INTER_CUBIC]
    resizing, [BGR2GRAY]) and EasyOCR's recognition are library code, not
    code of this repository: they appear only through the interfaces of
    [Extern] and the laws stated there.  [float.__repr__] is modelled by
    its specification (the shortest digits that read back, chosen by
    reading them back with a correctly rounded [float()]), not by the
    steps of David Gay's [_Py_dg_dtoa].  Codecs are reduced to the set of
    code points they encode.  In the Python values, object identity is
    not modelled (containers holding the same NaN object compare equal in
    CPython; the model raises [NotModelled] there), nor are non-ASCII
    digits and spaces in [int()]/[float()] strings.  The JSON conversion
    of a record's text follows the value's type; a [bool] text (an
    [int] subclass in CPython) is written as [1]/[0] instead of
    [true]/[false], since [pyval] has no booleans. *)

From Stdlib Require Import String ZArith List Bool Lia.
Import ListNotations.

Declare Scope py_scope.
Delimit Scope py_scope with py.

(** ** Python exceptions *)

(** The exceptions the program can raise or let through.  [SystemExit]
    carries the exit status of [sys.exit]; [Cv2Error] and [EngineError]
    stand for the failures of the two libraries; [NotModelled] marks a
    behaviour of CPython this model does not describe. *)
Inductive exn : Type :=
| ValueError (msg : string)
| TypeError (msg : string)
| IndexError (msg : string)
| OverflowError (msg : string)
| ZeroDivisionError (msg : string)
| AttributeError (msg : string)
| SystemExit (code : Z)
| Cv2Error (msg : string)
| EngineError (msg : string)
| UnicodeEncodeError (encoding : string) (cp : Z)
| NotModelled (what : string).

(** The outcome of a Python expression: a value, or an exception. *)
Inductive res (A : Type) : Type :=
| Ok (a : A)
| Raise (e : exn).
Arguments Ok {A} a.
Arguments Raise {A} e.

Definition res_bind {A B : Type} (m : res A) (k : A -> res B) : res B :=
  match m with
  | Ok a => k a
  | Raise e => Raise e
  end.

Definition res_map {A B : Type} (f : A -> B) (m : res A) : res B :=
  res_bind m (fun a => Ok (f a)).

Notation "'let*' x ':=' m 'in' k" := (res_bind m (fun x => k))
  (at level 61, x name, m at next level, right associativity) : py_scope.
Notation "'let*' ' p ':=' m 'in' k" := (res_bind m (fun x => match x with p => k end))
  (at level 61, p pattern, m at next level, right associativity) : py_scope.

Open Scope py_scope.
Open Scope Z_scope.

Definition is_ok {A : Type} (m : res A) : bool :=
  match m with Ok _ => true | Raise _ => false end.

(** [[f x for x in l]]: evaluated left to right, the first exception
    aborts the comprehension. *)
Fixpoint map_res {A B : Type} (f : A -> res B) (l : list A) : res (list B) :=
  match l with
  | [] => Ok []
  | x :: tl =>
      let* y := f x in
      let* ys := map_res f tl in
      Ok (y :: ys)
  end.

(** The integers [a], [a+1], ..., [a+n-1], for checks over a bounded
    range by evaluation. *)
Fixpoint Zrange (a : Z) (n : nat) : list Z :=
  match n with
  | O => []
  | S n' => a :: Zrange (Z.succ a) n'
  end.

(** ** Generic lemmas *)

Create HintDb pyres.
Create Rewrite HintDb pyrw.

Lemma res_bind_Ok {A B : Type} (a : A) (k : A -> res B) :
  res_bind (Ok a) k = k a.
Proof. reflexivity. Qed.

Lemma res_bind_Raise {A B : Type} (e : exn) (k : A -> res B) :
  res_bind (Raise e) k = Raise e.
Proof. reflexivity. Qed.

#[export] Hint Rewrite @res_bind_Ok @res_bind_Raise : pyrw.

Lemma res_bind_Ok_inv {A B : Type} (m : res A) (k : A -> res B) (b : B) :
  res_bind m k = Ok b -> exists a, m = Ok a /\ k a = Ok b.
Proof. destruct m; simpl; [eauto | discriminate]. Qed.

Lemma res_bind_Raise_inv {A B : Type} (m : res A) (k : A -> res B) (e : exn) :
  res_bind m k = Raise e -> m = Raise e \/ exists a, m = Ok a /\ k a = Raise e.
Proof. destruct m; simpl; [right; eauto | intros [= ->]; auto]. Qed.

Lemma res_bind_assoc {A B C : Type} (m : res A) (f : A -> res B) (g : B -> res C) :
  res_bind (res_bind m f) g = res_bind m (fun a => res_bind (f a) g).
Proof. destruct m; reflexivity. Qed.

(** Splits every [res_bind ... = Ok _] hypothesis into its steps. *)
Ltac inv_res :=
  repeat match goal with
  | H : res_bind ?m _ = Ok _ |- _ =>
      let a := fresh "a" in let Ha := fresh "Hm" in
      apply res_bind_Ok_inv in H; destruct H as [a [Ha H]]
  | H : Ok _ = Ok _ |- _ => injection H as H; subst
  | H : Ok _ = Raise _ |- _ => discriminate H
  | H : Raise _ = Ok _ |- _ => discriminate H
  end.

(** Runs a computation in the goal forward: every step [m] for which a
    hypothesis [m = Ok a] is known is replaced by [a]. *)
Ltac res_run :=
  repeat (cbn [res_bind];
          match goal with
          | H : ?m = Ok _ |- context [res_bind ?m _] => rewrite H
          end);
  cbn [res_bind].

Lemma map_res_Ok_iff {A B : Type} (f : A -> res B) (l : list A) (ys : list B) :
  map_res f l = Ok ys <-> Forall2 (fun x y => f x = Ok y) l ys.
Proof.
  revert ys; induction l as [|x l IH]; intros ys; simpl.
  - split; [intros [= <-]; constructor | intros H; inversion H; reflexivity].
  - split.
    + intros H; inv_res. constructor; [assumption | apply IH; assumption].
    + intros H; inversion H as [|? y ? ys' Hy Hys]; subst.
      rewrite Hy; simpl. apply IH in Hys. rewrite Hys. reflexivity.
Qed.

Lemma map_res_length {A B : Type} (f : A -> res B) (l : list A) (ys : list B) :
  map_res f l = Ok ys -> length ys = length l.
Proof.
  intros H; apply map_res_Ok_iff in H. symmetry; eapply Forall2_length; eauto.
Qed.

Lemma map_res_map {A B : Type} (g : A -> B) (l : list A) :
  map_res (fun x => Ok (g x)) l = Ok (map g l).
Proof. induction l as [|x l IH]; simpl; [reflexivity | rewrite IH; reflexivity]. Qed.

#[export] Hint Rewrite @map_res_map : pyrw.

Lemma In_Zrange (a x : Z) (n : nat) :
  In x (Zrange a n) <-> a <= x < a + Z.of_nat n.
Proof.
  revert a; induction n as [|n IH]; intros a; simpl.
  - lia.
  - rewrite IH. lia.
Qed.

(** A property decided by a boolean test holds on a whole range when the
    test passes on every element: bounded claims are checked by
    evaluating [forallb] on [Zrange]. *)
Lemma forallb_Zrange (f : Z -> bool) (a : Z) (n : nat) :
  forallb f (Zrange a n) = true -> forall x, a <= x < a + Z.of_nat n -> f x = true.
Proof.
  intros H x Hx. rewrite forallb_forall in H. apply H, In_Zrange, Hx.
Qed.
