(* ===== verification/PyNum.v ===== *)
(** * Python numbers: [int] as [Z], [float] as IEEE-754 binary64

    A Python [float] is a [SpecFloat.spec_float] at precision 53 and
    exponent bound 1024: the Standard Library's bit-level specification of
    binary64, computed with binary integers (no primitive floats, no
    axioms).  The operations the program uses are [float(int)], [int(float)],
    [int * float] and [int / int], and the comparisons [<] and [>] that the
    built-ins [min] and [max] apply to the coordinates.  Each number also
    has an exact value on the extended rational line ([xval]); truncation
    and comparison are proved to agree with it. *)

From Stdlib Require Import String ZArith QArith Qround Lia Bool.
From Stdlib Require Import SpecFloat.
From S2P Require Import Prelude.

Open Scope Z_scope.

(** ** binary64 *)

Definition prec : Z := 53.
Definition emax : Z := 1024.

Abbreviation float := spec_float.

Definition f_mul : float -> float -> float := SFmul prec emax.
Definition f_div : float -> float -> float := SFdiv prec emax.

(** The double nearest to an integer, ties to even: CPython's
    [PyLong_AsDouble]; [inf] when the integer is past the range. *)
Definition float_round (z : Z) : float := binary_normalize prec emax z 0 false.

(** [float(z)] for an [int] [z] (also the implicit conversion of
    [int * float]): [OverflowError] past the range of doubles. *)
Definition float_of_int (z : Z) : res float :=
  match float_round z with
  | S754_infinity _ => Raise (OverflowError "int too large to convert to float")
  | f => Ok f
  end.

(** [1.0] *)
Definition f_one : float := float_round 1.

(** Truncation toward zero of [(-1)^s * m * 2^e]. *)
Definition trunc_bits (s : bool) (m : positive) (e : Z) : Z :=
  let a := if 0 <=? e then Z.shiftl (Zpos m) e else Z.shiftr (Zpos m) (- e) in
  if s then - a else a.

(** [int(f)] for a [float] [f] ([float.__trunc__]). *)
Definition int_of_float (f : float) : res Z :=
  match f with
  | S754_nan => Raise (ValueError "cannot convert float NaN to integer")
  | S754_infinity _ => Raise (OverflowError "cannot convert float infinity to integer")
  | S754_zero _ => Ok 0
  | S754_finite s m e => Ok (trunc_bits s m e)
  end.

(** [a / b] on two [int]s.  CPython's [long_true_divide] converts both
    operands to doubles and divides them when both are at most [2^53] in
    magnitude, which is exact and hence correctly rounded; larger operands
    take a different (also correctly rounded) path that the program never
    reaches and the model does not describe. *)
Definition int_truediv (a b : Z) : res float :=
  if b =? 0 then Raise (ZeroDivisionError "division by zero")
  else if (Z.abs a <=? 2 ^ 53) && (Z.abs b <=? 2 ^ 53)
  then Ok (f_div (float_round a) (float_round b))
  else Raise (NotModelled "true division of integers above 2**53").

(** [z * f] for an [int] [z] and a [float] [f]: [z] is converted first. *)
Definition int_mul_float (z : Z) (f : float) : res float :=
  let* fz := float_of_int z in
  Ok (f_mul fz f).

(** ** Numbers and their exact values *)

(** A Python number: an [int] (also [bool] and NumPy's integer scalars)
    or a [float] (also NumPy's [float64]). *)
Inductive pynum : Type :=
| NInt (z : Z)
| NFloat (f : float).

(** The extended rational line: the exact values of non-NaN numbers. *)
Inductive xval : Type :=
| XNegInf
| XFin (q : Q)
| XPosInf.

Definition finite_value (s : bool) (m : positive) (e : Z) : Q :=
  let n := if s then Zneg m else Zpos m in
  if 0 <=? e then inject_Z (Z.shiftl n e)
  else Qmake n (Pos.pow 2 (Z.to_pos (- e))).

(** The exact value of a number; [None] for NaN. *)
Definition xval_of (x : pynum) : option xval :=
  match x with
  | NInt z => Some (XFin (inject_Z z))
  | NFloat S754_nan => None
  | NFloat (S754_infinity s) => Some (if s then XNegInf else XPosInf)
  | NFloat (S754_zero _) => Some (XFin 0)
  | NFloat (S754_finite s m e) => Some (XFin (finite_value s m e))
  end.

Definition xcompare (a b : xval) : comparison :=
  match a, b with
  | XNegInf, XNegInf => Eq
  | XPosInf, XPosInf => Eq
  | XNegInf, _ => Lt
  | _, XNegInf => Gt
  | XPosInf, _ => Gt
  | _, XPosInf => Lt
  | XFin p, XFin q => Qcompare p q
  end.

Definition xle (a b : xval) : Prop := xcompare a b <> Gt.

(** [a < b] on two numbers: CPython compares [int]s, [float]s and mixed
    pairs by their exact values, and every comparison with NaN is false. *)
Definition num_lt (a b : pynum) : bool :=
  match xval_of a, xval_of b with
  | Some x, Some y => match xcompare x y with Lt => true | _ => false end
  | _, _ => false
  end.

(** [int(x)] on a number. *)
Definition num_int (x : pynum) : res Z :=
  match x with
  | NInt z => Ok z
  | NFloat f => int_of_float f
  end.

(** [float(x)] on a number. *)
Definition num_float (x : pynum) : res float :=
  match x with
  | NInt z => float_of_int z
  | NFloat f => Ok f
  end.

(** Truncation toward zero of a rational. *)
Definition Qtrunc (q : Q) : Z :=
  if Qle_bool 0 q then Qfloor q else - Qfloor (- q).

(** ** Lemmas *)

Lemma Qtrunc_Z (z : Z) : Qtrunc (inject_Z z) = z.
Proof.
  unfold Qtrunc. change (- inject_Z z)%Q with (inject_Z (- z)).
  rewrite !Qfloor_Z. destruct (Qle_bool 0 (inject_Z z)); lia.
Qed.

Lemma trunc_bits_spec (s : bool) (m : positive) (e : Z) :
  trunc_bits s m e = Qtrunc (finite_value s m e).
Proof.
  unfold trunc_bits, finite_value.
  destruct (Z.leb_spec 0 e) as [He | He].
  - rewrite Qtrunc_Z. destruct s; [| reflexivity].
    rewrite !Z.shiftl_mul_pow2 by exact He. lia.
  - assert (Hp : Zpos (Pos.pow 2 (Z.to_pos (- e))) = 2 ^ (- e)).
    { rewrite Pos2Z.inj_pow, Z2Pos.id by lia. reflexivity. }
    unfold Qtrunc, Qfloor; destruct s; simpl.
    + rewrite Hp, Z.shiftr_div_pow2 by lia. reflexivity.
    + rewrite Hp, Z.shiftr_div_pow2 by lia. reflexivity.
Qed.

Lemma Qle_bool_false (x y : Q) : Qle_bool x y = false -> (y < x)%Q.
Proof.
  intros H. apply Qnot_le_lt. intros Hle. apply Qle_bool_iff in Hle. congruence.
Qed.

Lemma Qtrunc_le (p q : Q) : (p <= q)%Q -> Qtrunc p <= Qtrunc q.
Proof.
  intros Hpq. unfold Qtrunc.
  destruct (Qle_bool 0 p) eqn:Hp, (Qle_bool 0 q) eqn:Hq;
    [apply Qle_bool_iff in Hp, Hq | apply Qle_bool_iff in Hp; apply Qle_bool_false in Hq
    | apply Qle_bool_false in Hp; apply Qle_bool_iff in Hq
    | apply Qle_bool_false in Hp, Hq].
  - apply Qfloor_resp_le, Hpq.
  - exfalso. apply (Qlt_irrefl 0). eapply Qle_lt_trans; [eapply Qle_trans; eassumption | exact Hq].
  - assert (H1 : (0 <= - p)%Q) by (apply Qlt_le_weak; exact (Qopp_lt_compat p 0 Hp)).
    apply Qfloor_resp_le in H1, Hq. change (Qfloor 0) with 0 in H1, Hq. lia.
  - apply Qopp_le_compat, Qfloor_resp_le in Hpq. lia.
Qed.

Lemma xle_trans (a b c : xval) : xle a b -> xle b c -> xle a c.
Proof.
  unfold xle; destruct a, b, c; simpl; try congruence.
  rewrite <- !Qle_alt. apply Qle_trans.
Qed.

Lemma xle_refl (a : xval) : xle a a.
Proof. unfold xle; destruct a; simpl; try congruence. rewrite <- Qle_alt. apply Qle_refl. Qed.

Lemma xle_total (a b : xval) : xle a b \/ xle b a.
Proof.
  unfold xle; destruct a, b; simpl; try (left; congruence); try (right; congruence).
  rewrite <- !Qle_alt. destruct (Qlt_le_dec q q0); [left; apply Qlt_le_weak | right]; assumption.
Qed.

Lemma xcompare_Lt_xle (a b : xval) : xcompare a b = Lt -> xle a b.
Proof. unfold xle; congruence. Qed.

Lemma not_xcompare_Lt (a b : xval) : xcompare a b <> Lt -> xle b a.
Proof.
  unfold xle; destruct a, b; simpl; try congruence.
  rewrite <- (Qcompare_antisym q q0). destruct (Qcompare q q0); simpl; congruence.
Qed.

#[export] Hint Resolve xle_refl xcompare_Lt_xle not_xcompare_Lt : pyres.

(** A comparison that holds relates two non-NaN numbers, in their order. *)
Lemma num_lt_true (a b : pynum) :
  num_lt a b = true ->
  exists x y, xval_of a = Some x /\ xval_of b = Some y /\ xcompare x y = Lt.
Proof.
  unfold num_lt. destruct (xval_of a) as [x|], (xval_of b) as [y|]; try discriminate.
  destruct (xcompare x y) eqn:E; try discriminate. eauto.
Qed.

(** [int(x)] succeeds only on finite numbers, where it truncates the
    exact value. *)
Lemma num_int_Ok (x : pynum) (i : Z) :
  num_int x = Ok i -> exists q, xval_of x = Some (XFin q) /\ i = Qtrunc q.
Proof.
  destruct x as [z | [s | s | | s m e]]; simpl; intros H; inv_res; try discriminate.
  - eexists; split; [reflexivity | symmetry; apply Qtrunc_Z].
  - eexists; split; [reflexivity | vm_compute; reflexivity].
  - eexists; split; [reflexivity | apply trunc_bits_spec].
Qed.

(** [int()] is monotone: it never inverts the order of two numbers. *)
Lemma num_int_mono (a b : pynum) (x y : xval) (i j : Z) :
  xval_of a = Some x -> xval_of b = Some y -> xle x y ->
  num_int a = Ok i -> num_int b = Ok j -> i <= j.
Proof.
  intros Ha Hb Hxy Hi Hj.
  apply num_int_Ok in Hi as [p [Hp ->]], Hj as [q [Hq ->]].
  rewrite Ha in Hp; rewrite Hb in Hq. injection Hp as ->; injection Hq as ->.
  apply Qtrunc_le. unfold xle in Hxy; simpl in Hxy. apply Qle_alt, Hxy.
Qed.
