(* ===== verification/Strtod.v ===== *)
(** * [float()] on decimal text: correct rounding to binary64

    CPython's [float()] of a [str] ([PyFloat_FromString], which calls
    [_Py_dg_strtod]) returns the binary64 value nearest to the decimal
    number the text denotes.  This file holds that reading:
    - [round_q s p q]: the binary64 value nearest to [p/q] with sign [s]
      (ties to an even mantissa, gradual underflow below [2^-1022],
      overflow to infinity from [2^1024] on), packed by [binary_pack];
    - [parse_body] and [parse_dec]: the digits, optional fraction and
      optional exponent of a number token, as [M * 10^E];
    - [float_of_dec] and [float_of_text]: the float of such a token.
    [PyVal] builds [float(str)] on it (whitespace, sign, [inf]/[nan],
    underscores) and [Repr] reads [float.__repr__]'s text back with it.
    The lemmas describe [round_q]: its exact cases ([round_q_exact]);
    the mantissa, exponent and half-unit error of its result
    ([round_parts_spec], [round_q_correct]); that it depends only on
    [p/q] ([round_q_ratio]) and grows with it ([round_rank_mono] on the
    rank [m1 * 2^(E+1074)]), so that the rationals rounding to one finite
    float form an interval ([round_q_between]); and that a rational
    within half a unit of a float rounds to it ([round_q_near]). *)

From Stdlib Require Import ZArith List Lia Bool SpecFloat.
From S2P Require Import Prelude PyNum.
Import ListNotations.

Open Scope Z_scope.

(** ** Correct rounding of a rational *)

(** [2^k <= p/q], for [p, q > 0], without negative exponents. *)
Definition pow2_le (k p q : Z) : bool := q * 2 ^ Z.max k 0 <=? p * 2 ^ Z.max (- k) 0.

(** [floor(log2(p/q))]: the difference of the integer logarithms is that
    or one more. *)
Definition log2_q (p q : Z) : Z :=
  let l := Z.log2 p - Z.log2 q in
  if pow2_le l p q then l else l - 1.

(** The float of sign [s], mantissa [m1 <= 2^53] and exponent [E]: a
    mantissa carried to [2^53] moves to the next binade, an exponent past
    971 overflows to infinity, a zero mantissa is a zero. *)
Definition binary_pack (s : bool) (m1 E : Z) : float :=
  let '(m, e) := if m1 =? 2 ^ 53 then (2 ^ 52, E + 1) else (m1, E) in
  match m with
  | Zpos mp => if e <=? 971 then S754_finite s mp e else S754_infinity s
  | _ => S754_zero s
  end.

(** The binary64 number nearest to [p/q] ([p >= 0], [q > 0]) with sign
    [s]: 53 significant bits above the subnormal exponent -1074, ties to
    an even mantissa, infinity from exponent 972 on. *)
Definition round_q (s : bool) (p q : Z) : float :=
  if p <=? 0 then S754_zero s else
  let E := Z.max (log2_q p q - 52) (-1074) in
  let num := p * 2 ^ Z.max (- E) 0 in
  let den := q * 2 ^ Z.max E 0 in
  let m0 := num / den in
  let r := num mod den in
  let m1 := if (den <? 2 * r) || ((2 * r =? den) && Z.odd m0) then m0 + 1 else m0 in
  binary_pack s m1 E.

(** ** Lemmas on [round_q] *)

Lemma pow2_nonneg_max (k : Z) : 0 < 2 ^ Z.max k 0.
Proof. apply Z.pow_pos_nonneg; lia. Qed.

(** [q * B^k <= p] compares [q * B^a] with [p * B^c] for any split
    [a - c = k]; [pow2_le] and [Repr.pow10_le] are its bases 2 and 10. *)
Lemma pow_le_split (B k a c p q : Z) :
  0 < B -> 0 <= a -> 0 <= c -> a - c = k ->
  (q * B ^ Z.max k 0 <=? p * B ^ Z.max (- k) 0) = (q * B ^ a <=? p * B ^ c).
Proof.
  intros HB Ha Hc Hk. set (d := c - Z.max (- k) 0).
  assert (Hd : 0 <= d) by (unfold d; lia).
  assert (Ea : a = Z.max k 0 + d) by (unfold d; lia).
  assert (Ec : c = Z.max (- k) 0 + d) by (unfold d; lia).
  rewrite Ea, Ec, !Z.pow_add_r by lia.
  assert (Hpd : 0 < B ^ d) by (apply Z.pow_pos_nonneg; lia).
  destruct (Z.leb_spec (q * B ^ Z.max k 0) (p * B ^ Z.max (- k) 0)) as [H | H];
    symmetry; [apply Z.leb_le | apply Z.leb_gt]; rewrite !Z.mul_assoc; nia.
Qed.

Lemma pow2_le_split (k a b p q : Z) :
  0 <= a -> 0 <= b -> a - b = k ->
  pow2_le k p q = (q * 2 ^ a <=? p * 2 ^ b).
Proof. intros. apply pow_le_split; lia. Qed.

Lemma log2_bounds (n : Z) : 0 < n -> 2 ^ Z.log2 n <= n < 2 ^ (Z.log2 n + 1).
Proof. intros H. pose proof (Z.log2_spec n H) as Hs. rewrite <- Z.add_1_r in Hs. exact Hs. Qed.

Lemma pow2_le_anti (k k' p q : Z) :
  0 < p -> 0 < q -> k' <= k -> pow2_le k p q = true -> pow2_le k' p q = true.
Proof.
  intros Hp Hq Hk H. set (N := Z.max (- k) 0 + Z.max (- k') 0).
  rewrite (pow2_le_split k (k + N) N) in H by lia.
  rewrite (pow2_le_split k' (k' + N) N) by lia.
  apply Z.leb_le in H. apply Z.leb_le.
  assert (2 ^ (k' + N) <= 2 ^ (k + N)) by (apply Z.pow_le_mono_r; lia). nia.
Qed.

Lemma log2_q_spec (p q : Z) :
  0 < p -> 0 < q ->
  pow2_le (log2_q p q) p q = true /\ pow2_le (log2_q p q + 1) p q = false.
Proof.
  intros Hp Hq. pose proof (log2_bounds p Hp) as [Hp1 Hp2].
  pose proof (log2_bounds q Hq) as [Hq1 Hq2].
  pose proof (Z.log2_nonneg p). pose proof (Z.log2_nonneg q).
  set (lp := Z.log2 p) in *. set (lq := Z.log2 q) in *.
  assert (HA : pow2_le (lp - lq + 1) p q = false).
  { rewrite (pow2_le_split _ (lp + 1) lq) by lia. apply Z.leb_gt. nia. }
  assert (HB : pow2_le (lp - lq - 1) p q = true).
  { rewrite (pow2_le_split _ lp (lq + 1)) by lia. apply Z.leb_le. nia. }
  unfold log2_q. fold lp lq. destruct (pow2_le (lp - lq) p q) eqn:E.
  - split; assumption.
  - split; [exact HB | replace (lp - lq - 1 + 1) with (lp - lq) by lia; exact E].
Qed.

Lemma log2_q_unique (p q L : Z) :
  0 < p -> 0 < q -> pow2_le L p q = true -> pow2_le (L + 1) p q = false -> log2_q p q = L.
Proof.
  intros Hp Hq H1 H2. destruct (log2_q_spec p q Hp Hq) as [H3 H4].
  destruct (Z.lt_total (log2_q p q) L) as [Hlt | [Heq | Hgt]]; [| exact Heq |].
  - rewrite (pow2_le_anti L (log2_q p q + 1) p q Hp Hq ltac:(lia) H1) in H4. discriminate.
  - rewrite (pow2_le_anti (log2_q p q) (L + 1) p q Hp Hq ltac:(lia) H3) in H2. discriminate.
Qed.

Lemma pow2_double (D : Z) : 1 <= D -> 2 ^ D = 2 * 2 ^ (D - 1).
Proof. intros HD. rewrite <- Z.pow_succ_r by lia. f_equal. lia. Qed.

Lemma digits2_bounds (m : positive) :
  2 ^ (Zpos (digits2_pos m) - 1) <= Zpos m < 2 ^ Zpos (digits2_pos m).
Proof.
  induction m as [m IH | m IH |].
  - change (digits2_pos m~1) with (Pos.succ (digits2_pos m)).
    rewrite Pos2Z.inj_succ, (Pos2Z.inj_xI m).
    pose proof (pow2_double (Zpos (digits2_pos m)) ltac:(lia)).
    replace (Z.succ (Zpos (digits2_pos m)) - 1) with (Zpos (digits2_pos m)) by lia.
    rewrite Z.pow_succ_r by lia. lia.
  - change (digits2_pos m~0) with (Pos.succ (digits2_pos m)).
    rewrite Pos2Z.inj_succ, (Pos2Z.inj_xO m).
    pose proof (pow2_double (Zpos (digits2_pos m)) ltac:(lia)).
    replace (Z.succ (Zpos (digits2_pos m)) - 1) with (Zpos (digits2_pos m)) by lia.
    rewrite Z.pow_succ_r by lia. lia.
  - change (digits2_pos 1) with 1%positive. simpl. lia.
Qed.

Lemma digits2_log2 (m : positive) : Zpos (digits2_pos m) = Z.log2 (Zpos m) + 1.
Proof.
  pose proof (digits2_bounds m) as Hb.
  rewrite (Z.log2_unique (Zpos m) (Zpos (digits2_pos m) - 1)); [lia | lia |].
  replace (Z.succ (Zpos (digits2_pos m) - 1)) with (Zpos (digits2_pos m)) by lia. exact Hb.
Qed.

(** The canonical exponent of a valid mantissa. *)
Lemma bounded_exponent (m : positive) (e : Z) :
  SpecFloat.bounded prec emax m e = true ->
  Z.max (Z.log2 (Zpos m) - 52 + e) (-1074) = e /\ Z.log2 (Zpos m) <= 52 /\ e <= 971.
Proof.
  unfold SpecFloat.bounded, canonical_mantissa, fexp, emin, prec, emax.
  rewrite andb_true_iff, Z.eqb_eq, Z.leb_le, digits2_log2. intros [H1 H2]. lia.
Qed.

(** Rounding a rational that is a binary64 number gives that number. *)
Lemma round_q_exact (s : bool) (m : positive) (e p q : Z) :
  SpecFloat.bounded prec emax m e = true -> 0 < q ->
  p * 2 ^ Z.max (- e) 0 = q * Zpos m * 2 ^ Z.max e 0 ->
  round_q s p q = S754_finite s m e.
Proof.
  intros Hb Hq Hpq. destruct (bounded_exponent m e Hb) as (HE & Hd & He).
  pose proof (pow2_nonneg_max e). pose proof (pow2_nonneg_max (- e)).
  assert (Hp : 0 < p) by nia.
  pose proof (log2_bounds (Zpos m) ltac:(lia)) as [Hm1 Hm2].
  pose proof (Z.log2_nonneg (Zpos m)).
  assert (HL : log2_q p q = Z.log2 (Zpos m) + e).
  { apply log2_q_unique; [exact Hp | exact Hq | |].
    - rewrite (pow2_le_split _ (Z.log2 (Zpos m) + Z.max e 0) (Z.max (- e) 0)) by lia.
      apply Z.leb_le. rewrite Z.pow_add_r by lia. nia.
    - rewrite (pow2_le_split _ (Z.log2 (Zpos m) + 1 + Z.max e 0) (Z.max (- e) 0)) by lia.
      apply Z.leb_gt. rewrite Z.pow_add_r by lia. nia. }
  unfold round_q. replace (p <=? 0) with false by (symmetry; apply Z.leb_gt; lia).
  rewrite HL. replace (Z.max (Z.log2 (Zpos m) + e - 52) (-1074)) with e by lia.
  rewrite Hpq. replace (q * Zpos m * 2 ^ Z.max e 0) with (Zpos m * (q * 2 ^ Z.max e 0)) by ring.
  rewrite Z.div_mul by nia. rewrite ?Z.mod_mul by nia.
  replace (q * 2 ^ Z.max e 0 <? 2 * 0) with false by (symmetry; apply Z.ltb_ge; nia).
  replace (2 * 0 =? q * 2 ^ Z.max e 0) with false by (symmetry; apply Z.eqb_neq; nia).
  assert (Hlt : Zpos m < 2 ^ 53).
  { apply (Z.lt_le_trans _ _ _ Hm2). apply Z.pow_le_mono_r; lia. }
  cbn [orb andb]. unfold binary_pack. replace (Zpos m =? 2 ^ 53) with false by (symmetry; apply Z.eqb_neq; lia).
  simpl. replace (e <=? 971) with true by (symmetry; apply Z.leb_le; lia). reflexivity.
Qed.

(** [pow2_le (E + k)] compares [2^k] times the denominator of [round_q]
    with its numerator. *)
Lemma pow2_le_scaled (E k p q : Z) :
  0 <= k -> pow2_le (E + k) p q = (q * 2 ^ Z.max E 0 * 2 ^ k <=? p * 2 ^ Z.max (- E) 0).
Proof.
  intros Hk. rewrite (pow2_le_split _ (Z.max E 0 + k) (Z.max (- E) 0)) by lia.
  rewrite Z.pow_add_r, Z.mul_assoc by lia. reflexivity.
Qed.

(** The scaled quotient [num/den] of [round_q] is below [2^53], and at
    least [2^52] unless the exponent is the subnormal one. *)
Lemma round_q_scaled (p q : Z) :
  0 < p -> 0 < q ->
  let E := Z.max (log2_q p q - 52) (-1074) in
  0 < q * 2 ^ Z.max E 0 /\
  p * 2 ^ Z.max (- E) 0 < q * 2 ^ Z.max E 0 * 2 ^ 53 /\
  (E = -1074 \/ q * 2 ^ Z.max E 0 * 2 ^ 52 <= p * 2 ^ Z.max (- E) 0).
Proof.
  intros Hp Hq E. destruct (log2_q_spec p q Hp Hq) as [H1 H2].
  pose proof (pow2_nonneg_max E). split; [nia | split].
  - destruct (pow2_le (E + 53) p q) eqn:H53.
    + rewrite (pow2_le_anti (E + 53) (log2_q p q + 1) p q Hp Hq ltac:(unfold E; lia) H53) in H2.
      discriminate.
    + rewrite pow2_le_scaled in H53 by lia. apply Z.leb_gt in H53. exact H53.
  - destruct (Z.max_spec (log2_q p q - 52) (-1074)) as [[_ HE] | [_ HE]]; [left; exact HE | right].
    replace (log2_q p q) with (E + 52) in H1 by (unfold E; lia).
    rewrite pow2_le_scaled in H1 by lia. apply Z.leb_le in H1. exact H1.
Qed.

(** Round half to even of [num/den]. *)
Definition rne (num den : Z) : Z :=
  let m0 := num / den in
  let r := num mod den in
  if (den <? 2 * r) || ((2 * r =? den) && Z.odd m0) then m0 + 1 else m0.

(** The mantissa and the exponent [round_q] packs, for [p > 0]. *)
Definition round_parts (p q : Z) : Z * Z :=
  let E := Z.max (log2_q p q - 52) (-1074) in
  (rne (p * 2 ^ Z.max (- E) 0) (q * 2 ^ Z.max E 0), E).

Lemma round_q_parts (s : bool) (p q : Z) :
  0 < p -> round_q s p q = binary_pack s (fst (round_parts p q)) (snd (round_parts p q)).
Proof. intros Hp. unfold round_q. rewrite (proj2 (Z.leb_gt p 0) Hp). reflexivity. Qed.

(** The parts of [round_q]: a mantissa [m1 <= 2^53] at an exponent
    [E >= -1074], within half a unit of [p/q] at [E], normal unless [E] is
    the subnormal exponent. *)
Lemma round_parts_spec (p q : Z) :
  0 < p -> 0 < q ->
  let m1 := fst (round_parts p q) in let E := snd (round_parts p q) in
  E = Z.max (log2_q p q - 52) (-1074) /\ -1074 <= E /\ 0 <= m1 <= 2 ^ 53 /\
  (E = -1074 \/ 2 ^ 52 <= m1) /\
  Z.abs (2 * p * 2 ^ Z.max (- E) 0 - 2 * m1 * q * 2 ^ Z.max E 0) <= q * 2 ^ Z.max E 0.
Proof.
  intros Hp Hq. destruct (round_q_scaled p q Hp Hq) as (Hd & Hlt & Hge).
  unfold round_parts, rne. cbv zeta. cbn [fst snd].
  set (E := Z.max (log2_q p q - 52) (-1074)) in *.
  set (num := p * 2 ^ Z.max (- E) 0) in *. set (den := q * 2 ^ Z.max E 0) in *.
  pose proof (Z.div_mod num den ltac:(lia)) as Hdm. pose proof (Z.mod_pos_bound num den Hd) as Hr.
  set (m0 := num / den) in *. set (r := num mod den) in *.
  assert (Hm0 : m0 < 2 ^ 53) by nia.
  assert (Hm0' : E = -1074 \/ 2 ^ 52 <= m0) by (destruct Hge; [left | right]; nia).
  pose proof (Z.pow_pos_nonneg 2 (Z.max (- E) 0) ltac:(lia)).
  assert (0 <= m0) by nia.
  assert (En : 2 * p * 2 ^ Z.max (- E) 0 = 2 * num) by (unfold num; ring).
  assert (Ed : forall m, 2 * m * q * 2 ^ Z.max E 0 = 2 * m * den) by (intros; unfold den; ring).
  split; [reflexivity |]. rewrite En, Ed.
  destruct ((den <? 2 * r) || ((2 * r =? den) && Z.odd m0)) eqn:Hup;
    rewrite ?orb_true_iff, ?orb_false_iff, ?andb_true_iff, ?andb_false_iff,
      ?Z.ltb_lt, ?Z.ltb_ge, ?Z.eqb_eq, ?Z.eqb_neq in Hup;
    (split; [lia | split; [lia | split; [lia |]]]); apply Z.abs_le; lia.
Qed.

(** [round_q] packs a mantissa [m1 <= 2^53] at an exponent [E >= -1074]
    that is within half a unit of [p/q] at [E], normal unless [E] is the
    subnormal exponent. *)
Lemma round_q_pack (s : bool) (p q : Z) :
  0 < p -> 0 < q ->
  exists m1 E, round_q s p q = binary_pack s m1 E /\ -1074 <= E /\ 0 <= m1 <= 2 ^ 53 /\
    (E = -1074 \/ 2 ^ 52 <= m1) /\
    Z.abs (2 * p * 2 ^ Z.max (- E) 0 - 2 * m1 * q * 2 ^ Z.max E 0) <= q * 2 ^ Z.max E 0.
Proof.
  intros Hp Hq. destruct (round_parts_spec p q Hp Hq) as (_ & H).
  exists (fst (round_parts p q)), (snd (round_parts p q)). split; [apply round_q_parts, Hp | exact H].
Qed.

(** A mantissa below [2^53], normal unless the exponent is the subnormal
    one, is canonical. *)
Lemma bounded_normal (m : positive) (e : Z) :
  Zpos m < 2 ^ 53 -> (e = -1074 \/ -1074 <= e /\ 2 ^ 52 <= Zpos m) -> e <= 971 ->
  SpecFloat.bounded prec emax m e = true.
Proof.
  intros Hm He He'. unfold SpecFloat.bounded, canonical_mantissa, fexp, emin, prec, emax.
  rewrite digits2_log2. assert (Z.log2 (Zpos m) < 53) by (apply Z.log2_lt_pow2; lia).
  apply andb_true_iff; split; [apply Z.eqb_eq | apply Z.leb_le; lia].
  destruct He as [-> | [He Hm2]]; [lia |].
  assert (52 <= Z.log2 (Zpos m)) by (apply Z.log2_le_pow2; lia). lia.
Qed.

Lemma binary_pack_valid (s : bool) (m1 E : Z) :
  -1074 <= E -> 0 <= m1 <= 2 ^ 53 -> (E = -1074 \/ 2 ^ 52 <= m1) ->
  valid_binary prec emax (binary_pack s m1 E) = true.
Proof.
  intros HE Hm Hn. unfold binary_pack. destruct (Z.eqb_spec m1 (2 ^ 53)) as [Hc | Hc].
  - change (2 ^ 52) with (Zpos 4503599627370496).
    destruct (Z.leb_spec (E + 1) 971); [apply bounded_normal; lia | reflexivity].
  - destruct m1 as [| mp | mp]; [reflexivity | | lia].
    destruct (Z.leb_spec E 971); [apply bounded_normal; lia | reflexivity].
Qed.

(** A finite float out of [binary_pack] is the mantissa and exponent it
    was given, or the carry [2^53 * 2^E = 2^52 * 2^(E+1)]. *)
Lemma binary_pack_finite (s s' : bool) (m1 E : Z) (m : positive) (e : Z) :
  binary_pack s m1 E = S754_finite s' m e ->
  s' = s /\ ((Zpos m = m1 /\ e = E) \/ (m1 = 2 ^ 53 /\ Zpos m = 2 ^ 52 /\ e = E + 1)).
Proof.
  unfold binary_pack. destruct (Z.eqb_spec m1 (2 ^ 53)) as [Hc | Hc].
  - change (2 ^ 52) with (Zpos 4503599627370496).
    destruct (E + 1 <=? 971); intros H; inversion H; subst; auto.
  - destruct m1 as [| mp | mp]; try discriminate.
    destruct (E <=? 971); intros H; inversion H; subst; auto.
Qed.

Lemma round_q_nonpos (s : bool) (p q : Z) : p <= 0 -> round_q s p q = S754_zero s.
Proof. intros Hp. unfold round_q. rewrite (proj2 (Z.leb_le _ _) Hp). reflexivity. Qed.

(** Half a unit at [E] with mantissa [2^53] is within half a unit at
    [E + 1] with mantissa [2^52]. *)
Lemma half_ulp_carry (p q E : Z) :
  0 < q ->
  Z.abs (2 * p * 2 ^ Z.max (- E) 0 - 2 * 2 ^ 53 * q * 2 ^ Z.max E 0) <= q * 2 ^ Z.max E 0 ->
  Z.abs (2 * p * 2 ^ Z.max (- (E + 1)) 0 - 2 * 2 ^ 52 * q * 2 ^ Z.max (E + 1) 0)
    <= q * 2 ^ Z.max (E + 1) 0.
Proof.
  intros Hq H. destruct (Z.leb_spec 0 E) as [HE | HE].
  - rewrite (Z.max_r (- E)), (Z.max_r (- (E + 1))), (Z.max_l E), (Z.max_l (E + 1)) in * by lia.
    rewrite Z.pow_add_r in * by lia. pose proof (Z.pow_pos_nonneg 2 E ltac:(lia)).
    rewrite Z.pow_0_r in *. lia.
  - rewrite (Z.max_l (- E)), (Z.max_l (- (E + 1))), (Z.max_r E), (Z.max_r (E + 1)) in * by lia.
    replace (- E) with (- (E + 1) + 1) in H by lia.
    rewrite Z.pow_add_r in H by lia. rewrite Z.pow_0_r in *. lia.
Qed.

(** ** [float()] on a number token *)

Definition is_digit (c : Z) : bool := (48 <=? c) && (c <=? 57).

Fixpoint take_digits (s : list Z) : list Z * list Z :=
  match s with
  | c :: r => if is_digit c then let '(d, r') := take_digits r in (c :: d, r') else ([], s)
  | [] => ([], [])
  end.

(** The value of a digit string. *)
Definition dstep (acc c : Z) : Z := acc * 10 + (c - 48).
Definition dval (ds : list Z) : Z := fold_left dstep ds 0.

(** [e+XX], [e-XX] or [eXX] after the mantissa: the signed exponent. *)
Definition parse_exp (s : list Z) : option Z :=
  match s with
  | [] => Some 0
  | c :: r =>
      if (c =? 101) || (c =? 69) then
        let '(sg, r1) := match r with
                         | d :: r' => if d =? 43 then (1, r') else if d =? 45 then (-1, r') else (1, r)
                         | [] => (1, r)
                         end in
        match take_digits r1 with
        | ((_ :: _) as ed, []) => Some (sg * dval ed)
        | _ => None
        end
      else None
  end.

(** [float(t)] reads a sign, digits, an optional fraction and an
    optional exponent: the value is [M * 10^E]. *)
Definition parse_body (neg : bool) (t1 : list Z) : option (bool * Z * Z) :=
  let '(ip, t2) := take_digits t1 in
  let '(fp, t3) := match t2 with
                   | c :: r => if c =? 46 then take_digits r else ([], t2)
                   | [] => ([], [])
                   end in
  match ip ++ fp with
  | [] => None
  | _ => option_map (fun x => (neg, dval (ip ++ fp), x - Z.of_nat (length fp))) (parse_exp t3)
  end.

Definition parse_dec (t : list Z) : option (bool * Z * Z) :=
  match t with
  | c :: r => if c =? 45 then parse_body true r else parse_body false t
  | [] => None
  end.

(** The float nearest to [M * 10^E]. *)
Definition float_of_dec (neg : bool) (M E : Z) : float :=
  if 0 <=? E then round_q neg (M * 10 ^ E) 1 else round_q neg M (10 ^ (- E)).

Definition float_of_text (t : list Z) : option float :=
  option_map (fun '(neg, M, E) => float_of_dec neg M E) (parse_dec t).

(** [round_q] rounds correctly to binary64: its result is a canonical
    [SpecFloat] term (a mantissa of at most 53 bits, normalised unless
    subnormal, an exponent at most 971) or a zero or an infinity, and
    when it is the finite float [m * 2^e] the error is at most half a
    unit in the last place, [|p/q - m * 2^e| <= 2^e / 2]
    (cross-multiplied, without negative powers). *)
Lemma round_q_correct (s : bool) (p q : Z) :
  0 < q ->
  valid_binary prec emax (round_q s p q) = true /\
  forall m e, round_q s p q = S754_finite s m e ->
    Z.abs (2 * p * 2 ^ Z.max (- e) 0 - 2 * Zpos m * q * 2 ^ Z.max e 0) <= q * 2 ^ Z.max e 0.
Proof.
  intros Hq. destruct (Z.leb_spec p 0) as [Hp | Hp].
  { rewrite round_q_nonpos by exact Hp. split; [reflexivity | discriminate]. }
  destruct (round_q_pack s p q Hp Hq) as (m1 & E & -> & HE & Hm & Hn & Herr).
  split; [apply binary_pack_valid; assumption |]. intros m e H.
  apply binary_pack_finite in H as [_ [[-> ->] | (-> & -> & ->)]];
    [exact Herr | apply half_ulp_carry; assumption].
Qed.

(** ** [round_q] is monotone and depends only on [p/q]

    The rank [m1 * 2^(E + 1074)] of the parts of [round_q p q] counts
    subnormal units; it grows with [p/q], and a finite result is the
    float of its rank.  So the decimals that read back to one finite
    float form an interval, which is what makes the digit search of
    [float.__repr__] complete. *)

(** Case analysis on the rounding test of [rne]. *)
Ltac rne_cases :=
  repeat match goal with
  | |- context [if ?c then _ else _] =>
      let E := fresh "Er" in destruct c eqn:E;
      rewrite ?orb_true_iff, ?orb_false_iff, ?andb_true_iff, ?andb_false_iff,
        ?Z.ltb_lt, ?Z.ltb_ge, ?Z.eqb_eq, ?Z.eqb_neq in E
  end.

Lemma rne_scale (c a b : Z) : 0 < c -> 0 < b -> rne (c * a) (c * b) = rne a b.
Proof.
  intros Hc Hb. unfold rne.
  rewrite Z.div_mul_cancel_l, Z.mul_mod_distr_l by lia.
  pose proof (Z.mod_pos_bound a b Hb).
  replace (c * b <? 2 * (c * (a mod b))) with (b <? 2 * (a mod b))
    by (apply Bool.eq_iff_eq_true; rewrite !Z.ltb_lt; split; intros; nia).
  replace (2 * (c * (a mod b)) =? c * b) with (2 * (a mod b) =? b)
    by (apply Bool.eq_iff_eq_true; rewrite !Z.eqb_eq; split; intros; nia).
  reflexivity.
Qed.

Lemma rne_mono (a a' b : Z) : 0 < b -> a <= a' -> rne a b <= rne a' b.
Proof.
  intros Hb Ha. pose proof (Z.div_le_mono a a' b Hb Ha).
  pose proof (Z.div_mod a b ltac:(lia)). pose proof (Z.div_mod a' b ltac:(lia)).
  pose proof (Z.mod_pos_bound a b Hb). pose proof (Z.mod_pos_bound a' b Hb).
  unfold rne. destruct (Z.eq_dec (a / b) (a' / b)) as [E | E].
  - rewrite <- E in *. assert (a mod b <= a' mod b) by lia.
    rne_cases; try lia; intuition (try lia; congruence).
  - rne_cases; lia.
Qed.

(** [rne] grows with the quotient [a/b]. *)
Lemma rne_mono_q (a b c d : Z) : 0 < b -> 0 < d -> a * d <= c * b -> rne a b <= rne c d.
Proof.
  intros Hb Hd H. rewrite <- (rne_scale d a b), <- (rne_scale b c d) by assumption.
  rewrite (Z.mul_comm b d). apply rne_mono; nia.
Qed.

Lemma rne_ratio (a b c d : Z) : 0 < b -> 0 < d -> a * d = c * b -> rne a b = rne c d.
Proof. intros Hb Hd H. apply Z.le_antisymm; apply rne_mono_q; lia. Qed.

Lemma pow2_le_mono (k p q p' q' : Z) :
  0 < q -> 0 < q' -> p * q' <= p' * q -> pow2_le k p q = true -> pow2_le k p' q' = true.
Proof.
  intros Hq Hq' Hpq H. unfold pow2_le in *. rewrite Z.leb_le in *.
  pose proof (pow2_nonneg_max k). pose proof (pow2_nonneg_max (- k)).
  apply (Z.mul_le_mono_pos_l _ _ q Hq). nia.
Qed.

(** [floor(log2(p/q))] grows with [p/q]. *)
Lemma log2_q_mono (p q p' q' : Z) :
  0 < p -> 0 < q -> 0 < q' -> p * q' <= p' * q -> log2_q p q <= log2_q p' q'.
Proof.
  intros Hp Hq Hq' Hpq. assert (Hp' : 0 < p') by nia.
  destruct (log2_q_spec p q Hp Hq) as [H1 _]. destruct (log2_q_spec p' q' Hp' Hq') as [_ H2].
  apply Z.nlt_ge. intros Hlt.
  apply (pow2_le_mono _ p q p' q' Hq Hq' Hpq), (pow2_le_anti _ (log2_q p' q' + 1)) in H1;
    [congruence | assumption .. | lia].
Qed.

Lemma round_parts_ratio (p q p' q' : Z) :
  0 < p -> 0 < q -> 0 < q' -> p * q' = p' * q -> round_parts p q = round_parts p' q'.
Proof.
  intros Hp Hq Hq' Hpq. assert (Hp' : 0 < p') by nia.
  assert (HL : log2_q p q = log2_q p' q') by (apply Z.le_antisymm; apply log2_q_mono; lia).
  unfold round_parts. rewrite HL. f_equal. set (E := Z.max _ _).
  pose proof (pow2_nonneg_max E). pose proof (pow2_nonneg_max (- E)).
  apply rne_ratio; nia.
Qed.

(** [round_q] depends only on the rational [p/q]. *)
Lemma round_q_ratio (s : bool) (p q p' q' : Z) :
  0 < q -> 0 < q' -> p * q' = p' * q -> round_q s p q = round_q s p' q'.
Proof.
  intros Hq Hq' Hpq. destruct (Z.leb_spec p 0) as [Hp | Hp].
  - rewrite !round_q_nonpos by nia. reflexivity.
  - rewrite !round_q_parts by nia. rewrite (round_parts_ratio p q p' q') by lia. reflexivity.
Qed.

(** The value of the parts of [round_q] in units of [2^-1074]. *)
Definition round_rank (p q : Z) : Z :=
  fst (round_parts p q) * 2 ^ (snd (round_parts p q) + 1074).

Lemma pow2_shift (E E' : Z) : -1074 <= E <= E' -> 2 ^ (E' + 1074) = 2 ^ (E + 1074) * 2 ^ (E' - E).
Proof. intros H. rewrite <- Z.pow_add_r by lia. f_equal. lia. Qed.

(** The rank of [round_q] grows with [p/q]. *)
Lemma round_rank_mono (p q p' q' : Z) :
  0 < p -> 0 < q -> 0 < q' -> p * q' <= p' * q -> round_rank p q <= round_rank p' q'.
Proof.
  intros Hp Hq Hq' Hpq. assert (Hp' : 0 < p') by nia.
  destruct (round_parts_spec p q Hp Hq) as (HE & HE1 & Hm & _).
  destruct (round_parts_spec p' q' Hp' Hq') as (HE' & HE1' & Hm' & Hn' & _).
  pose proof (log2_q_mono p q p' q' Hp Hq Hq' Hpq).
  unfold round_rank.
  set (E := snd (round_parts p q)) in *. set (E' := snd (round_parts p' q')) in *.
  assert (R1 : fst (round_parts p q) = rne (p * 2 ^ Z.max (- E) 0) (q * 2 ^ Z.max E 0)) by reflexivity.
  assert (R2 : fst (round_parts p' q') = rne (p' * 2 ^ Z.max (- E') 0) (q' * 2 ^ Z.max E' 0))
    by reflexivity.
  set (m1 := fst (round_parts p q)) in *. set (m1' := fst (round_parts p' q')) in *.
  rewrite (pow2_shift E E') by lia.
  assert (HX : 0 < 2 ^ (E + 1074)) by (apply Z.pow_pos_nonneg; lia).
  destruct (Z.eq_dec E E') as [<- | HEE].
  - rewrite Z.sub_diag, Z.pow_0_r, Z.mul_1_r. apply Z.mul_le_mono_nonneg_r; [lia |].
    pose proof (pow2_nonneg_max E). pose proof (pow2_nonneg_max (- E)).
    rewrite R1, R2. apply rne_mono_q; nia.
  - destruct Hn' as [Hn' | Hn']; [lia |].
    assert (H2 : 2 <= 2 ^ (E' - E)) by (rewrite <- (Z.pow_1_r 2) at 1; apply Z.pow_le_mono_r; lia).
    assert (m1 <= m1' * 2 ^ (E' - E)) 
      by (pose proof (Z.mul_le_mono_nonneg (2 ^ 52) m1' 2 (2 ^ (E' - E)) ltac:(lia) Hn' ltac:(lia) H2);
          lia).
    transitivity (m1' * 2 ^ (E' - E) * 2 ^ (E + 1074));
      [apply Z.mul_le_mono_nonneg_r; lia | apply Z.eq_le_incl; ring].
Qed.

Lemma binary_pack_carry (s : bool) (E : Z) : binary_pack s (2 ^ 53) E = binary_pack s (2 ^ 52) (E + 1).
Proof. reflexivity. Qed.

(** Two parts of equal rank in different binades are the carry
    [2^53 * 2^E = 2^52 * 2^(E+1)]. *)
Lemma rank_binade (m1 E m2 E' : Z) :
  -1074 <= E < E' -> 0 <= m1 <= 2 ^ 53 -> 2 ^ 52 <= m2 ->
  m1 * 2 ^ (E + 1074) = m2 * 2 ^ (E' + 1074) -> m1 = 2 ^ 53 /\ m2 = 2 ^ 52 /\ E' = E + 1.
Proof.
  intros HE Hm1 Hm2 H. rewrite (pow2_shift E E') in H by lia.
  assert (HX : 0 < 2 ^ (E + 1074)) by (apply Z.pow_pos_nonneg; lia).
  assert (H1 : m1 = m2 * 2 ^ (E' - E)) by nia.
  destruct (Z.eq_dec E' (E + 1)) as [HE1 | HE1].
  - rewrite HE1, Z.add_simpl_l, Z.pow_1_r in H1. lia.
  - assert (4 <= 2 ^ (E' - E)) by (change 4 with (2 ^ 2); apply Z.pow_le_mono_r; lia). nia.
Qed.

(** Parts of equal rank pack to the same float. *)
Lemma pack_rank (s : bool) (m1 E m2 E' : Z) :
  -1074 <= E -> 0 <= m1 <= 2 ^ 53 -> (E = -1074 \/ 2 ^ 52 <= m1) ->
  -1074 <= E' -> 0 <= m2 <= 2 ^ 53 -> (E' = -1074 \/ 2 ^ 52 <= m2) ->
  m1 * 2 ^ (E + 1074) = m2 * 2 ^ (E' + 1074) -> binary_pack s m1 E = binary_pack s m2 E'.
Proof.
  intros HE Hm Hn HE' Hm' Hn' H. destruct (Z.lt_total E E') as [Hlt | [<- | Hgt]].
  - destruct Hn' as [Hn' | Hn']; [lia |].
    destruct (rank_binade m1 E m2 E') as (-> & -> & ->); try lia. apply binary_pack_carry.
  - assert (0 < 2 ^ (E + 1074)) by (apply Z.pow_pos_nonneg; lia).
    replace m2 with m1 by nia. reflexivity.
  - destruct Hn as [Hn | Hn]; [lia |].
    destruct (rank_binade m2 E' m1 E) as (-> & -> & ->); try lia. symmetry. apply binary_pack_carry.
Qed.

(** [round_q] is a function of the rank. *)
Lemma round_q_rank (s : bool) (p q p' q' : Z) :
  0 < p -> 0 < q -> 0 < p' -> 0 < q' ->
  round_rank p q = round_rank p' q' -> round_q s p q = round_q s p' q'.
Proof.
  intros Hp Hq Hp' Hq' H. rewrite !round_q_parts by assumption.
  destruct (round_parts_spec p q Hp Hq) as (_ & HE & Hm & Hn & _).
  destruct (round_parts_spec p' q' Hp' Hq') as (_ & HE' & Hm' & Hn' & _).
  apply pack_rank; assumption.
Qed.

(** A finite result of [round_q] is the float of the rank. *)
Lemma round_q_finite_rank (s s' : bool) (p q : Z) (m : positive) (e : Z) :
  0 < q -> round_q s p q = S754_finite s' m e -> 0 < p /\ Zpos m * 2 ^ (e + 1074) = round_rank p q.
Proof.
  intros Hq H. destruct (Z.leb_spec p 0) as [Hp | Hp]; [rewrite round_q_nonpos in H by exact Hp; discriminate |].
  split; [exact Hp |]. rewrite round_q_parts in H by exact Hp.
  destruct (round_parts_spec p q Hp Hq) as (_ & HE & _).
  unfold round_rank. apply binary_pack_finite in H as [_ [[Hm He] | (Hm1 & Hm & He)]].
  - rewrite Hm, He. reflexivity.
  - rewrite Hm1, Hm, He. replace (snd (round_parts p q) + 1 + 1074) with (snd (round_parts p q) + 1074 + 1) by ring.
    rewrite Z.pow_add_r, Z.pow_1_r by lia. ring.
Qed.

(** The rationals that [round_q] sends to one finite float form an
    interval: between two of them, every [p2/q2] rounds to it too. *)
Lemma round_q_between (s s' : bool) (p1 q1 p2 q2 p3 q3 : Z) (m : positive) (e : Z) :
  0 < q1 -> 0 < q2 -> 0 < q3 -> p1 * q2 <= p2 * q1 -> p2 * q3 <= p3 * q2 ->
  round_q s p1 q1 = S754_finite s' m e -> round_q s p3 q3 = S754_finite s' m e ->
  round_q s p2 q2 = S754_finite s' m e.
Proof.
  intros Hq1 Hq2 Hq3 H12 H23 H1 H3.
  destruct (round_q_finite_rank s s' p1 q1 m e Hq1 H1) as [Hp1 R1].
  destruct (round_q_finite_rank s s' p3 q3 m e Hq3 H3) as [Hp3 R3].
  assert (Hp2 : 0 < p2) by nia.
  pose proof (round_rank_mono p1 q1 p2 q2 Hp1 Hq1 Hq2 H12).
  pose proof (round_rank_mono p2 q2 p3 q3 Hp2 Hq2 Hq3 H23).
  rewrite <- H1. apply round_q_rank; lia.
Qed.

(** ** Rounding a rational near a float *)

Lemma bounded_facts (m : positive) (e : Z) :
  SpecFloat.bounded prec emax m e = true ->
  Zpos m < 2 ^ 53 /\ -1074 <= e <= 971 /\ (e = -1074 \/ 2 ^ 52 <= Zpos m).
Proof.
  intros Hb. destruct (bounded_exponent m e Hb) as (HE & Hl & He).
  pose proof (log2_bounds (Zpos m) ltac:(lia)) as [H1 H2].
  assert (Zpos m < 2 ^ 53) by (apply (Z.lt_le_trans _ _ _ H2), Z.pow_le_mono_r; lia).
  split; [assumption | split; [lia |]].
  destruct (Z.eq_dec e (-1074)) as [-> | Hne]; [left; reflexivity | right].
  replace 52 with (Z.log2 (Zpos m)) by lia. exact H1.
Qed.

(** The error bound of [round_q] in units of [2^-1074]. *)
Lemma round_rank_error (p q : Z) :
  0 < p -> 0 < q ->
  Z.abs (2 * p * 2 ^ 1074 - 2 * round_rank p q * q) <= q * 2 ^ (snd (round_parts p q) + 1074).
Proof.
  intros Hp Hq. destruct (round_parts_spec p q Hp Hq) as (_ & HE & _ & _ & Herr).
  unfold round_rank. set (E := snd (round_parts p q)) in *. set (m1 := fst (round_parts p q)) in *.
  set (c := 2 ^ (1074 - Z.max (- E) 0)).
  assert (Hc : 0 < c) by (apply Z.pow_pos_nonneg; lia).
  assert (H1 : 2 ^ 1074 = 2 ^ Z.max (- E) 0 * c) by (unfold c; rewrite <- Z.pow_add_r by lia; f_equal; lia).
  assert (H2 : 2 ^ (E + 1074) = 2 ^ Z.max E 0 * c) by (unfold c; rewrite <- Z.pow_add_r by lia; f_equal; lia).
  rewrite H1, H2. replace (2 * p * (2 ^ Z.max (- E) 0 * c) - 2 * (m1 * (2 ^ Z.max E 0 * c)) * q)
    with ((2 * p * 2 ^ Z.max (- E) 0 - 2 * m1 * q * 2 ^ Z.max E 0) * c) by ring.
  rewrite Z.abs_mul, (Z.abs_eq c) by lia. nia.
Qed.

(** Below [2^(e+53)], the exponent [round_q] chooses is at most [e]. *)
Lemma round_parts_exp_le (p q e : Z) :
  0 < p -> 0 < q -> -1074 <= e -> p * 2 ^ 1074 < q * 2 ^ (e + 1074 + 53) ->
  snd (round_parts p q) <= e.
Proof.
  intros Hp Hq He H. destruct (log2_q_spec p q Hp Hq) as [HL _].
  assert (log2_q p q <= e + 52).
  { apply Z.nlt_ge. intros Hlt. apply (pow2_le_anti (log2_q p q) (e + 53) p q Hp Hq ltac:(lia)) in HL.
    rewrite (pow2_le_split _ (e + 1074 + 53) 1074) in HL by lia. apply Z.leb_le in HL. lia. }
  unfold round_parts. cbn [snd]. lia.
Qed.

(** The arithmetic of [round_q_near]: [X/A] is within half a unit of
    [m * T] (and within a quarter below it when [m * T] starts a
    binade), and within half a unit of [m1]; the mantissa [m1] is then
    [m * T], [T = 2^(e - E)] being [1], or [2] at a binade start. *)
Lemma near_rank_core (m m1 T A X : Z) :
  0 < A -> (T = 1 \/ T = 2 \/ 4 <= T) -> m < 2 ^ 53 -> 0 <= m1 <= 2 ^ 53 -> (T = 1 \/ 2 ^ 52 <= m) ->
  Z.abs (X - 2 * m * T * A) < T * A -> Z.abs (X - 2 * m1 * A) <= A ->
  (m = 2 ^ 52 -> T = 1 \/ 4 * m * T * A - 2 * X < T * A) ->
  m1 = m * T.
Proof.
  intros HA HT Hm Hm1 Hn H1 H2 H3. apply Z.abs_lt in H1. apply Z.abs_le in H2.
  destruct HT as [-> | [-> | HT]].
  - assert ((m1 - m) * A < A) by lia. assert ((m - m1) * A < A) by lia. nia.
  - destruct Hn as [Hn | Hn]; [discriminate |].
    assert (Hm2 : m = 2 ^ 52) by (assert ((4 * m - 2) * A < (2 ^ 54 + 1) * A) by nia; nia).
    destruct (H3 Hm2) as [H3' | H3']; [discriminate |]. subst m.
    assert ((2 ^ 54 - 2) * A < 2 * m1 * A) by lia. nia.
  - destruct Hn as [Hn | Hn]; [lia |].
    assert ((2 * m - 1) * T * A < (2 ^ 54 + 1) * A) by nia.
    assert ((2 ^ 53 - 1) * 4 * A <= (2 * m - 1) * T * A) by nia. nia.
Qed.

(** [round_q] rounds [p/q] to the float [m * 2^e] when [p/q] is within
    half a unit of it, and within a quarter unit below it when [m] is
    [2^52] above the subnormal range (there the unit below is halved).
    Both are written multiplied by [2 * q * 2^1074]. *)
Lemma round_q_near (s : bool) (m : positive) (e p q : Z) :
  SpecFloat.bounded prec emax m e = true -> 0 < q ->
  Z.abs (2 * p * 2 ^ 1074 - 2 * Zpos m * 2 ^ (e + 1074) * q) < q * 2 ^ (e + 1074) ->
  (Zpos m = 2 ^ 52 -> e = -1074 \/
     4 * (Zpos m * 2 ^ (e + 1074) * q - p * 2 ^ 1074) < q * 2 ^ (e + 1074)) ->
  round_q s p q = S754_finite s m e.
Proof.
  intros Hb Hq H1 H2. destruct (bounded_facts m e Hb) as (Hm & He & Hn).
  assert (HU : 0 < 2 ^ (e + 1074)) by (apply Z.pow_pos_nonneg; lia).
  assert (Hp : 0 < p) by (pose proof (Z.pow_pos_nonneg 2 1074); apply Z.abs_lt in H1; nia).
  set (P := Zpos m * 2 ^ Z.max e 0). set (Q := 2 ^ Z.max (- e) 0).
  assert (Hv : round_q s P Q = S754_finite s m e)
    by (apply round_q_exact; [exact Hb | apply pow2_nonneg_max | unfold P, Q; ring]).
  destruct (round_q_finite_rank s s P Q m e (pow2_nonneg_max _) Hv) as [HP HR].
  rewrite <- Hv. apply round_q_rank; [exact Hp | exact Hq | exact HP | apply pow2_nonneg_max |].
  rewrite <- HR. pose proof (round_rank_error p q Hp Hq) as Herr.
  destruct (round_parts_spec p q Hp Hq) as (_ & HE & Hm1 & _).
  assert (HEe : snd (round_parts p q) <= e).
  { apply round_parts_exp_le; [lia | lia | lia |]. rewrite Z.pow_add_r by lia.
    apply Z.abs_lt in H1. nia. }
  unfold round_rank in *. set (E := snd (round_parts p q)) in *. set (m1 := fst (round_parts p q)) in *.
  rewrite (pow2_shift E e) in * by lia.
  assert (HW : 0 < 2 ^ (E + 1074)) by (apply Z.pow_pos_nonneg; lia).
  assert (HT : 2 ^ (e - E) = 1 \/ 2 ^ (e - E) = 2 \/ 4 <= 2 ^ (e - E)).
  { destruct (Z.eq_dec e E) as [<- | H]; [left; rewrite Z.sub_diag; reflexivity |].
    destruct (Z.eq_dec e (E + 1)) as [-> | H']; [right; left; rewrite Z.add_simpl_l; reflexivity |].
    right; right. change 4 with (2 ^ 2). apply Z.pow_le_mono_r; lia. }
  rewrite (near_rank_core (Zpos m) m1 (2 ^ (e - E)) (2 ^ (E + 1074) * q) (2 * p * 2 ^ 1074));
    [ring | nia | exact HT | exact Hm | exact Hm1 | | | | ].
  - destruct (Z.eq_dec e E) as [<- | H]; [left; rewrite Z.sub_diag; reflexivity |].
    destruct Hn as [Hn | Hn]; [lia | right; exact Hn].
  - replace (2 * Zpos m * 2 ^ (e - E) * (2 ^ (E + 1074) * q))
      with (2 * Zpos m * (2 ^ (E + 1074) * 2 ^ (e - E)) * q) by ring.
    replace (2 ^ (e - E) * (2 ^ (E + 1074) * q)) with (q * (2 ^ (E + 1074) * 2 ^ (e - E))) by ring.
    exact H1.
  - replace (2 * m1 * (2 ^ (E + 1074) * q)) with (2 * (m1 * 2 ^ (E + 1074)) * q) by ring.
    rewrite (Z.mul_comm (2 ^ (E + 1074)) q). exact Herr.
  - intros Hm52. destruct (H2 Hm52) as [He' | H2'].
    + left. replace (e - E) with 0 by lia. reflexivity.
    + right. nia.
Qed.
