(* ===== verification/PyVal.v ===== *)
(** * Python values and the built-ins the formatter applies to them

    The engine's detections are Python values: lists and tuples of
    numbers and strings.  This file models those values ([pyval]) and the
    built-ins of lines 72-92 of [ocr_service.py]: [isinstance(v, (list,
    tuple))], [len], [v[i]], iteration, [<] and [>], [min], [max], [int()]
    and [float()], each with the exception CPython 3.11 raises and its
    message.  A [str] is the sequence of its code points.  Comparisons
    follow CPython's rich comparison: numbers by exact value, strings by
    code points, lists and tuples lexicographically.  [int()] and
    [float()] of a string parse it as CPython does (whitespace, sign,
    underscores, [inf]/[nan], correct rounding by [Strtod]).  What the
    model leaves out raises its own [NotModelled]: object identity (two
    NaN items compared for equality inside containers), non-ASCII
    characters in a string passed to [int()] or [float()], and integer
    strings beyond CPython's 4300-digit limit. *)

From Stdlib Require Import String Ascii ZArith QArith List Lia Bool SpecFloat.
From S2P Require Import Prelude PyNum Strtod.
Import ListNotations.

Open Scope Z_scope.

Inductive pyval : Type :=
| PNone
| PNum (n : pynum)
| PStr (cps : list Z)
| PList (items : list pyval)
| PTuple (items : list pyval).

(** The code points of an ASCII literal, to write [str] constants. *)
Fixpoint str_lit (s : string) : list Z :=
  match s with
  | EmptyString => []
  | String c s' => Z.of_nat (nat_of_ascii c) :: str_lit s'
  end.

(** [type(v).__name__], for the messages of [TypeError]. *)
Definition type_name (v : pyval) : string :=
  match v with
  | PNone => "NoneType"
  | PNum (NInt _) => "int"
  | PNum (NFloat _) => "float"
  | PStr _ => "str"
  | PList _ => "list"
  | PTuple _ => "tuple"
  end.

(** [isinstance(v, (list, tuple))] *)
Definition is_list_or_tuple (v : pyval) : bool :=
  match v with
  | PList _ | PTuple _ => true
  | _ => false
  end.

(** The items of a list or tuple, for code that has checked
    [is_list_or_tuple]. *)
Definition seq_items (v : pyval) : list pyval :=
  match v with
  | PList l | PTuple l => l
  | _ => []
  end.

(** [len(v)] *)
Definition py_len (v : pyval) : res nat :=
  match v with
  | PList l | PTuple l => Ok (length l)
  | PStr cps => Ok (length cps)
  | PNone | PNum _ => Raise (TypeError ("object of type '" ++ type_name v ++ "' has no len()"))
  end.

(** [v[i]] for a non-negative index [i]. *)
Definition py_getitem (v : pyval) (i : nat) : res pyval :=
  match v with
  | PList l =>
      match nth_error l i with
      | Some x => Ok x
      | None => Raise (IndexError "list index out of range")
      end
  | PTuple l =>
      match nth_error l i with
      | Some x => Ok x
      | None => Raise (IndexError "tuple index out of range")
      end
  | PStr cps =>
      match nth_error cps i with
      | Some c => Ok (PStr [c])
      | None => Raise (IndexError "string index out of range")
      end
  | PNone | PNum _ => Raise (TypeError ("'" ++ type_name v ++ "' object is not subscriptable"))
  end.

(** [for x in v]: the items iterated over. *)
Definition py_iter (v : pyval) : res (list pyval) :=
  match v with
  | PList l | PTuple l => Ok l
  | PStr cps => Ok (map (fun c => PStr [c]) cps)
  | PNone | PNum _ => Raise (TypeError ("'" ++ type_name v ++ "' object is not iterable"))
  end.

(** Two strings compared code point by code point, a proper prefix
    first ([unicode_compare]). *)
Fixpoint str_compare (s t : list Z) : comparison :=
  match s, t with
  | [], [] => Eq
  | [], _ :: _ => Lt
  | _ :: _, [] => Gt
  | c :: s', d :: t' => match Z.compare c d with Eq => str_compare s' t' | r => r end
  end.

Definition str_eqb (s t : list Z) : bool :=
  match str_compare s t with Eq => true | _ => false end.

(** [x == y] for two items of containers being compared
    ([PyObject_RichCompareBool]): numbers by exact value, strings by code
    points, lists with lists and tuples with tuples of the same length
    item by item, [None] with [None]; values of different kinds are not
    equal.  CPython tests identity first, so that a NaN is equal to
    itself when both items are the same object; the model has no object
    identity, and raises [NotModelled] when two NaNs meet. *)
Fixpoint py_eq (a b : pyval) : res bool :=
  match a, b with
  | PNone, PNone => Ok true
  | PNum x, PNum y =>
      match xval_of x, xval_of y with
      | Some u, Some v => Ok (match xcompare u v with Eq => true | _ => false end)
      | None, None => Raise (NotModelled "identity of two NaN items")
      | _, _ => Ok false
      end
  | PStr s, PStr t => Ok (str_eqb s t)
  | PList l, PList m | PTuple l, PTuple m =>
      if Nat.eqb (length l) (length m) then
        (fix items_eq (l m : list pyval) : res bool :=
           match l, m with
           | x :: l', y :: m' => let* e := py_eq x y in if e then items_eq l' m' else Ok false
           | _, _ => Ok true
           end) l m
      else Ok false
  | _, _ => Ok false
  end.

(** [a < b] ([gt = false]) or [a > b] ([gt = true]): numbers by exact
    value (false with NaN), strings by code points, lists with lists and
    tuples with tuples lexicographically ([list_richcompare]: the first
    index whose items differ decides, with the same operator; otherwise
    the shorter sequence is the smaller); any other pair raises
    [TypeError]. *)
Fixpoint py_cmp (gt : bool) (a b : pyval) : res bool :=
  match a, b with
  | PNum x, PNum y => Ok (if gt then num_lt y x else num_lt x y)
  | PStr s, PStr t =>
      Ok (match str_compare s t with Lt => negb gt | Gt => gt | Eq => false end)
  | PList l, PList m | PTuple l, PTuple m =>
      (fix items_cmp (l m : list pyval) : res bool :=
         match l, m with
         | x :: l', y :: m' => let* e := py_eq x y in if e then items_cmp l' m' else py_cmp gt x y
         | [], _ :: _ => Ok (negb gt)
         | _ :: _, [] => Ok gt
         | [], [] => Ok false
         end) l m
  | _, _ =>
      Raise (TypeError ("'" ++ (if gt then ">" else "<") ++ "' not supported between instances of '"
                        ++ type_name a ++ "' and '" ++ type_name b ++ "'"))
  end.

(** [a < b] *)
Definition py_lt (a b : pyval) : res bool := py_cmp false a b.

(** [a > b] *)
Definition py_gt (a b : pyval) : res bool := py_cmp true a b.

(** The loop of CPython's [min_max]: the running best is replaced by an
    item only when [item < best] ([min]) or [item > best] ([max]). *)
Fixpoint extremum_loop (better : pyval -> pyval -> res bool) (best : pyval)
    (items : list pyval) : res pyval :=
  match items with
  | [] => Ok best
  | item :: rest =>
      let* b := better item best in
      extremum_loop better (if b then item else best) rest
  end.

(** [min(items)]; the messages are CPython 3.11's. *)
Definition py_min (items : list pyval) : res pyval :=
  match items with
  | [] => Raise (ValueError "min() arg is an empty sequence")
  | first :: rest => extremum_loop py_lt first rest
  end.

(** [max(items)] *)
Definition py_max (items : list pyval) : res pyval :=
  match items with
  | [] => Raise (ValueError "max() arg is an empty sequence")
  | first :: rest => extremum_loop py_gt first rest
  end.

(** *** [int()] and [float()] of a [str]

    CPython strips whitespace, reads an optional sign and digits in
    which single underscores may separate two digits.  Non-ASCII digits
    and spaces (which CPython translates to ASCII first) are outside the
    model and raise [NotModelled]. *)

Definition is_ascii_space (c : Z) : bool := ((9 <=? c) && (c <=? 13)) || ((28 <=? c) && (c <=? 32)).

Fixpoint drop_spaces (s : list Z) : list Z :=
  match s with
  | c :: r => if is_ascii_space c then drop_spaces r else s
  | [] => []
  end.

(** [s.strip()] with the whitespace of [int()] and [float()]. *)
Definition strip_spaces (s : list Z) : list Z := rev (drop_spaces (rev (drop_spaces s))).

Definition split_sign (t : list Z) : bool * list Z :=
  match t with
  | c :: b => if c =? 45 then (true, b) else if c =? 43 then (false, b) else (false, t)
  | [] => (false, [])
  end.

(** Removes the underscores, each of which must sit between two digits;
    [after_digit] tells whether the previous character was a digit. *)
Fixpoint drop_underscores (after_digit : bool) (s : list Z) : option (list Z) :=
  match s with
  | [] => Some []
  | c :: r =>
      if c =? 95 then
        match r with
        | d :: _ => if after_digit && is_digit d then drop_underscores false r else None
        | [] => None
        end
      else option_map (cons c) (drop_underscores (is_digit c) r)
  end.

Definition hex_lower (d : Z) : Z := if d <? 10 then 48 + d else 87 + d.

(** [repr(s)] of an ASCII string, for the messages of [ValueError]:
    single quotes unless the text has a single quote and no double one,
    backslash escapes for the quote, the backslash, tab, newline and
    carriage return, [\xhh] for the other control characters. *)
Definition str_repr (s : list Z) : string :=
  let q := if existsb (Z.eqb 39) s && negb (existsb (Z.eqb 34) s) then 34 else 39 in
  let esc (c : Z) : list Z :=
    if (c =? q) || (c =? 92) then [92; c]
    else if c =? 9 then [92; 116] else if c =? 10 then [92; 110] else if c =? 13 then [92; 114]
    else if (c <? 32) || (c =? 127) then [92; 120; hex_lower (c / 16); hex_lower (c mod 16)]
    else [c] in
  string_of_list_ascii (map (fun c => ascii_of_nat (Z.to_nat c)) (q :: concat (map esc s) ++ [q])).

Definition has_non_ascii (s : list Z) : bool := existsb (fun c => 128 <=? c) s.

(** [int(s)] in base 10. *)
Definition int_of_str (s : list Z) : res Z :=
  if has_non_ascii s then Raise (NotModelled "int() of a str with non-ASCII characters") else
  let '(neg, body) := split_sign (strip_spaces s) in
  match drop_underscores false body with
  | Some ((_ :: _) as ds) =>
      if forallb is_digit ds then
        if Nat.ltb 4300 (length ds) then Raise (NotModelled "int() of more than 4300 digits")
        else Ok (if neg then - dval ds else dval ds)
      else Raise (ValueError ("invalid literal for int() with base 10: " ++ str_repr s))
  | _ => Raise (ValueError ("invalid literal for int() with base 10: " ++ str_repr s))
  end.

Definition ascii_lower (c : Z) : Z := if (65 <=? c) && (c <=? 90) then c + 32 else c.

(** [float(s)]: [inf], [infinity] and [nan] in any case, or a decimal
    number, rounded to the nearest binary64 value by [float_of_dec]. *)
Definition float_of_str (s : list Z) : res float :=
  if has_non_ascii s then Raise (NotModelled "float() of a str with non-ASCII characters") else
  let '(neg, body) := split_sign (strip_spaces s) in
  let w := map ascii_lower body in
  if str_eqb w (str_lit "inf") || str_eqb w (str_lit "infinity") then Ok (S754_infinity neg)
  else if str_eqb w (str_lit "nan") then Ok S754_nan
  else
    match match drop_underscores false body with Some b => parse_body neg b | None => None end with
    | Some (n, M, E) => Ok (float_of_dec n M E)
    | None => Raise (ValueError ("could not convert string to float: " ++ str_repr s))
    end.

(** [int(v)] *)
Definition py_int (v : pyval) : res Z :=
  match v with
  | PNum n => num_int n
  | PStr s => int_of_str s
  | _ => Raise (TypeError ("int() argument must be a string, a bytes-like object or a real number, not '"
                           ++ type_name v ++ "'"))
  end.

(** [float(v)] *)
Definition py_float (v : pyval) : res float :=
  match v with
  | PNum n => num_float n
  | PStr s => float_of_str s
  | _ => Raise (TypeError ("float() argument must be a string or a real number, not '"
                           ++ type_name v ++ "'"))
  end.

(** ** Order of values *)

(** The exact value of a numeric [pyval]. *)
Definition val_of (v : pyval) : option xval :=
  match v with
  | PNum n => xval_of n
  | _ => None
  end.

(** [a] and [b] are non-NaN numbers and [a]'s value is at most [b]'s. *)
Definition vle (a b : pyval) : Prop :=
  exists x y, val_of a = Some x /\ val_of b = Some y /\ xle x y.

(** The finite value of a numeric [pyval]: what [int()] truncates. *)
Definition finite_of (v : pyval) : option Q :=
  match val_of v with
  | Some (XFin q) => Some q
  | _ => None
  end.

Lemma vle_trans (a b c : pyval) : vle a b -> vle b c -> vle a c.
Proof.
  intros (x & y & Ha & Hb & Hxy) (y' & z & Hb' & Hc & Hyz).
  rewrite Hb in Hb'. injection Hb' as <-. exists x, z. eauto using xle_trans.
Qed.

Definition is_num (v : pyval) : bool := match v with PNum _ => true | _ => false end.
Definition is_str (v : pyval) : bool := match v with PStr _ => true | _ => false end.

Lemma vle_num (a b : pyval) : vle a b -> is_num a = true /\ is_num b = true.
Proof. intros (x & y & Ha & Hb & _). destruct a, b; try discriminate; split; reflexivity. Qed.

(** A comparison that succeeds with [True] is between two numbers, or
    between two values that are not numbers. *)
Lemma py_cmp_true (gt : bool) (a b : pyval) :
  py_cmp gt a b = Ok true ->
  (exists x y, a = PNum x /\ b = PNum y /\ (if gt then num_lt y x else num_lt x y) = true) \/
  (is_num a = false /\ is_num b = false).
Proof.
  destruct a as [|x| | |], b as [|y| | |]; intros H; cbn [py_cmp] in H; try discriminate H;
    try (right; split; reflexivity).
  injection H as H. left. eauto.
Qed.

Lemma py_lt_true (a b : pyval) :
  py_lt a b = Ok true -> vle a b \/ (is_num a = false /\ is_num b = false).
Proof.
  intros H. apply py_cmp_true in H as [(x & y & -> & -> & H) | H]; [left | right; exact H].
  apply num_lt_true in H as (u & v & Hu & Hv & Hc). exists u, v; eauto with pyres.
Qed.

Lemma py_gt_true (a b : pyval) :
  py_gt a b = Ok true -> vle b a \/ (is_num a = false /\ is_num b = false).
Proof.
  intros H. apply py_cmp_true in H as [(x & y & -> & -> & H) | H]; [left | right; exact H].
  apply num_lt_true in H as (u & v & Hu & Hv & Hc). exists u, v; eauto with pyres.
Qed.

(** The result of [min] or [max] is one of the items. *)
Lemma extremum_loop_In (better : pyval -> pyval -> res bool) (best m : pyval) (items : list pyval) :
  extremum_loop better best items = Ok m -> m = best \/ In m items.
Proof.
  revert best; induction items as [|item rest IH]; intros best H; simpl in H; inv_res; [auto |].
  destruct (IH _ H) as [-> | Hin]; [destruct a; simpl; auto | right; right; exact Hin].
Qed.

(** Shared step of [min] and [max]: an item that replaces the running best
    is ordered against it, or neither is a number. *)
Section ExtremumOrder.
Variable better : pyval -> pyval -> res bool.
Variable ord : pyval -> pyval -> Prop.
Hypothesis ord_trans : forall a b c, ord a b -> ord b c -> ord a c.
Hypothesis ord_num : forall a b, ord a b -> is_num a = true /\ is_num b = true.
Hypothesis better_true : forall a b, better a b = Ok true -> ord a b \/ (is_num a = false /\ is_num b = false).

Lemma extremum_loop_ord (best m : pyval) (items : list pyval) :
  extremum_loop better best items = Ok m -> m = best \/ ord m best \/ is_num m = false.
Proof.
  revert best; induction items as [|item rest IH]; intros best H; simpl in H; inv_res; [auto |].
  destruct a; [| exact (IH best H)].
  destruct (IH item H) as [-> | [Ho | Ho]]; apply better_true in Hm as [Hib | [Hi Hb]]; auto.
  - right; left. eapply ord_trans; eassumption.
  - apply ord_num in Ho as [_ Ho]. congruence.
Qed.
End ExtremumOrder.

Lemma extremum_loop_lt (best m : pyval) (items : list pyval) :
  extremum_loop py_lt best items = Ok m -> m = best \/ vle m best \/ is_num m = false.
Proof. apply extremum_loop_ord; [exact vle_trans | exact vle_num | exact py_lt_true]. Qed.

Lemma extremum_loop_gt (best m : pyval) (items : list pyval) :
  extremum_loop py_gt best items = Ok m -> m = best \/ vle best m \/ is_num m = false.
Proof.
  apply (extremum_loop_ord py_gt (fun a b => vle b a)).
  - intros a b c H1 H2. eapply vle_trans; eassumption.
  - intros a b H. apply vle_num in H as [H1 H2]. auto.
  - exact py_gt_true.
Qed.

(** [int()] succeeds on a value that is neither a number nor a string
    never. *)
Lemma py_int_Ok_num (v : pyval) (i : Z) : py_int v = Ok i -> is_str v = false -> is_num v = true.
Proof. destruct v; simpl; try discriminate; reflexivity. Qed.

(** [int()] succeeds on a number only when it is finite, and truncates. *)
Lemma py_int_Ok (v : pyval) (i : Z) :
  py_int v = Ok i -> is_str v = false -> exists q, finite_of v = Some q /\ i = Qtrunc q.
Proof.
  unfold finite_of; destruct v; simpl; try discriminate.
  intros H _. apply num_int_Ok in H as (q & Hq & ->). rewrite Hq. eauto.
Qed.

Lemma py_int_mono (a b : pyval) (i j : Z) :
  vle a b -> py_int a = Ok i -> py_int b = Ok j -> i <= j.
Proof.
  intros (x & y & Ha & Hb & Hxy).
  destruct a, b; simpl in *; try discriminate. eauto using num_int_mono.
Qed.

Lemma py_int_member (l : list pyval) (first m : pyval) (i : Z) :
  existsb is_str (first :: l) = false ->
  (m = first \/ In m l) -> is_num m = false -> py_int m = Ok i -> False.
Proof.
  intros Hs Hin Hn Hi. apply py_int_Ok_num in Hi; [congruence |].
  destruct (is_str m) eqn:E; [| reflexivity]. rewrite <- Hs. symmetry.
  apply existsb_exists. exists m. split; [destruct Hin; simpl; auto | exact E].
Qed.

(** [int(min(l)) <= int(max(l))] whenever both succeed on a list without
    strings, NaN items and mixed [int]/[float] items included. *)
Lemma int_min_le_int_max (l : list pyval) (mn mx : pyval) (i j : Z) :
  existsb is_str l = false ->
  py_min l = Ok mn -> py_max l = Ok mx -> py_int mn = Ok i -> py_int mx = Ok j -> i <= j.
Proof.
  destruct l as [|x rest]; simpl; [discriminate |]. intros Hs Hmn Hmx Hi Hj.
  pose proof (extremum_loop_In _ _ _ _ Hmn) as Inn. pose proof (extremum_loop_In _ _ _ _ Hmx) as Inx.
  change (is_str x || existsb is_str rest = false) with (existsb is_str (x :: rest) = false) in Hs.
  apply extremum_loop_lt in Hmn as [-> | [Hmn | Hmn]];
    [| | exfalso; exact (py_int_member _ _ _ _ Hs Inn Hmn Hi)];
  (apply extremum_loop_gt in Hmx as [-> | [Hmx | Hmx]];
    [| | exfalso; exact (py_int_member _ _ _ _ Hs Inx Hmx Hj)]).
  - rewrite Hi in Hj. injection Hj as ->. lia.
  - eapply py_int_mono; eassumption.
  - eapply py_int_mono; eassumption.
  - exact (py_int_mono _ _ _ _ (vle_trans _ _ _ Hmn Hmx) Hi Hj).
Qed.

(** ** [min] and [max] on finite numbers

    On items that are all finite numbers, CPython's loop returns an item
    whose value is a least (for [min]) or greatest (for [max]) value:
    it computes the mathematical extremum.  The argument is shared by
    both built-ins: [prefer] is the non-strict preference ([<=] for [min],
    [>=] for [max]) and [better] the comparison the loop evaluates. *)
Section Extremum.
Variable prefer : Q -> Q -> Prop.
Variable better : pyval -> pyval -> res bool.
Hypothesis prefer_trans : forall p q r, prefer p q -> prefer q r -> prefer p r.
Hypothesis prefer_refl : forall p, prefer p p.
Hypothesis better_finite : forall a b p q,
  finite_of a = Some p -> finite_of b = Some q ->
  exists c, better a b = Ok c /\ (if c then prefer p q else prefer q p).

Lemma extremum_loop_finite (items : list pyval) (qs : list Q) (best : pyval) (qb : Q) :
  Forall2 (fun v q => finite_of v = Some q) items qs ->
  finite_of best = Some qb ->
  exists m qm, extremum_loop better best items = Ok m /\ finite_of m = Some qm /\
    (qm = qb \/ In qm qs) /\ prefer qm qb /\ Forall (prefer qm) qs.
Proof.
  intros H; revert best qb; induction H as [|item q items qs Hq _ IH]; intros best qb Hb.
  - exists best, qb. simpl. auto.
  - destruct (better_finite item best q qb Hq Hb) as [[|] [Hc Hpref]]; simpl; rewrite Hc; simpl.
    + destruct (IH item q Hq) as (m & qm & Hm & Hqm & Hin & Hle & Hall).
      exists m, qm. repeat split; auto.
      * destruct Hin as [-> | Hin]; simpl; auto.
      * eauto.
    + destruct (IH best qb Hb) as (m & qm & Hm & Hqm & Hin & Hle & Hall).
      exists m, qm. repeat split; auto.
      * destruct Hin; simpl; auto.
      * constructor; eauto.
Qed.
End Extremum.

Lemma py_lt_finite (a b : pyval) (p q : Q) :
  finite_of a = Some p -> finite_of b = Some q ->
  py_lt a b = Ok (match Qcompare p q with Lt => true | _ => false end).
Proof.
  unfold finite_of, val_of; destruct a as [|x| | |], b as [|y| | |]; try discriminate.
  unfold py_lt, py_gt; cbn [py_cmp]. unfold num_lt.
  destruct (xval_of x) as [[|p'|]|], (xval_of y) as [[|q'|]|]; try discriminate.
  intros [= ->] [= ->]. reflexivity.
Qed.

Lemma py_gt_finite (a b : pyval) (p q : Q) :
  finite_of a = Some p -> finite_of b = Some q ->
  py_gt a b = Ok (match Qcompare q p with Lt => true | _ => false end).
Proof.
  unfold finite_of, val_of; destruct a as [|x| | |], b as [|y| | |]; try discriminate.
  unfold py_lt, py_gt; cbn [py_cmp]. unfold num_lt.
  destruct (xval_of x) as [[|p'|]|], (xval_of y) as [[|q'|]|]; try discriminate.
  intros [= ->] [= ->]. reflexivity.
Qed.

Lemma Qcompare_prefer (p q : Q) :
  if match Qcompare p q with Lt => true | _ => false end then (p <= q)%Q else (q <= p)%Q.
Proof.
  destruct (Qcompare_spec p q) as [H | H | H];
    [rewrite H; apply Qle_refl | apply Qlt_le_weak, H | apply Qlt_le_weak, H].
Qed.

(** A least element of a list of rationals, and a greatest. *)
Definition least (q : Q) (l : list Q) : Prop := In q l /\ Forall (Qle q) l.
Definition greatest (q : Q) (l : list Q) : Prop := In q l /\ Forall (fun p => Qle p q) l.

Lemma py_min_finite (items : list pyval) (qs : list Q) :
  qs <> [] -> Forall2 (fun v q => finite_of v = Some q) items qs ->
  exists m qm, py_min items = Ok m /\ finite_of m = Some qm /\ least qm qs.
Proof.
  intros Hne H; destruct H as [|v q items qs Hv H]; [congruence |]; simpl.
  destruct (extremum_loop_finite Qle py_lt Qle_trans Qle_refl) with items qs v q
    as (m & qm & Hm & Hqm & Hin & Hle & Hall); auto.
  - intros a b p r Ha Hb. eexists; split; [apply py_lt_finite; eassumption | apply Qcompare_prefer].
  - exists m, qm. repeat split; auto.
    + destruct Hin as [-> | Hin]; simpl; auto.
Qed.

Lemma py_max_finite (items : list pyval) (qs : list Q) :
  qs <> [] -> Forall2 (fun v q => finite_of v = Some q) items qs ->
  exists m qm, py_max items = Ok m /\ finite_of m = Some qm /\ greatest qm qs.
Proof.
  intros Hne H; destruct H as [|v q items qs Hv H]; [congruence |]; simpl.
  destruct (extremum_loop_finite (fun x y => Qle y x) py_gt) with items qs v q
    as (m & qm & Hm & Hqm & Hin & Hle & Hall); auto.
  - intros x y z Hxy Hyz. eapply Qle_trans; eassumption.
  - intros x; apply Qle_refl.
  - intros a b p r Ha Hb. eexists; split; [apply py_gt_finite; eassumption | apply Qcompare_prefer].
  - exists m, qm. repeat split; auto.
    + destruct Hin as [-> | Hin]; simpl; auto.
Qed.

(** [int()] of a finite number truncates its value. *)
Lemma py_int_finite (v : pyval) (q : Q) :
  finite_of v = Some q -> py_int v = Ok (Qtrunc q).
Proof.
  unfold finite_of, val_of; intros H.
  destruct v as [|n| | |]; try discriminate.
  destruct n as [z | [s | s | | s m e]]; cbn [py_int num_int int_of_float xval_of] in *.
  - injection H as <-. now rewrite Qtrunc_Z.
  - injection H as <-. reflexivity.
  - destruct s; discriminate.
  - discriminate.
  - injection H as <-. now rewrite trunc_bits_spec.
Qed.

(** Extrema are unique up to [Qeq], so their truncations agree. *)
Lemma Qtrunc_Qeq (p q : Q) : (p == q)%Q -> Qtrunc p = Qtrunc q.
Proof.
  intros H. apply Z.le_antisymm; apply Qtrunc_le; rewrite H; apply Qle_refl.
Qed.

Lemma least_unique (p q : Q) (l : list Q) : least p l -> least q l -> (p == q)%Q.
Proof.
  intros [Hp Fp] [Hq Fq]. rewrite Forall_forall in Fp, Fq.
  apply Qle_antisym; auto.
Qed.

Lemma greatest_unique (p q : Q) (l : list Q) : greatest p l -> greatest q l -> (p == q)%Q.
Proof.
  intros [Hp Fp] [Hq Fq]. rewrite Forall_forall in Fp, Fq.
  apply Qle_antisym; auto.
Qed.
