(* ===== verification/Format.v ===== *)
(** * The result formatter of [main] (lines 70-93 of [ocr_service.py])

    [build_record] is the body of the [for] loop: the two [continue]
    guards, the reads of [result[0]], [result[1]] and the optional
    [result[2]], the comprehensions [xs] and [ys], the four [int(min ..)]
    / [int(max ..)] calls and [float(confidence)], in the order CPython
    evaluates them.  [format_loop] is the loop with its accumulator
    [output_data] and [append].

    The abstract specification ([Spec]) reads a well-formed detection as
    a polygon of rational points, a text and a confidence, and says what
    record it yields: the truncations toward zero of the least and
    greatest coordinates.  [format_refines_spec] proves that the loop
    computes exactly the specified records on inputs where each value is
    either skipped by a guard or well formed; the other theorems give the
    invariants every successful run keeps and the exceptions the loop
    raises on malformed detections. *)

From Stdlib Require Import String ZArith QArith List Lia Bool SpecFloat.
From S2P Require Import Prelude PyNum PyVal.
Import ListNotations.

Open Scope Z_scope.

(** The dictionary appended for each detection (line 89-93):
    [{"text": ..., "confidence": ..., "bbox": [...]}]. *)
Record out_rec : Type := mk_out_rec {
  rec_text : pyval;
  rec_confidence : float;
  rec_bbox : list Z
}.

(** [1.0], the confidence of a detection without one (line 81). *)
Definition default_confidence : pyval := PNum (NFloat f_one).

(** The body of the loop for one [result]: [Ok None] is a [continue],
    [Ok (Some r)] appends [r]. *)
Definition build_record (result : pyval) : res (option out_rec) :=
  if negb (is_list_or_tuple result) then Ok None else
  let* n := py_len result in
  if Nat.ltb n 2 then Ok None else
  let* coords := py_getitem result 0 in
  let* text := py_getitem result 1 in
  let* confidence :=
    if Nat.leb 3 n then py_getitem result 2 else Ok default_confidence in
  let* pts := py_iter coords in
  let* xs := map_res (fun pt => py_getitem pt 0) pts in
  let* pts' := py_iter coords in
  let* ys := map_res (fun pt => py_getitem pt 1) pts' in
  let* mnx := py_min xs in
  let* min_x := py_int mnx in
  let* mxx := py_max xs in
  let* max_x := py_int mxx in
  let* mny := py_min ys in
  let* min_y := py_int mny in
  let* mxy := py_max ys in
  let* max_y := py_int mxy in
  let* conf := py_float confidence in
  Ok (Some (mk_out_rec text conf [min_x; min_y; max_x; max_y])).

(** The coordinates the loop reads from the polygon [result[0]]:
    [[pt[0] for pt in coords]] ([i = 0]) or [[pt[1] for pt in coords]]
    ([i = 1]). *)
Definition coords_at (result : pyval) (i : nat) : res (list pyval) :=
  let* coords := py_getitem result 0 in
  let* pts := py_iter coords in
  map_res (fun pt => py_getitem pt i) pts.

(** A detection the guards let through has a [str] among its
    coordinates: [min] and [max] then compare strings by code points and
    [int()] parses them. *)
Definition str_coords (result : pyval) : bool :=
  let has_str (c : res (list pyval)) :=
    match c with Ok vs => existsb is_str vs | Raise _ => false end in
  is_list_or_tuple result && Nat.leb 2 (length (seq_items result)) &&
  (has_str (coords_at result 0) || has_str (coords_at result 1)).

(** [for result in ocr_results: ...], appending to [output_data]. *)
Fixpoint format_loop (output_data : list out_rec) (ocr_results : list pyval)
    : res (list out_rec) :=
  match ocr_results with
  | [] => Ok output_data
  | result :: rest =>
      let* r := build_record result in
      format_loop
        (match r with Some o => output_data ++ [o] | None => output_data end) rest
  end.

(** Lines 71-93: [output_data = []] and the loop. *)
Definition format_results (ocr_results : list pyval) : res (list out_rec) :=
  format_loop [] ocr_results.

(** ** Abstract specification *)
Module Spec.

(** A detection as the spec describes it: a polygon, a text and a
    confidence. *)
Record detection : Type := mk_detection {
  det_polygon : list (Q * Q);
  det_text : pyval;
  det_confidence : float
}.

(** A point is a list or tuple whose first two items are finite
    numbers. *)
Definition point_view (pt : pyval) : option (Q * Q) :=
  if is_list_or_tuple pt then
    match seq_items pt with
    | x :: y :: _ =>
        match finite_of x, finite_of y with
        | Some qx, Some qy => Some (qx, qy)
        | _, _ => None
        end
    | _ => None
    end
  else None.

(** The engine's value [r] is a well-formed detection [d]. *)
Definition wf_detection (r : pyval) (d : detection) : Prop :=
  is_list_or_tuple r = true /\
  exists coords rest,
    seq_items r = coords :: det_text d :: rest /\
    is_list_or_tuple coords = true /\
    Forall2 (fun pt p => point_view pt = Some p) (seq_items coords) (det_polygon d) /\
    det_polygon d <> [] /\
    match rest with
    | [] => det_confidence d = f_one
    | c :: _ => py_float c = Ok (det_confidence d)
    end.

(** The value is dropped by one of the two [continue] guards. *)
Definition skipped (r : pyval) : Prop :=
  is_list_or_tuple r = false \/ (length (seq_items r) < 2)%nat.

(** The box of a polygon: the truncations toward zero of its least and
    greatest coordinates, as [[min_x, min_y, max_x, max_y]]. *)
Definition bbox_spec (poly : list (Q * Q)) (bbox : list Z) : Prop :=
  exists x0 y0 x1 y1,
    least x0 (map fst poly) /\ least y0 (map snd poly) /\
    greatest x1 (map fst poly) /\ greatest y1 (map snd poly) /\
    bbox = [Qtrunc x0; Qtrunc y0; Qtrunc x1; Qtrunc y1].

Definition record_spec (d : detection) (o : out_rec) : Prop :=
  rec_text o = det_text d /\ rec_confidence o = det_confidence d /\
  bbox_spec (det_polygon d) (rec_bbox o).

(** The records the spec expects from a sequence of detections, in
    order. *)
Inductive spec_outputs : list pyval -> list out_rec -> Prop :=
| spec_nil : spec_outputs [] []
| spec_skip r rs os :
    skipped r -> spec_outputs rs os -> spec_outputs (r :: rs) os
| spec_keep r d o rs os :
    wf_detection r d -> record_spec d o -> spec_outputs rs os ->
    spec_outputs (r :: rs) (o :: os).

End Spec.

Import Spec.

(** ** The loop *)

(** The records a loop step contributes. *)
Definition option_list {A : Type} (o : option A) : list A :=
  match o with Some x => [x] | None => [] end.

Lemma format_loop_acc (acc : list out_rec) (rs : list pyval) :
  format_loop acc rs = res_map (fun os => acc ++ os) (format_loop [] rs).
Proof.
  revert acc; induction rs as [|r rs IH]; intros acc; simpl.
  - rewrite app_nil_r. reflexivity.
  - destruct (build_record r) as [[o|]|e]; simpl; [| | reflexivity].
    + rewrite (IH (acc ++ [o])), (IH [o]).
      destruct (format_loop [] rs); simpl; [rewrite <- app_assoc |]; reflexivity.
    + apply IH.
Qed.

Lemma format_cons (r : pyval) (rs : list pyval) :
  format_results (r :: rs) =
    let* x := build_record r in
    let* os := format_results rs in
    Ok (option_list x ++ os).
Proof.
  unfold format_results; simpl. destruct (build_record r) as [[o|]|e]; simpl; [| | reflexivity].
  - rewrite format_loop_acc. destruct (format_loop [] rs); reflexivity.
  - destruct (format_loop [] rs); reflexivity.
Qed.

(** ** Building one record *)

Lemma py_len_seq (r : pyval) :
  is_list_or_tuple r = true -> py_len r = Ok (length (seq_items r)).
Proof. destruct r; simpl; congruence. Qed.

Lemma py_getitem_seq (r : pyval) (i : nat) (x : pyval) :
  is_list_or_tuple r = true -> nth_error (seq_items r) i = Some x -> py_getitem r i = Ok x.
Proof. destruct r; simpl; try discriminate; intros _ ->; reflexivity. Qed.

Lemma py_iter_seq (r : pyval) :
  is_list_or_tuple r = true -> py_iter r = Ok (seq_items r).
Proof. destruct r; simpl; congruence. Qed.

(** A value dropped by a guard contributes nothing. *)
Lemma build_record_skipped (r : pyval) : skipped r -> build_record r = Ok None.
Proof.
  unfold build_record; intros [H | H]; rewrite ?H; [reflexivity |].
  destruct (is_list_or_tuple r) eqn:E; [| reflexivity]; simpl.
  rewrite py_len_seq by exact E; simpl.
  apply Nat.ltb_lt in H. rewrite H. reflexivity.
Qed.

(** The comprehensions [xs] and [ys] over a well-formed polygon give its
    coordinates. *)
Lemma coords_of_points (pts : list pyval) (poly : list (Q * Q)) :
  Forall2 (fun pt p => point_view pt = Some p) pts poly ->
  exists xs ys,
    map_res (fun pt => py_getitem pt 0) pts = Ok xs /\
    Forall2 (fun v q => finite_of v = Some q) xs (map fst poly) /\
    map_res (fun pt => py_getitem pt 1) pts = Ok ys /\
    Forall2 (fun v q => finite_of v = Some q) ys (map snd poly).
Proof.
  induction 1 as [|pt [qx qy] pts poly Hpt _ (xs & ys & Hxs & Fx & Hys & Fy)];
    [exists [], []; simpl; auto |].
  unfold point_view in Hpt.
  destruct (is_list_or_tuple pt) eqn:Ept; [| discriminate].
  destruct (seq_items pt) as [|x [|y tl]] eqn:Eitems; try discriminate.
  destruct (finite_of x) eqn:Ex, (finite_of y) eqn:Ey; try discriminate.
  injection Hpt as -> ->.
  exists (x :: xs), (y :: ys); simpl.
  rewrite (py_getitem_seq pt 0 x), (py_getitem_seq pt 1 y), Hxs, Hys by (rewrite ?Eitems; auto).
  simpl; auto.
Qed.

(** [int(min(l))] and [int(max(l))] on the coordinates of a polygon are
    the truncations of their least and greatest values. *)
Lemma extent_spec (l : list pyval) (qs : list Q) (q0 q1 : Q) :
  Forall2 (fun v q => finite_of v = Some q) l qs -> least q0 qs -> greatest q1 qs ->
  exists mn mx, py_min l = Ok mn /\ py_int mn = Ok (Qtrunc q0) /\
                py_max l = Ok mx /\ py_int mx = Ok (Qtrunc q1).
Proof.
  intros Hl H0 H1.
  assert (Hne : qs <> []) by (destruct H0 as [Hin _]; intros ->; destruct Hin).
  destruct (py_min_finite l qs Hne Hl) as (mn & qm & Hmn & Hqm & Hleast).
  destruct (py_max_finite l qs Hne Hl) as (mx & qM & Hmx & HqM & Hgreat).
  exists mn, mx. repeat split; try assumption.
  - rewrite (py_int_finite mn qm Hqm). f_equal. apply Qtrunc_Qeq. eapply least_unique; eassumption.
  - rewrite (py_int_finite mx qM HqM). f_equal. apply Qtrunc_Qeq. eapply greatest_unique; eassumption.
Qed.

(** The confidence the loop reads: [result[2]] when present, else [1.0]. *)
Lemma confidence_read (r : pyval) (d : detection) (coords : pyval) (rest : list pyval) :
  is_list_or_tuple r = true -> seq_items r = coords :: det_text d :: rest ->
  match rest with
  | [] => det_confidence d = f_one
  | c :: _ => py_float c = Ok (det_confidence d)
  end ->
  exists confidence,
    (if Nat.leb 3 (length (seq_items r)) then py_getitem r 2 else Ok default_confidence)
      = Ok confidence /\ py_float confidence = Ok (det_confidence d).
Proof.
  intros Hr Hitems Hconf. rewrite Hitems.
  destruct rest as [|c rest]; simpl.
  - exists default_confidence. rewrite Hconf. split; reflexivity.
  - exists c. split; [apply py_getitem_seq; rewrite ?Hitems; auto | exact Hconf].
Qed.

(** A well-formed detection yields the record the spec describes. *)
Lemma build_record_spec (r : pyval) (d : detection) (o : out_rec) :
  wf_detection r d -> record_spec d o -> build_record r = Ok (Some o).
Proof.
  intros (Hr & coords & rest & Hitems & Hc & Hpoly & Hne & Hconf)
         (Ht & Hcf & x0 & y0 & x1 & y1 & Hx0 & Hy0 & Hx1 & Hy1 & Hbox).
  destruct (coords_of_points _ _ Hpoly) as (xs & ys & Hxs & Fx & Hys & Fy).
  destruct (extent_spec xs _ x0 x1 Fx Hx0 Hx1) as (mnx & mxx & E1 & E2 & E3 & E4).
  destruct (extent_spec ys _ y0 y1 Fy Hy0 Hy1) as (mny & mxy & E5 & E6 & E7 & E8).
  destruct (confidence_read r d coords rest Hr Hitems Hconf) as (confidence & Ec & Ef).
  unfold build_record. rewrite Hr, (py_len_seq r Hr). cbn [negb res_bind].
  replace (Nat.ltb (length (seq_items r)) 2) with false by (rewrite Hitems; reflexivity).
  rewrite (py_getitem_seq r 0 coords), (py_getitem_seq r 1 (det_text d))
    by (rewrite ?Hitems; auto).
  pose proof (py_iter_seq coords Hc) as Ei. res_run.
  destruct o as [t c b]; simpl in *. subst. reflexivity.
Qed.

(** The skeleton of a loop step that appends: what every record the loop
    emits is made of. *)
Lemma build_record_Some (r : pyval) (o : out_rec) :
  build_record r = Ok (Some o) ->
  exists xs ys mnx mxx mny mxy,
    coords_at r 0 = Ok xs /\ coords_at r 1 = Ok ys /\
    py_min xs = Ok mnx /\ py_max xs = Ok mxx /\ py_min ys = Ok mny /\ py_max ys = Ok mxy /\
    exists a b c d, py_int mnx = Ok a /\ py_int mny = Ok b /\ py_int mxx = Ok c /\
      py_int mxy = Ok d /\ rec_bbox o = [a; b; c; d].
Proof.
  unfold build_record; intros H.
  destruct (negb (is_list_or_tuple r)); [discriminate |]. inv_res.
  destruct (Nat.ltb a 2); [discriminate |]. inv_res.
  exists a4, a6, a7, a9, a11, a13.
  split; [unfold coords_at; res_run; congruence |]. split; [unfold coords_at; res_run; congruence |].
  repeat split; try assumption.
  exists a8, a12, a10, a14. repeat split; assumption.
Qed.

(** The loop over a concatenation runs over the second part from the
    accumulator the first part leaves. *)
Lemma format_loop_app (acc : list out_rec) (rs1 rs2 : list pyval) :
  format_loop acc (rs1 ++ rs2) = let* acc' := format_loop acc rs1 in format_loop acc' rs2.
Proof.
  revert acc; induction rs1 as [|r rs1 IH]; intros acc; [reflexivity |]. simpl.
  destruct (build_record r) as [x|e]; simpl; [apply IH | reflexivity].
Qed.

Lemma format_cons_Ok (r : pyval) (rs : list pyval) (os : list out_rec) :
  format_results (r :: rs) = Ok os ->
  exists x os', build_record r = Ok x /\ format_results rs = Ok os' /\ os = option_list x ++ os'.
Proof. rewrite format_cons. intros H; inv_res. eauto. Qed.

(** What holds of every record the loop body builds holds of every
    record of a successful run. *)
Lemma format_Forall (P : out_rec -> Prop) (rs : list pyval) (os : list out_rec) :
  (forall r o, In r rs -> build_record r = Ok (Some o) -> P o) ->
  format_results rs = Ok os -> Forall P os.
Proof.
  revert os; induction rs as [|r rs IH]; intros os HP H.
  - injection H as <-. constructor.
  - apply format_cons_Ok in H as (x & os' & Hx & Hrs & ->).
    apply Forall_app; split; [| apply IH; [intros; apply (HP r0); simpl; auto | exact Hrs]].
    destruct x as [o|]; simpl; constructor; [apply (HP r o); simpl; auto | constructor].
Qed.

(** The box of a record is ordered: [min_x <= max_x] and [min_y <= max_y]. *)
Definition bbox_ordered (o : out_rec) : Prop :=
  match rec_bbox o with
  | [min_x; min_y; max_x; max_y] => min_x <= max_x /\ min_y <= max_y
  | _ => False
  end.

(** The confidence of a record is [float()] of the detection's third
    field when it has one. *)
Lemma build_record_confidence (r : pyval) (o : out_rec) (c : pyval) :
  build_record r = Ok (Some o) -> nth_error (seq_items r) 2 = Some c -> py_float c = Ok (rec_confidence o).
Proof.
  unfold build_record. intros H Hc. destruct (is_list_or_tuple r) eqn:Hr; [| discriminate].
  cbn [negb] in H. rewrite (py_len_seq r Hr) in H. cbn [res_bind] in H.
  assert (Hl : (3 <= length (seq_items r))%nat)
    by (assert (Hs := nth_error_Some (seq_items r) 2); rewrite Hc in Hs; destruct Hs as [Hs _];
        specialize (Hs ltac:(discriminate)); lia).
  replace (Nat.ltb (length (seq_items r)) 2) with false in H by (symmetry; apply Nat.ltb_ge; lia).
  replace (Nat.leb 3 (length (seq_items r))) with true in H by (symmetry; apply Nat.leb_le; lia).
  rewrite (py_getitem_seq r 2 c Hr Hc) in H. inv_res. cbn [rec_confidence]. assumption.
Qed.

(** A value the loop body turns into a record passed both guards. *)
Lemma build_record_guards (r : pyval) (o : out_rec) :
  build_record r = Ok (Some o) -> is_list_or_tuple r && Nat.leb 2 (length (seq_items r)) = true.
Proof.
  unfold build_record. destruct (is_list_or_tuple r) eqn:Hr; [| discriminate]. cbn [negb].
  rewrite (py_len_seq r Hr). cbn [res_bind]. destruct (Nat.ltb_spec (length (seq_items r)) 2);
    [discriminate | intros _; apply Nat.leb_le; exact H].
Qed.

Lemma build_record_ordered (r : pyval) (o : out_rec) :
  build_record r = Ok (Some o) -> str_coords r = false -> bbox_ordered o.
Proof.
  intros H Hs. pose proof (build_record_guards r _ H) as Hg.
  apply build_record_Some in H as (xs & ys & mnx & mxx & mny & mxy & Ex & Ey & H1 & H2 & H3 & H4
    & a & b & c & d & Ha & Hb & Hc & Hd & Hbox).
  unfold str_coords in Hs. rewrite Hg, Ex, Ey in Hs. apply orb_false_iff in Hs as [Hx Hy].
  unfold bbox_ordered. rewrite Hbox.
  exact (conj (int_min_le_int_max xs mnx mxx a c Hx H1 H2 Ha Hc)
              (int_min_le_int_max ys mny mxy b d Hy H3 H4 Hb Hd)).
Qed.

(** The boolean form of the two [continue] guards. *)
Definition skippedb (r : pyval) : bool :=
  negb (is_list_or_tuple r) || Nat.ltb (length (seq_items r)) 2.

Lemma skippedb_spec (r : pyval) : skippedb r = true -> skipped r.
Proof.
  unfold skippedb, skipped. intros H. apply orb_true_iff in H as [H | H].
  - left. apply negb_true_iff, H.
  - right. apply Nat.ltb_lt, H.
Qed.

(** ** Properties of the formatter *)

(** (C1) Refinement: on detections that are each either dropped by a
    guard or well formed, the loop of lines 71-93 succeeds and returns
    exactly the records the abstract specification describes, in order:
    the text, the confidence (1.0 when absent) and the truncations toward
    zero of the least and greatest coordinates of the polygon. *)
Theorem format_refines_spec (rs : list pyval) (os : list out_rec) :
  spec_outputs rs os -> format_results rs = Ok os.
Proof.
  induction 1 as [|r rs os Hskip _ IH | r d o rs os Hwf Ho _ IH];
    [reflexivity | rewrite format_cons, build_record_skipped, IH by exact Hskip
    | rewrite format_cons, (build_record_spec r d o Hwf Ho), IH]; reflexivity.
Qed.

(** (C2) Invariant: every record of a successful run has an ordered box,
    [min_x <= max_x] and [min_y <= max_y], when no coordinate is a [str]
    (numbers of any kind, NaN after the first coordinate and mixed
    [int]/[float] coordinates included, and values on which the loop
    raises).  With string coordinates it fails: [min] and [max] then
    compare by code points while [int()] parses the digits, see
    [format_string_coords_unordered]. *)
Theorem format_bbox_ordered (rs : list pyval) (os : list out_rec) :
  format_results rs = Ok os -> forallb (fun r => negb (str_coords r)) rs = true ->
  Forall bbox_ordered os.
Proof.
  intros H Hs. apply (format_Forall bbox_ordered rs os); [| exact H].
  intros r o Hin Hr. apply (build_record_ordered r o Hr).
  apply forallb_forall with (x := r) in Hs; [| exact Hin]. apply negb_true_iff, Hs.
Qed.

(** (C3) The output has at most one record per detection. *)
Theorem format_length_le (rs : list pyval) (os : list out_rec) :
  format_results rs = Ok os -> (length os <= length rs)%nat.
Proof.
  revert os; induction rs as [|r rs IH]; intros os H.
  - injection H as <-. simpl. lia.
  - apply format_cons_Ok in H as (x & os' & _ & Hrs & ->).
    specialize (IH os' Hrs). rewrite length_app. destruct x; simpl; lia.
Qed.

(** (C4) Order and all-or-nothing: formatting a concatenation formats the
    two parts in order and concatenates their records; an exception in
    the first part is the result, before the second part is looked at. *)
Theorem format_app (rs1 rs2 : list pyval) :
  format_results (rs1 ++ rs2) =
    let* os1 := format_results rs1 in
    let* os2 := format_results rs2 in
    Ok (os1 ++ os2).
Proof.
  induction rs1 as [|r rs1 IH]; simpl.
  - destruct (format_results rs2); reflexivity.
  - rewrite !format_cons, IH.
    destruct (build_record r) as [x|e]; simpl; [| reflexivity].
    destruct (format_results rs1); simpl; [| reflexivity].
    destruct (format_results rs2); simpl; [rewrite app_assoc |]; reflexivity.
Qed.

(** (C5) The guards drop values silently: removing every value that is not
    a list or tuple or has fewer than two fields does not change the
    result. *)
Theorem format_drops_skipped (rs : list pyval) :
  format_results rs = format_results (filter (fun r => negb (skippedb r)) rs).
Proof.
  induction rs as [|r rs IH]; [reflexivity |]. simpl.
  destruct (skippedb r) eqn:E; simpl.
  - rewrite format_cons, (build_record_skipped r (skippedb_spec r E)), IH. simpl.
    destruct (format_results (filter (fun r => negb (skippedb r)) rs)); reflexivity.
  - rewrite !format_cons, IH. reflexivity.
Qed.

(** (C6) Default confidence: a detection with exactly two fields, polygon
    and text, that the loop turns into a record has confidence [1.0]. *)
Theorem format_default_confidence (r : pyval) (o : out_rec) :
  build_record r = Ok (Some o) -> length (seq_items r) = 2%nat -> rec_confidence o = f_one.
Proof.
  unfold build_record. intros H Hlen.
  destruct (is_list_or_tuple r) eqn:Hr; [| discriminate]. cbn [negb] in H.
  rewrite (py_len_seq r Hr), Hlen in H. cbn [res_bind Nat.ltb Nat.leb] in H. inv_res.
  simpl in *. congruence.
Qed.

(** (C7) Error path: a detection whose polygon has no points is not
    dropped: after any prefix the loop formats successfully, [min] of the
    empty coordinate list raises [ValueError], and the whole run fails. *)
Theorem format_empty_polygon_raises (rs1 rs2 : list pyval) (os1 : list out_rec)
    (coords text : pyval) (rest : list pyval) :
  format_results rs1 = Ok os1 -> py_iter coords = Ok [] ->
  format_results (rs1 ++ PTuple (coords :: text :: rest) :: rs2) =
    Raise (ValueError "min() arg is an empty sequence").
Proof.
  intros H1 Hc. unfold format_results in *. rewrite format_loop_app, H1. cbn [res_bind format_loop].
  unfold build_record. cbn [is_list_or_tuple negb py_len res_bind seq_items].
  replace (Nat.ltb (length (coords :: text :: rest)) 2) with false by reflexivity.
  cbn [py_getitem nth_error res_bind].
  destruct rest as [|c rest]; cbn [length Nat.leb py_getitem nth_error res_bind];
    rewrite Hc; reflexivity.
Qed.

(** [min] keeps a NaN first item against numbers: every [item < nan] is
    false. *)
Lemma extremum_loop_nan (items : list pyval) :
  Forall (fun v => is_num v = true) items ->
  extremum_loop py_lt (PNum (NFloat S754_nan)) items = Ok (PNum (NFloat S754_nan)).
Proof.
  induction 1 as [|v items Hv _ IH]; [reflexivity |].
  destruct v as [|x| | |]; try discriminate. cbn [extremum_loop]. unfold py_lt; cbn [py_cmp].
  unfold num_lt. cbn [xval_of]. destruct (xval_of x); exact IH.
Qed.

Lemma map_res_Forall {A B : Type} (f : A -> res B) (P : B -> Prop) (l : list A) :
  Forall (fun x => exists y, f x = Ok y /\ P y) l -> exists ys, map_res f l = Ok ys /\ Forall P ys.
Proof.
  induction 1 as [|x l (y & Hy & Py) _ (ys & Hys & Pys)]; [exists []; auto |].
  exists (y :: ys). cbn [map_res]. rewrite Hy, Hys. auto.
Qed.

(** (C8) Error path: a detection whose first point has NaN as its x
    coordinate (the other x coordinates numbers, every point with two
    entries) is not dropped: after any prefix the loop formats
    successfully, [min(xs)] keeps the NaN, [int()] of it raises
    [ValueError], and the whole run fails. *)
Theorem format_nan_first_raises (rs1 rs2 : list pyval) (os1 : list out_rec) (r coords text p0 y0 : pyval)
    (more pts : list pyval) :
  format_results rs1 = Ok os1 -> is_list_or_tuple r = true -> seq_items r = coords :: text :: more ->
  py_iter coords = Ok (p0 :: pts) ->
  py_getitem p0 0 = Ok (PNum (NFloat S754_nan)) -> py_getitem p0 1 = Ok y0 ->
  Forall (fun p => exists x y, py_getitem p 0 = Ok (PNum x) /\ py_getitem p 1 = Ok y) pts ->
  format_results (rs1 ++ r :: rs2) = Raise (ValueError "cannot convert float NaN to integer").
Proof.
  intros H1 Hr Hs Hc Hx0 Hy0 Hpts. unfold format_results in *. rewrite format_loop_app, H1.
  cbn [res_bind format_loop].
  destruct (map_res_Forall (fun p => py_getitem p 0) (fun v => is_num v = true) pts) as (xs & Hxs & Nxs).
  { eapply Forall_impl; [| exact Hpts]. intros p (x & y & Hx & _). exists (PNum x); auto. }
  destruct (map_res_Forall (fun p => py_getitem p 1) (fun _ => True) pts) as (ys & Hys & _).
  { eapply Forall_impl; [| exact Hpts]. intros p (x & y & _ & Hy). exists y; auto. }
  assert (Hconf : exists c, (if Nat.leb 3 (length (seq_items r)) then py_getitem r 2
                             else Ok default_confidence) = Ok c).
  { rewrite Hs. destruct more as [|c0 more0]; cbn [length Nat.leb]; [eexists; reflexivity |]. exists c0. apply py_getitem_seq; [exact Hr |].
    rewrite Hs. reflexivity. }
  destruct Hconf as (c & Hconf).
  unfold build_record. rewrite Hr, (py_len_seq r Hr). cbn [negb res_bind].
  replace (Nat.ltb (length (seq_items r)) 2) with false by (rewrite Hs; reflexivity).
  rewrite (py_getitem_seq r 0 coords Hr) by (rewrite Hs; reflexivity).
  rewrite (py_getitem_seq r 1 text Hr) by (rewrite Hs; reflexivity). cbn [res_bind].
  rewrite Hconf, Hc. cbn [res_bind map_res]. rewrite Hx0, Hxs, Hy0, Hys. cbn [res_bind py_min].
  rewrite extremum_loop_nan by exact Nxs. reflexivity.
Qed.

(** ** Concrete detections *)

Definition pt (x y : Z) : pyval := PList [PNum (NInt x); PNum (NInt y)].

(** [0.87]: the double nearest to 87/100, as Python reads the literal. *)
Definition c087 : float := f_div (float_round 87) (float_round 100).

Definition hi_detection : pyval :=
  PTuple [PList [pt 10 20; pt 50 20; pt 50 40; pt 10 40]; PStr (str_lit "Hi");
          PNum (NFloat c087)].

Definition hi_record : out_rec := mk_out_rec (PStr (str_lit "Hi")) c087 [10; 20; 50; 40].

(** [-0.5] *)
Definition neg_half : float := f_div (float_round (-1)) (float_round 2).

(** [int()] truncates toward zero: a polygon with a point at x = -0.5
    gets [min_x = 0], where the floor the spec names would give -1 (the
    general statement is the truncation of [format_refines_spec]). *)
Example format_truncates_toward_zero :
  format_results [PTuple [PList [PList [PNum (NFloat neg_half); PNum (NInt 1)]; pt 3 2];
                          PStr (str_lit "a")]]
    = Ok [mk_out_rec (PStr (str_lit "a")) f_one [0; 1; 3; 2]] /\
  Qround.Qfloor (-1 # 2) = -1.
Proof. split; vm_compute; reflexivity. Qed.

(** NaN coordinates: a NaN after the first point is skipped by [min]
    and [max] (every comparison with it is false) and the record is
    emitted without it; a NaN as the first x makes [int(min(xs))] raise
    [ValueError] (in general: [format_nan_first_raises]). *)
Example format_nan_coordinates :
  format_results [PTuple [PList [pt 1 0; PList [PNum (NFloat S754_nan); PNum (NInt 5)]; pt 3 2];
                          PStr (str_lit "b")]]
    = Ok [mk_out_rec (PStr (str_lit "b")) f_one [1; 0; 3; 5]] /\
  format_results [PTuple [PList [PList [PNum (NFloat S754_nan); PNum (NInt 0)]; pt 1 1];
                          PStr (str_lit "c")]]
    = Raise (ValueError "cannot convert float NaN to integer").
Proof. split; vm_compute; reflexivity. Qed.

(** String coordinates: [min] and [max] compare ["9"] and ["10"] by code
    points (["10" < "9"]) and [int()] parses them, so the detection
    [[[["9", "0"], ["10", "1"]], "t"]] gets the box [[10, 0, 9, 1]] with
    [min_x > max_x]. *)
Example format_string_coords_unordered :
  format_results [PList [PList [PList [PStr (str_lit "9"); PStr (str_lit "0")];
                                PList [PStr (str_lit "10"); PStr (str_lit "1")]];
                         PStr (str_lit "t")]]
    = Ok [mk_out_rec (PStr (str_lit "t")) f_one [10; 0; 9; 1]].
Proof. vm_compute. reflexivity. Qed.

(** ** Witnesses *)

Lemma format_nan_first_raises_witness :
  format_results [PNone] = Ok [] /\
  format_results ([PNone] ++ [PTuple [PList [PList [PNum (NFloat S754_nan); PNum (NInt 0)]; pt 1 1];
                                      PStr (str_lit "c")]]) =
    Raise (ValueError "cannot convert float NaN to integer").
Proof.
  split; [reflexivity |].
  apply (format_nan_first_raises [PNone] [] [] _ (PList [PList [PNum (NFloat S754_nan); PNum (NInt 0)]; pt 1 1])
           (PStr (str_lit "c")) (PList [PNum (NFloat S754_nan); PNum (NInt 0)]) (PNum (NInt 0)) [] [pt 1 1]);
    try reflexivity.
  repeat constructor. exists (NInt 1), (PNum (NInt 1)). split; reflexivity.
Defined.

Definition ex_results : list pyval := [PNone; hi_detection; PTuple [PStr (str_lit "x")]].

Lemma Qle_Z (a b : Z) : a <= b -> (inject_Z a <= inject_Z b)%Q.
Proof. intros H. rewrite <- Zle_Qle. exact H. Qed.

Lemma format_refines_spec_witness :
  spec_outputs ex_results [hi_record] /\ format_results ex_results = Ok [hi_record].
Proof.
  assert (H : spec_outputs ex_results [hi_record]).
  { apply spec_skip; [left; reflexivity |].
    apply spec_keep with (d := mk_detection
      [(inject_Z 10, inject_Z 20); (inject_Z 50, inject_Z 20);
       (inject_Z 50, inject_Z 40); (inject_Z 10, inject_Z 40)]
      (PStr (str_lit "Hi")) c087).
    - split; [reflexivity |].
      exists (PList [pt 10 20; pt 50 20; pt 50 40; pt 10 40]), [PNum (NFloat c087)].
      repeat split; [repeat constructor | discriminate].
    - split; [reflexivity | split; [reflexivity |]].
      exists (inject_Z 10), (inject_Z 20), (inject_Z 50), (inject_Z 40).
      repeat split; simpl; try tauto;
        repeat constructor; apply Qle_Z; lia.
    - apply spec_skip; [right; simpl; lia | constructor]. }
  split; [exact H | exact (format_refines_spec _ _ H)].
Defined.

Lemma format_bbox_ordered_witness :
  format_results ex_results = Ok [hi_record] /\
  forallb (fun r => negb (str_coords r)) ex_results = true /\ Forall bbox_ordered [hi_record].
Proof.
  assert (H : format_results ex_results = Ok [hi_record]) by (vm_compute; reflexivity).
  assert (Hs : forallb (fun r => negb (str_coords r)) ex_results = true) by (vm_compute; reflexivity).
  split; [exact H | split; [exact Hs | exact (format_bbox_ordered _ _ H Hs)]].
Defined.

Lemma format_length_le_witness :
  format_results ex_results = Ok [hi_record] /\ (length [hi_record] <= length ex_results)%nat.
Proof.
  assert (H : format_results ex_results = Ok [hi_record]) by (vm_compute; reflexivity).
  split; [exact H | exact (format_length_le _ _ H)].
Defined.

Lemma format_default_confidence_witness :
  build_record (PList [PList [pt 1 2]; PStr (str_lit "t")]) =
    Ok (Some (mk_out_rec (PStr (str_lit "t")) f_one [1; 2; 1; 2])) /\
  rec_confidence (mk_out_rec (PStr (str_lit "t")) f_one [1; 2; 1; 2]) = f_one.
Proof.
  assert (H : build_record (PList [PList [pt 1 2]; PStr (str_lit "t")]) =
    Ok (Some (mk_out_rec (PStr (str_lit "t")) f_one [1; 2; 1; 2]))) by (vm_compute; reflexivity).
  split; [exact H | exact (format_default_confidence _ _ H eq_refl)].
Defined.

Lemma format_empty_polygon_raises_witness :
  format_results [PNone] = Ok [] /\ py_iter (PList []) = Ok [] /\
  format_results ([PNone] ++ [PTuple [PList []; PStr (str_lit "t")]]) =
    Raise (ValueError "min() arg is an empty sequence").
Proof.
  refine (conj eq_refl (conj eq_refl _)).
  exact (format_empty_polygon_raises [PNone] [] [] (PList []) (PStr (str_lit "t")) [] eq_refl eq_refl).
Defined.
