(* ===== verification/Json.v ===== *)
(** * [json.dumps(output_data, ensure_ascii=False)] (line 96)

    The records of [Format] are serialised by Python's [json] encoder with
    its default separators (comma-space and colon-space),
    [ensure_ascii=False] (only the double quote, the backslash and the
    control characters are escaped, every other code point is written as
    is) and [allow_nan=True] ([NaN], [Infinity], [-Infinity]).
    [json_of_records] is the conversion of the Python values to JSON
    values ([list]/[tuple] to arrays, [dict] to objects with keys in
    insertion order), [encode] the encoder, both executable.  A float's
    text is [float.__repr__], which CPython computes with the shortest
    round-trip algorithm; it is the interface [FloatRepr], whose laws are
    what the decoder needs: a numeric token with a ['.'] or an ['e'] that
    [float()] reads back to the same value.

    [parse_json] is a decoder for the JSON the encoder writes, and
    [json_roundtrip] proves that it reads back every encoded value;
    [json_dumps_roundtrip] that the line the program prints decodes to
    one [spec_object] per record, the object the spec's Output Record
    gives: the keys [text], [confidence] and [bbox] in this order, the
    confidence as a float and the box as four integers. *)

From Stdlib Require Import String ZArith List Lia Bool Decimal DecimalN.
From Stdlib Require Import SpecFloat.
From S2P Require Import Prelude PyNum PyVal Format.
Import ListNotations.

Open Scope Z_scope.

(** ** JSON values *)

Inductive json : Type :=
| JNull
| JInt (z : Z)
| JFloat (f : float)
| JStr (s : list Z)
| JArr (items : list json)
| JObj (fields : list (list Z * json)).

(** The encoder's default conversion of a Python value. *)
Fixpoint json_of_pyval (v : pyval) : json :=
  match v with
  | PNone => JNull
  | PNum (NInt z) => JInt z
  | PNum (NFloat f) => JFloat f
  | PStr s => JStr s
  | PList l => JArr (map json_of_pyval l)
  | PTuple l => JArr (map json_of_pyval l)
  end.

(** The dictionary of lines 89-93: keys in insertion order. *)
Definition json_of_rec (o : out_rec) : json :=
  JObj [(str_lit "text", json_of_pyval (rec_text o));
        (str_lit "confidence", JFloat (rec_confidence o));
        (str_lit "bbox", JArr (map JInt (rec_bbox o)))].

Definition json_of_records (os : list out_rec) : json := JArr (map json_of_rec os).

(** The object the spec gives a record (Output Record):
    [{"text": ..., "confidence": <float>, "bbox": [min_x, min_y, max_x,
    max_y]}], keys in this order, four integers for the box. *)
Definition spec_object (text : json) (conf : float) (min_x min_y max_x max_y : Z) : json :=
  JObj [(str_lit "text", text); (str_lit "confidence", JFloat conf);
        (str_lit "bbox", JArr [JInt min_x; JInt min_y; JInt max_x; JInt max_y])].

(** ** [float.__repr__] *)

(** The characters of a JSON number token. *)
Definition is_num_char (c : Z) : bool :=
  ((48 <=? c) && (c <=? 57)) || (c =? 45) || (c =? 43) || (c =? 46) || (c =? 101) || (c =? 69).

(** A number token is a float token when it has a ['.'], ['e'] or ['E']. *)
Definition is_float_token (t : list Z) : bool :=
  existsb (fun c => (c =? 46) || (c =? 101) || (c =? 69)) t.

Definition is_finite_float (f : float) : bool :=
  match f with S754_zero _ | S754_finite _ _ _ => true | _ => false end.

(** [repr(f)] for a finite float and [float(t)] for a number token, with
    the guarantee of [float.__repr__]: [float(repr(f)) == f], with the
    sign of zero kept. *)
Class FloatRepr : Type := {
  float_repr : float -> list Z;
  float_parse : list Z -> option float;
  float_repr_num : forall f, is_finite_float f = true -> forallb is_num_char (float_repr f) = true;
  float_repr_float_token : forall f, is_finite_float f = true -> is_float_token (float_repr f) = true;
  float_parse_repr : forall f, is_finite_float f = true -> valid_binary prec emax f = true ->
    float_parse (float_repr f) = Some f
}.

(** ** The encoder *)

Definition hex_digit (d : Z) : Z := if d <? 10 then 48 + d else 87 + d.

(** ['{0:04x}'.format(c)] *)
Definition hex4 (c : Z) : list Z :=
  [hex_digit ((c / 4096) mod 16); hex_digit ((c / 256) mod 16);
   hex_digit ((c / 16) mod 16); hex_digit (c mod 16)].

(** [ESCAPE_DCT] of [json.encoder], for one code point. *)
Definition esc_char (c : Z) : list Z :=
  if c =? 34 then [92; 34]
  else if c =? 92 then [92; 92]
  else if c =? 10 then [92; 110]
  else if c =? 13 then [92; 114]
  else if c =? 9 then [92; 116]
  else if c =? 8 then [92; 98]
  else if c =? 12 then [92; 102]
  else if c <? 32 then 92 :: 117 :: hex4 c
  else [c].

(** [encode_basestring] (the encoder of [ensure_ascii=False]). *)
Definition encode_str (s : list Z) : list Z := 34 :: concat (map esc_char s) ++ [34].

Fixpoint uint_chars (u : uint) : list Z :=
  match u with
  | Nil => []
  | D0 u => 48 :: uint_chars u | D1 u => 49 :: uint_chars u
  | D2 u => 50 :: uint_chars u | D3 u => 51 :: uint_chars u
  | D4 u => 52 :: uint_chars u | D5 u => 53 :: uint_chars u
  | D6 u => 54 :: uint_chars u | D7 u => 55 :: uint_chars u
  | D8 u => 56 :: uint_chars u | D9 u => 57 :: uint_chars u
  end.

(** [int.__repr__] *)
Definition int_repr (z : Z) : list Z :=
  if z <? 0 then 45 :: uint_chars (N.to_uint (Z.to_N (- z)))
  else uint_chars (N.to_uint (Z.to_N z)).

Section Encoder.
Context `{FR : FloatRepr}.

(** [floatstr] of [json.encoder]. *)
Definition float_str (f : float) : list Z :=
  match f with
  | S754_nan => str_lit "NaN"
  | S754_infinity false => str_lit "Infinity"
  | S754_infinity true => str_lit "-Infinity"
  | _ => float_repr f
  end.

Fixpoint join (sep : list Z) (parts : list (list Z)) : list Z :=
  match parts with
  | [] => []
  | [p] => p
  | p :: ps => p ++ sep ++ join sep ps
  end.

Fixpoint encode (j : json) : list Z :=
  match j with
  | JNull => str_lit "null"
  | JInt z => int_repr z
  | JFloat f => float_str f
  | JStr s => encode_str s
  | JArr items => 91 :: join [44; 32] (map encode items) ++ [93]
  | JObj fields =>
      123 :: join [44; 32] (map (fun kv => encode_str (fst kv) ++ [58; 32] ++ encode (snd kv)) fields)
        ++ [125]
  end.

(** [json.dumps(output_data, ensure_ascii=False)] *)
Definition json_dumps (output_data : list out_rec) : list Z :=
  encode (json_of_records output_data).

End Encoder.

(** ** A decoder for the encoder's output *)

Definition hex_val (c : Z) : option Z :=
  if (48 <=? c) && (c <=? 57) then Some (c - 48)
  else if (97 <=? c) && (c <=? 102) then Some (c - 87)
  else if (65 <=? c) && (c <=? 70) then Some (c - 55)
  else None.

Definition hex4_val (a b c d : Z) : option Z :=
  match hex_val a, hex_val b, hex_val c, hex_val d with
  | Some a, Some b, Some c, Some d => Some (((a * 16 + b) * 16 + c) * 16 + d)
  | _, _, _, _ => None
  end.

(** The character a two-character escape stands for. *)
Definition unescape (e : Z) : option Z :=
  if e =? 34 then Some 34
  else if e =? 92 then Some 92
  else if e =? 47 then Some 47
  else if e =? 110 then Some 10
  else if e =? 114 then Some 13
  else if e =? 116 then Some 9
  else if e =? 98 then Some 8
  else if e =? 102 then Some 12
  else None.

(** The body of a string after its opening quote, up to the closing one. *)
Fixpoint parse_str_body (s : list Z) (acc : list Z) : option (list Z * list Z) :=
  match s with
  | [] => None
  | c :: rest =>
      if c =? 34 then Some (List.rev acc, rest)
      else if c =? 92 then
        match rest with
        | [] => None
        | e :: rest' =>
            if e =? 117 then
              match rest' with
              | a :: b :: c1 :: d :: rest'' =>
                  match hex4_val a b c1 d with
                  | Some u => parse_str_body rest'' (u :: acc)
                  | None => None
                  end
              | _ => None
              end
            else
              match unescape e with
              | Some u => parse_str_body rest' (u :: acc)
              | None => None
              end
        end
      else if c <? 32 then None
      else parse_str_body rest (c :: acc)
  end.

(** The longest prefix of number characters. *)
Fixpoint take_num (s : list Z) : list Z * list Z :=
  match s with
  | [] => ([], [])
  | c :: rest =>
      if is_num_char c then let '(t, r) := take_num rest in (c :: t, r) else ([], s)
  end.

Definition digit_of (c : Z) (u : uint) : option uint :=
  if c =? 48 then Some (D0 u) else if c =? 49 then Some (D1 u)
  else if c =? 50 then Some (D2 u) else if c =? 51 then Some (D3 u)
  else if c =? 52 then Some (D4 u) else if c =? 53 then Some (D5 u)
  else if c =? 54 then Some (D6 u) else if c =? 55 then Some (D7 u)
  else if c =? 56 then Some (D8 u) else if c =? 57 then Some (D9 u)
  else None.

Fixpoint digits_uint (t : list Z) : option uint :=
  match t with
  | [] => Some Nil
  | c :: rest =>
      match digits_uint rest with
      | Some u => digit_of c u
      | None => None
      end
  end.

Definition parse_int_token (t : list Z) : option Z :=
  match t with
  | [] => None
  | c :: ds =>
      if c =? 45 then
        match ds with
        | [] => None
        | _ => option_map (fun u => - Z.of_N (N.of_uint u)) (digits_uint ds)
        end
      else option_map (fun u => Z.of_N (N.of_uint u)) (digits_uint t)
  end.

Fixpoint strip_prefix (p s : list Z) : option (list Z) :=
  match p, s with
  | [], _ => Some s
  | c :: p', d :: s' => if c =? d then strip_prefix p' s' else None
  | _ :: _, [] => None
  end.

Section Decoder.
Context `{FR : FloatRepr}.

Definition parse_number (s : list Z) : option (json * list Z) :=
  let '(t, rest) := take_num s in
  match t with
  | [] => None
  | _ =>
      if is_float_token t then option_map (fun f => (JFloat f, rest)) (float_parse t)
      else option_map (fun z => (JInt z, rest)) (parse_int_token t)
  end.

Definition parse_literal (s : list Z) : option (json * list Z) :=
  match strip_prefix (str_lit "null") s with
  | Some r => Some (JNull, r)
  | None =>
  match strip_prefix (str_lit "NaN") s with
  | Some r => Some (JFloat S754_nan, r)
  | None =>
  match strip_prefix (str_lit "Infinity") s with
  | Some r => Some (JFloat (S754_infinity false), r)
  | None =>
  match strip_prefix (str_lit "-Infinity") s with
  | Some r => Some (JFloat (S754_infinity true), r)
  | None => parse_number s
  end end end end.

(** After a value inside an array or object: comma and space, or the
    closing bracket. *)
Definition after_item (close : Z) (s : list Z) : option (bool * list Z) :=
  match s with
  | c :: r =>
      if c =? close then Some (true, r)
      else if c =? 44 then
        match r with d :: r' => if d =? 32 then Some (false, r') else None | [] => None end
      else None
  | [] => None
  end.

Fixpoint parse_value (fuel : nat) (s : list Z) {struct fuel} : option (json * list Z) :=
  match fuel with
  | O => None
  | S n =>
      match s with
      | [] => None
      | c :: rest =>
          if c =? 34 then option_map (fun '(str, r) => (JStr str, r)) (parse_str_body rest [])
          else if c =? 91 then
            match rest with
            | d :: r => if d =? 93 then Some (JArr [], r) else parse_elems n rest []
            | [] => None
            end
          else if c =? 123 then
            match rest with
            | d :: r => if d =? 125 then Some (JObj [], r) else parse_fields n rest []
            | [] => None
            end
          else parse_literal s
      end
  end
with parse_elems (fuel : nat) (s : list Z) (acc : list json) {struct fuel}
    : option (json * list Z) :=
  match fuel with
  | O => None
  | S n =>
      match parse_value n s with
      | Some (v, r) =>
          match after_item 93 r with
          | Some (true, r') => Some (JArr (List.rev (v :: acc)), r')
          | Some (false, r') => parse_elems n r' (v :: acc)
          | None => None
          end
      | None => None
      end
  end
with parse_fields (fuel : nat) (s : list Z) (acc : list (list Z * json)) {struct fuel}
    : option (json * list Z) :=
  match fuel with
  | O => None
  | S n =>
      match s with
      | c :: r =>
          if c =? 34 then
            match parse_str_body r [] with
            | Some (k, c1 :: c2 :: r2) =>
                if (c1 =? 58) && (c2 =? 32) then
                  match parse_value n r2 with
                  | Some (v, r3) =>
                      match after_item 125 r3 with
                      | Some (true, r') => Some (JObj (List.rev ((k, v) :: acc)), r')
                      | Some (false, r') => parse_fields n r' ((k, v) :: acc)
                      | None => None
                      end
                  | None => None
                  end
                else None
            | _ => None
            end
          else None
      | [] => None
      end
  end.

(** [json.loads] on the encoder's output: one value and nothing after it. *)
Definition parse_json (s : list Z) : option json :=
  match parse_value (length s) s with
  | Some (j, []) => Some j
  | _ => None
  end.

End Decoder.

(** ** Integer tokens *)

Lemma digits_uint_chars (u : uint) : digits_uint (uint_chars u) = Some u.
Proof. induction u; simpl; rewrite ?IHu; reflexivity. Qed.

Lemma to_uint_not_nil (n : N) : N.to_uint n <> Nil.
Proof.
  intros H. pose proof (DecimalN.Unsigned.of_to n) as E. rewrite H in E.
  simpl in E. subst n. discriminate H.
Qed.

Lemma uint_chars_digits (u : uint) :
  forallb (fun c => (48 <=? c) && (c <=? 57)) (uint_chars u) = true.
Proof. induction u; simpl; rewrite ?IHu; reflexivity. Qed.

Lemma uint_chars_head (n : N) :
  exists d r, uint_chars (N.to_uint n) = d :: r /\ 48 <= d <= 57.
Proof.
  pose proof (uint_chars_digits (N.to_uint n)) as H.
  destruct (N.to_uint n) eqn:E; [exfalso; eapply to_uint_not_nil; eassumption | ..];
    simpl in *; eexists _, _; split; reflexivity || lia.
Qed.

Lemma parse_int_repr (z : Z) : parse_int_token (int_repr z) = Some z.
Proof.
  unfold int_repr, parse_int_token. destruct (Z.ltb_spec z 0) as [Hz | Hz].
  - destruct (uint_chars_head (Z.to_N (- z))) as (d & r & Hd & _).
    cbn [Z.eqb Pos.eqb]. rewrite Hd, <- Hd, digits_uint_chars. simpl.
    rewrite DecimalN.Unsigned.of_to, Z2N.id by lia. f_equal. lia.
  - destruct (uint_chars_head (Z.to_N z)) as (d & r & Hd & Hr). rewrite Hd.
    replace (d =? 45) with false by (symmetry; apply Z.eqb_neq; lia).
    rewrite <- Hd, digits_uint_chars. simpl.
    rewrite DecimalN.Unsigned.of_to, Z2N.id by lia. reflexivity.
Qed.

Lemma int_repr_num (z : Z) : forallb is_num_char (int_repr z) = true.
Proof.
  assert (H : forall u, forallb is_num_char (uint_chars u) = true)
    by (induction u; simpl; rewrite ?IHu; reflexivity).
  unfold int_repr. destruct (z <? 0); simpl; rewrite H; reflexivity.
Qed.

(** ** Round trip *)

(** Induction on JSON values with hypotheses for the items of arrays and
    the values of objects. *)
Section JsonInd.
Variable P : json -> Prop.
Hypothesis HNull : P JNull.
Hypothesis HInt : forall z, P (JInt z).
Hypothesis HFloat : forall f, P (JFloat f).
Hypothesis HStr : forall s, P (JStr s).
Hypothesis HArr : forall items, Forall P items -> P (JArr items).
Hypothesis HObj : forall fields, Forall (fun kv => P (snd kv)) fields -> P (JObj fields).

Fixpoint json_ind' (j : json) : P j :=
  match j with
  | JNull => HNull
  | JInt z => HInt z
  | JFloat f => HFloat f
  | JStr s => HStr s
  | JArr items =>
      HArr items ((fix go (l : list json) : Forall P l :=
                     match l with
                     | [] => Forall_nil P
                     | x :: l' => Forall_cons x (json_ind' x) (go l')
                     end) items)
  | JObj fields =>
      HObj fields ((fix go (l : list (list Z * json)) : Forall (fun kv => P (snd kv)) l :=
                      match l with
                      | [] => Forall_nil _
                      | (k, v) :: l' => Forall_cons (k, v) (json_ind' v) (go l')
                      end) fields)
  end.
End JsonInd.

(** Python strings hold code points, which are non-negative; a float is
    a binary64 value. *)
Definition wf_str (s : list Z) : bool := forallb (fun c => 0 <=? c) s.

Fixpoint wf_json (j : json) : bool :=
  match j with
  | JFloat f => valid_binary prec emax f
  | JStr s => wf_str s
  | JArr items => forallb wf_json items
  | JObj fields => forallb (fun kv => wf_str (fst kv) && wf_json (snd kv)) fields
  | _ => true
  end.

(** The fuel the decoder needs. *)
Fixpoint jsize (j : json) : nat :=
  match j with
  | JArr items => S (list_sum (map (fun i => S (jsize i)) items))
  | JObj fields => S (list_sum (map (fun kv => S (jsize (snd kv))) fields))
  | _ => 1%nat
  end.

(** What may follow a number token: nothing, or a character that cannot
    extend it. *)
Definition num_stop (rest : list Z) : bool :=
  match rest with
  | [] => true
  | c :: _ => negb (is_num_char c)
  end.

(** The [\u00XX] escapes of the control characters decode back. *)
Lemma hex4_controls :
  forallb (fun c => match hex4 c with
                    | [a; b; c1; d] => match hex4_val a b c1 d with
                                       | Some u => u =? c
                                       | None => false
                                       end
                    | _ => false
                    end) (Zrange 0 32) = true.
Proof. vm_compute. reflexivity. Qed.

Lemma hex4_control (c : Z) :
  0 <= c < 32 -> exists a b c1 d, hex4 c = [a; b; c1; d] /\ hex4_val a b c1 d = Some c.
Proof.
  intros Hc. pose proof (forallb_Zrange _ 0 32 hex4_controls c ltac:(simpl; lia)) as Hh.
  cbv beta in Hh. unfold hex4 in *. do 4 eexists. split; [reflexivity |].
  destruct (hex4_val _ _ _ _); [apply Z.eqb_eq in Hh; congruence | discriminate].
Qed.

Lemma parse_str_esc (s rest acc : list Z) :
  wf_str s = true ->
  parse_str_body (concat (map esc_char s) ++ 34 :: rest) acc = Some (List.rev acc ++ s, rest).
Proof.
  revert acc; induction s as [|c s IH]; intros acc Hwf; simpl in *.
  - rewrite app_nil_r. reflexivity.
  - apply andb_true_iff in Hwf as [Hc Hwf]. apply Z.leb_le in Hc.
    rewrite <- app_assoc.
    assert (Hstep : parse_str_body (esc_char c ++ concat (map esc_char s) ++ 34 :: rest) acc =
                    parse_str_body (concat (map esc_char s) ++ 34 :: rest) (c :: acc)).
    { unfold esc_char.
      destruct (Z.eqb_spec c 34); [subst; reflexivity |].
      destruct (Z.eqb_spec c 92); [subst; reflexivity |].
      destruct (Z.eqb_spec c 10); [subst; reflexivity |].
      destruct (Z.eqb_spec c 13); [subst; reflexivity |].
      destruct (Z.eqb_spec c 9); [subst; reflexivity |].
      destruct (Z.eqb_spec c 8); [subst; reflexivity |].
      destruct (Z.eqb_spec c 12); [subst; reflexivity |].
      destruct (Z.ltb_spec c 32).
      - destruct (hex4_control c ltac:(lia)) as (a & b & c1 & d & Hh & Hv).
        rewrite Hh. simpl. rewrite Hv. reflexivity.
      - simpl.
        replace (c =? 34) with false by (symmetry; apply Z.eqb_neq; assumption).
        replace (c =? 92) with false by (symmetry; apply Z.eqb_neq; assumption).
        replace (c <? 32) with false by (symmetry; apply Z.ltb_ge; assumption).
        reflexivity. }
    rewrite Hstep, IH by exact Hwf. simpl. rewrite <- app_assoc. reflexivity.
Qed.

Lemma num_char_not_delim (c : Z) :
  is_num_char c = true ->
  110 <> c /\ 78 <> c /\ 73 <> c /\ c <> 34 /\ c <> 91 /\ c <> 123 /\ c <> 93 /\ c <> 125.
Proof.
  unfold is_num_char. intros H.
  repeat rewrite orb_true_iff in H. rewrite andb_true_iff, !Z.leb_le, !Z.eqb_eq in H. lia.
Qed.

Lemma take_num_app (t rest : list Z) :
  forallb is_num_char t = true -> num_stop rest = true -> take_num (t ++ rest) = (t, rest).
Proof.
  induction t as [|c t IH]; intros Ht Hs; simpl in *.
  - destruct rest as [|d r]; [reflexivity |]. simpl. apply negb_true_iff in Hs. rewrite Hs. reflexivity.
  - apply andb_true_iff in Ht as [Hc Ht]. rewrite Hc, IH by assumption. reflexivity.
Qed.

Lemma digits_not_float (t : list Z) :
  forallb (fun c => (48 <=? c) && (c <=? 57)) t = true -> is_float_token t = false.
Proof.
  unfold is_float_token. induction t as [|c t IH]; intros H; [reflexivity |].
  simpl in *. apply andb_true_iff in H as [Hc H]. apply andb_true_iff in Hc as [H1 H2].
  apply Z.leb_le in H1. apply Z.leb_le in H2. rewrite IH by exact H.
  replace (c =? 46) with false by (symmetry; apply Z.eqb_neq; lia).
  replace (c =? 101) with false by (symmetry; apply Z.eqb_neq; lia).
  replace (c =? 69) with false by (symmetry; apply Z.eqb_neq; lia). reflexivity.
Qed.

Lemma int_repr_not_float (z : Z) : is_float_token (int_repr z) = false.
Proof.
  unfold int_repr. destruct (z <? 0); [| apply digits_not_float, uint_chars_digits].
  exact (digits_not_float _ (uint_chars_digits _)).
Qed.

(** An integer token is not empty and is not a lone minus sign. *)
Lemma int_repr_shape (z : Z) : int_repr z <> [] /\ int_repr z <> [45].
Proof.
  unfold int_repr. destruct (z <? 0).
  - destruct (uint_chars_head (Z.to_N (- z))) as (d & r & -> & _). split; discriminate.
  - destruct (uint_chars_head (Z.to_N z)) as (d & r & -> & Hd).
    split; [discriminate | intros [= -> ->]; lia].
Qed.

Lemma float_token_shape (t : list Z) : is_float_token t = true -> t <> [] /\ t <> [45].
Proof. intros H. split; intros ->; discriminate. Qed.

Section RoundTrip.
Context `{FR : FloatRepr}.

Lemma parse_number_token (t rest : list Z) :
  forallb is_num_char t = true -> t <> [] -> num_stop rest = true ->
  parse_number (t ++ rest) =
    if is_float_token t then option_map (fun f => (JFloat f, rest)) (float_parse t)
    else option_map (fun z => (JInt z, rest)) (parse_int_token t).
Proof.
  intros Ht Hne Hs. unfold parse_number. rewrite take_num_app by assumption.
  destruct t; [congruence | reflexivity].
Qed.

Ltac eqb_false H := rewrite (proj2 (Z.eqb_neq _ _) H).

(** A number token is not mistaken for a literal nor for a string,
    array or object. *)
Lemma parse_value_num (n : nat) (t rest : list Z) :
  forallb is_num_char t = true -> t <> [] -> t <> [45] ->
  parse_value (S n) (t ++ rest) = parse_number (t ++ rest).
Proof.
  intros Ht Hne H45. destruct t as [|c t]; [congruence |].
  simpl in Ht. apply andb_true_iff in Ht as [Hc Ht].
  destruct (num_char_not_delim c Hc) as (H1 & H2 & H3 & H4 & H5 & H6 & _).
  cbn [Datatypes.app parse_value]. eqb_false H4. eqb_false H5. eqb_false H6.
  unfold parse_literal. change (str_lit "null") with [110; 117; 108; 108].
  change (str_lit "NaN") with [78; 97; 78].
  change (str_lit "Infinity") with [73; 110; 102; 105; 110; 105; 116; 121].
  change (str_lit "-Infinity") with [45; 73; 110; 102; 105; 110; 105; 116; 121].
  cbn [strip_prefix].
  eqb_false H1. eqb_false H2. eqb_false H3.
  destruct (Z.eqb_spec 45 c) as [<- | _]; [| reflexivity].
  destruct t as [|c2 t]; [congruence |]. simpl in Ht. apply andb_true_iff in Ht as [Hc2 _].
  destruct (num_char_not_delim c2 Hc2) as (_ & _ & H7 & _).
  cbn [Datatypes.app strip_prefix]. eqb_false H7. reflexivity.
Qed.


Lemma num_token_head (t : list Z) :
  forallb is_num_char t = true -> t <> [] -> exists c r, t = c :: r /\ c <> 93 /\ c <> 125.
Proof.
  destruct t as [|c r]; intros Ht Hne; [congruence |]. simpl in Ht.
  apply andb_true_iff in Ht as [Hc _].
  destruct (num_char_not_delim c Hc) as (_ & _ & _ & _ & _ & _ & H93 & H125). eauto.
Qed.

(** No encoding starts with a closing bracket. *)
Lemma encode_head (j : json) : exists c r, encode j = c :: r /\ c <> 93 /\ c <> 125.
Proof.
  destruct j as [| z | f | s | items | fields]; cbn [encode].
  - exists 110; eexists; split; [reflexivity | lia].
  - apply num_token_head; [apply int_repr_num | apply int_repr_shape].
  - destruct f as [b | [|] | | b m e]; cbn [float_str].
    + apply num_token_head; [apply float_repr_num | apply float_token_shape, float_repr_float_token];
        reflexivity.
    + exists 45; eexists; split; [reflexivity | lia].
    + exists 73; eexists; split; [reflexivity | lia].
    + exists 78; eexists; split; [reflexivity | lia].
    + apply num_token_head; [apply float_repr_num | apply float_token_shape, float_repr_float_token];
        reflexivity.
  - exists 34; eexists; split; [reflexivity | lia].
  - exists 91; eexists; split; [reflexivity | lia].
  - exists 123; eexists; split; [reflexivity | lia].
Qed.

Lemma join_head (sep p : list Z) (ps : list (list Z)) (P : Z -> Prop) :
  (exists c r, p = c :: r /\ P c) -> exists c r, join sep (p :: ps) = c :: r /\ P c.
Proof.
  intros (c & r & -> & Hc). exists c.
  destruct ps; [exists r | eexists]; split; trivial; reflexivity.
Qed.

(** The decoder reads back every well-formed value, with any suffix that
    cannot continue a number token after it, given enough fuel. *)
Definition enc_ok (j : json) : Prop :=
  forall n rest, (jsize j <= n)%nat -> num_stop rest = true ->
  parse_value n (encode j ++ rest) = Some (j, rest).

Lemma parse_elems_encode (items : list json) :
  Forall enc_ok items -> items <> [] ->
  forall n rest acc, (list_sum (map (fun i => S (jsize i)) items) <= n)%nat ->
  parse_elems n (join [44; 32] (map encode items) ++ 93 :: rest) acc =
    Some (JArr (List.rev acc ++ items), rest).
Proof.
  induction 1 as [|x xs Hx Hxs IH]; intros Hne n rest acc Hn; [congruence |].
  red in Hx. destruct n as [|n]; [simpl in Hn; lia |]. simpl in Hn.
  destruct xs as [|y ys].
  - cbn [map join parse_elems]. rewrite Hx by (reflexivity || lia). reflexivity.
  - cbn [map join]. rewrite <- !app_assoc. cbn [parse_elems].
    rewrite Hx by (reflexivity || lia). cbn.
    rewrite IH by (discriminate || (simpl in *; lia)).
    simpl. rewrite <- app_assoc. reflexivity.
Qed.

Lemma join_map_cons2 {A : Type} (sep : list Z) (g : A -> list Z) (x y : A) (ys : list A) :
  join sep (map g (x :: y :: ys)) = g x ++ sep ++ join sep (map g (y :: ys)).
Proof. reflexivity. Qed.

Lemma encode_field_app (k : list Z) (v : json) (tl : list Z) :
  (encode_str k ++ [58; 32] ++ encode v) ++ tl =
    34 :: concat (map esc_char k) ++ 34 :: 58 :: 32 :: encode v ++ tl.
Proof. unfold encode_str. simpl. rewrite <- !app_assoc. reflexivity. Qed.

Lemma parse_fields_encode (fields : list (list Z * json)) :
  Forall (fun kv => wf_str (fst kv) = true /\ enc_ok (snd kv)) fields -> fields <> [] ->
  forall n rest acc, (list_sum (map (fun kv => S (jsize (snd kv))) fields) <= n)%nat ->
  parse_fields n
    (join [44; 32] (map (fun kv => encode_str (fst kv) ++ [58; 32] ++ encode (snd kv)) fields)
       ++ 125 :: rest) acc =
    Some (JObj (List.rev acc ++ fields), rest).
Proof.
  induction 1 as [|[k v] xs [Hk Hv] Hxs IH]; intros Hne n rest acc Hn; [congruence |].
  red in Hv. cbn [fst snd] in *. destruct n as [|n]; [simpl in Hn; lia |].
  simpl in Hn.
  destruct xs as [|y ys].
  - cbn [map join fst snd]. rewrite encode_field_app. cbn [parse_fields].
    rewrite parse_str_esc by exact Hk. cbn.
    rewrite Hv by (reflexivity || lia). reflexivity.
  - rewrite join_map_cons2. remember (join _ (map _ (y :: ys))) as J eqn:EJ.
    cbn [fst snd]. rewrite <- app_assoc, encode_field_app. cbn [parse_fields].
    rewrite parse_str_esc by exact Hk. cbn. rewrite <- ?app_assoc.
    rewrite Hv by (reflexivity || lia). cbn. subst J.
    rewrite IH by (discriminate || (simpl in *; lia)).
    simpl. rewrite <- app_assoc. reflexivity.
Qed.

Lemma Forall_wf_ok (items : list json) :
  Forall (fun j => wf_json j = true -> enc_ok j) items -> forallb wf_json items = true ->
  Forall enc_ok items.
Proof.
  induction 1 as [|x l Hx Hl IH]; simpl; intros H; [constructor |].
  apply andb_true_iff in H as [H1 H2]. constructor; auto.
Qed.

Lemma Forall_wf_ok_fields (fields : list (list Z * json)) :
  Forall (fun kv => wf_json (snd kv) = true -> enc_ok (snd kv)) fields ->
  forallb (fun kv => wf_str (fst kv) && wf_json (snd kv)) fields = true ->
  Forall (fun kv => wf_str (fst kv) = true /\ enc_ok (snd kv)) fields.
Proof.
  induction 1 as [|x l Hx Hl IH]; simpl; intros H; [constructor |].
  apply andb_true_iff in H as [H1 H2]. apply andb_true_iff in H1 as [Hk Hv].
  constructor; auto.
Qed.

Lemma parse_value_arr_open (n : nat) (J rest : list Z) :
  (exists c r, J = c :: r /\ c <> 93) -> parse_value (S n) (91 :: J ++ rest) = parse_elems n (J ++ rest) [].
Proof.
  intros (c & r & -> & Hc). cbn [Datatypes.app parse_value Z.eqb Pos.eqb]. eqb_false Hc. reflexivity.
Qed.

Lemma parse_value_obj_open (n : nat) (J rest : list Z) :
  (exists c r, J = c :: r /\ c <> 125) ->
  parse_value (S n) (123 :: J ++ rest) = parse_fields n (J ++ rest) [].
Proof.
  intros (c & r & -> & Hc). cbn [Datatypes.app parse_value Z.eqb Pos.eqb]. eqb_false Hc. reflexivity.
Qed.

Ltac finish_token :=
  rewrite parse_value_num, parse_number_token;
  [| first [ apply int_repr_num | apply float_repr_num; reflexivity | apply int_repr_shape
           | apply float_token_shape, float_repr_float_token; reflexivity | assumption ] ..].

Lemma parse_value_encode (j : json) : wf_json j = true -> enc_ok j.
Proof.
  induction j as [| z | f | s | items IH | fields IH] using json_ind';
    intros Hwf n rest Hn Hs; (destruct n as [|n]; [simpl in Hn; lia |]); cbn [encode].
  - reflexivity.
  - finish_token. rewrite int_repr_not_float, parse_int_repr. reflexivity.
  - destruct f as [b | [|] | | b m e]; cbn [float_str]; try reflexivity;
      finish_token; rewrite float_repr_float_token, float_parse_repr by (reflexivity || exact Hwf);
      reflexivity.
  - unfold encode_str. cbn [Datatypes.app parse_value Z.eqb Pos.eqb].
    rewrite <- app_assoc. change ([34] ++ rest) with (34 :: rest). rewrite parse_str_esc by exact Hwf. reflexivity.
  - destruct items as [|x xs]; [reflexivity |].
    cbn [Datatypes.app]. rewrite <- app_assoc. change ([93] ++ rest) with (93 :: rest).
    rewrite parse_value_arr_open.
    + rewrite parse_elems_encode; [reflexivity | apply Forall_wf_ok | discriminate | simpl in *; lia];
        assumption.
    + apply join_head. destruct (encode_head x) as (c & r & E & H93 & _). eauto.
  - destruct fields as [|[k v] xs]; [reflexivity |].
    cbn [Datatypes.app]. rewrite <- app_assoc. change ([125] ++ rest) with (125 :: rest).
    rewrite parse_value_obj_open.
    + rewrite parse_fields_encode;
        [reflexivity | apply Forall_wf_ok_fields | discriminate | simpl in *; lia]; assumption.
    + apply join_head. exists 34; eexists; split; [reflexivity | lia].
Qed.


Lemma join_length_bound {A : Type} (f : A -> nat) (g : A -> list Z) (l : list A) :
  Forall (fun x => f x <= length (g x))%nat l ->
  (list_sum (map (fun x => S (f x)) l) <= S (length (join [44%Z; 32%Z] (map g l))))%nat.
Proof.
  induction 1 as [|x l Hx Hl IH]; [simpl; lia |].
  destruct l as [|y l].
  - simpl. lia.
  - rewrite join_map_cons2, !length_app. simpl in IH |- *. lia.
Qed.

(** The text of a value is at least as long as the fuel its decoding
    needs. *)
Lemma encode_length (j : json) : (jsize j <= length (encode j))%nat.
Proof.
  induction j as [| z | f | s | items IH | fields IH] using json_ind'; cbn [jsize encode].
  - simpl. lia.
  - destruct (int_repr_shape z) as [H _]. destruct (int_repr z); [congruence | simpl; lia].
  - destruct f as [b | [|] | | b m e]; cbn [float_str]; try (simpl; lia);
      match goal with
      | |- context [float_repr ?f] =>
          destruct (float_token_shape _ (float_repr_float_token f eq_refl)) as [H _];
          destruct (float_repr f); [congruence | simpl; lia]
      end.
  - simpl. lia.
  - pose proof (join_length_bound jsize encode items IH). simpl. rewrite length_app. simpl. lia.
  - assert (H : Forall (fun kv => jsize (snd kv) <=
                  length (encode_str (fst kv) ++ [58%Z; 32%Z] ++ encode (snd kv)))%nat fields).
    { eapply Forall_impl; [| exact IH]. intros kv Hkv. cbv beta in *. rewrite !length_app. lia. }
    pose proof (join_length_bound _ _ fields H). cbv beta in *. cbn [length]. rewrite length_app. cbn [length]. lia.
Qed.

End RoundTrip.


(** ** The printed line *)

(** Induction on Python values with a hypothesis for the items of lists
    and tuples. *)
Section PyvalInd.
Variable P : pyval -> Prop.
Hypothesis HNone : P PNone.
Hypothesis HNum : forall n, P (PNum n).
Hypothesis HStr : forall s, P (PStr s).
Hypothesis HList : forall items, Forall P items -> P (PList items).
Hypothesis HTuple : forall items, Forall P items -> P (PTuple items).

Fixpoint pyval_ind' (v : pyval) : P v :=
  let fix go (l : list pyval) : Forall P l :=
    match l with
    | [] => Forall_nil P
    | x :: l' => Forall_cons x (pyval_ind' x) (go l')
    end in
  match v with
  | PNone => HNone
  | PNum n => HNum n
  | PStr s => HStr s
  | PList items => HList items (go items)
  | PTuple items => HTuple items (go items)
  end.
End PyvalInd.

(** A Python [str] is a sequence of code points, all non-negative, and a
    Python [float] a binary64 value: a canonical [SpecFloat] term. *)
Fixpoint wf_pyval (v : pyval) : bool :=
  match v with
  | PNum (NFloat f) => valid_binary prec emax f
  | PStr s => wf_str s
  | PList l | PTuple l => forallb wf_pyval l
  | _ => true
  end.

Lemma wf_json_items (l : list pyval) :
  Forall (fun v => wf_pyval v = true -> wf_json (json_of_pyval v) = true) l ->
  forallb wf_pyval l = true -> forallb wf_json (map json_of_pyval l) = true.
Proof.
  induction 1 as [|x l Hx Hl IH]; simpl; intros H; [reflexivity |].
  apply andb_true_iff in H as [H1 H2]. rewrite Hx, IH by assumption. reflexivity.
Qed.

Lemma wf_json_of_pyval (v : pyval) : wf_pyval v = true -> wf_json (json_of_pyval v) = true.
Proof.
  induction v as [| [z | f] | s | l IH | l IH] using pyval_ind'; simpl; intros H;
    try reflexivity; try exact H; apply wf_json_items; assumption.
Qed.

Lemma wf_json_ints (l : list Z) : forallb wf_json (map JInt l) = true.
Proof. induction l; simpl; auto. Qed.

(** A record holds Python values: a text and a binary64 confidence. *)
Definition wf_rec (o : out_rec) : bool :=
  wf_pyval (rec_text o) && valid_binary prec emax (rec_confidence o).

Lemma wf_json_of_records (os : list out_rec) :
  forallb wf_rec os = true -> wf_json (json_of_records os) = true.
Proof.
  unfold json_of_records. induction os as [|o os IH]; simpl in *; intros H; [reflexivity |].
  unfold wf_rec in H. apply andb_true_iff in H as [[H1 Hc]%andb_true_iff H2].
  rewrite (wf_json_of_pyval _ H1), Hc, (IH H2), wf_json_ints. reflexivity.
Qed.

(** ** Printable output *)

Definition printable (l : list Z) : Prop := Forall (fun c => 32 <= c) l.

Lemma printable_app (l1 l2 : list Z) : printable l1 -> printable l2 -> printable (l1 ++ l2).
Proof. intros H1 H2. apply Forall_app. split; assumption. Qed.

Lemma printable_num (t : list Z) : forallb is_num_char t = true -> printable t.
Proof.
  unfold printable. rewrite forallb_forall, Forall_forall. intros H c Hc.
  specialize (H c Hc). unfold is_num_char in H.
  repeat rewrite orb_true_iff in H. rewrite andb_true_iff, !Z.leb_le, !Z.eqb_eq in H. lia.
Qed.

Lemma printable_join (sep : list Z) (ps : list (list Z)) :
  printable sep -> Forall printable ps -> printable (join sep ps).
Proof.
  intros Hs. induction 1 as [|p ps Hp Hps IH]; [constructor |].
  destruct ps; [exact Hp |]. cbn [join]. repeat apply printable_app; assumption.
Qed.

Lemma hex_digit_printable (d : Z) : 0 <= d -> 32 <= hex_digit d.
Proof. unfold hex_digit. destruct (d <? 10); lia. Qed.

Lemma esc_char_printable (c : Z) : printable (esc_char c).
Proof.
  unfold esc_char, printable.
  repeat match goal with |- context [if ?b then _ else _] => destruct b eqn:? end;
    repeat constructor; rewrite ?Z.eqb_eq, ?Z.ltb_lt, ?Z.ltb_ge in *; try lia;
    apply hex_digit_printable, Z.mod_pos_bound; lia.
Qed.

Lemma encode_str_printable (s : list Z) : printable (encode_str s).
Proof.
  unfold encode_str. constructor; [lia |]. apply printable_app; [| repeat constructor; lia].
  induction s as [|c s IH]; [constructor |]. apply printable_app; [apply esc_char_printable | exact IH].
Qed.

Section Printable.
Context `{FR : FloatRepr}.

Lemma encode_printable (j : json) : printable (encode j).
Proof.
  induction j as [| z | f | s | items IH | fields IH] using json_ind'; cbn [encode].
  - repeat constructor; cbv; discriminate.
  - apply printable_num, int_repr_num.
  - destruct f as [b | [|] | | b m e]; cbn [float_str];
      try (apply printable_num, float_repr_num; reflexivity); repeat constructor; cbv; discriminate.
  - apply encode_str_printable.
  - constructor; [lia |]. apply printable_app; [| repeat constructor; lia].
    apply printable_join; [repeat constructor; lia |]. apply Forall_map. exact IH.
  - constructor; [lia |]. apply printable_app; [| repeat constructor; lia].
    apply printable_join; [repeat constructor; lia |]. apply Forall_map.
    eapply Forall_impl; [| exact IH]. intros kv Hkv.
    apply printable_app; [apply encode_str_printable |].
    apply printable_app; [repeat constructor; lia | exact Hkv].
Qed.

End Printable.

(** ** Round trip *)

Section Laws.
Context `{FR : FloatRepr}.

(** (C23) Decoding the encoder's text gives the value back. *)
Theorem json_roundtrip (j : json) : wf_json j = true -> parse_json (encode j) = Some j.
Proof.
  intros Hwf. unfold parse_json.
  pose proof (parse_value_encode j Hwf (length (encode j)) [] (encode_length j) eq_refl) as H.
  rewrite app_nil_r in H. rewrite H. reflexivity.
Qed.

(** The records of a successful run have four integers in their box. *)
Lemma format_bbox4 (rs : list pyval) (os : list out_rec) :
  format_results rs = Ok os -> Forall (fun o => exists a b c d, rec_bbox o = [a; b; c; d]) os.
Proof.
  apply format_Forall. intros r o _ H. apply build_record_Some in H
    as (_ & _ & _ & _ & _ & _ & _ & _ & _ & _ & _ & _ & a & b & c & d & _ & _ & _ & _ & Hbox). eauto.
Qed.

(** (C24) The line printed on success is a JSON text that decodes to an
    array with one object per record, in order, each the object the spec
    gives a record: keys [text], [confidence] and [bbox] in this order,
    the record's text, its confidence as a float and its box as four
    integers; for the records of any successful run of the loop whose
    texts are Python strings and whose confidences are binary64
    values. *)
Theorem json_dumps_roundtrip (rs : list pyval) (os : list out_rec) :
  format_results rs = Ok os -> forallb wf_rec os = true ->
  exists items, parse_json (json_dumps os) = Some (JArr items) /\
    Forall2 (fun o j => exists min_x min_y max_x max_y,
               rec_bbox o = [min_x; min_y; max_x; max_y] /\
               j = spec_object (json_of_pyval (rec_text o)) (rec_confidence o) min_x min_y max_x max_y)
            os items.
Proof.
  intros Hf Hwf. unfold parse_json, json_dumps.
  pose proof (wf_json_of_records os Hwf) as Hj.
  pose proof (parse_value_encode _ Hj _ [] (encode_length _) eq_refl) as H.
  rewrite app_nil_r in H. rewrite H. exists (map json_of_rec os). split; [reflexivity |].
  pose proof (format_bbox4 rs os Hf) as Hb4. clear - Hb4.
  induction Hb4 as [|o os (a & b & c & d & Hb) _ IH]; cbn [map]; constructor; [| exact IH].
  exists a, b, c, d. split; [exact Hb |]. unfold json_of_rec, spec_object. rewrite Hb. reflexivity.
Qed.

End Laws.
