(* ===== verification/Repr.v ===== *)
(** * [float()] on decimal text and [float.__repr__]

    The confidence of a record is printed by [json.dumps] with
    [float.__repr__] and read back by [float()].  This file gives both as
    CPython specifies them and proves the law [float(repr(f)) == f] that
    the interface [FloatRepr] of [Json] asks for:
    - [float_of_text]: [float()] on a number token [-ddd.ddde+dd], the
      value [M * 10^E] rounded by [Strtod.round_q] (the binary64 value
      nearest to [p/q], which is what [_Py_dg_strtod] computes);
    - [repr] with [search] and [candidates]: for [k = 1, 2, ..., 17]
      significant digits, the two [k]-digit decimals around the value,
      kept when they read back to the float, the nearer one when both do
      (the digits [_Py_dg_dtoa] returns in mode 0);
    - [repr_text]: [format_float_short] with format code ['r']: fixed
      notation for decimal exponents in [-4, 16), exponent notation
      [d.ddde+XX] otherwise, [.0] appended to integral values.
    [Shortest] proves that the text is the shortest decimal that reads
    back and the nearest of its length.  The instance [cpython_repr] at
    the end discharges [FloatRepr]; [format_confidence_str] is
    [float(confidence)] of line 91 on a confidence given as a string. *)

From Stdlib Require Import String ZArith List Lia Bool SpecFloat Decimal DecimalN DecimalPos.
From S2P Require Import Prelude PyNum Strtod PyVal Format Json.
Import ListNotations.

Open Scope Z_scope.

(** ** [float.__repr__] *)

(** ["%+.02d"] of the exponent. *)
Definition exp_text (x : Z) : list Z :=
  let d := int_repr (Z.abs x) in
  (if x <? 0 then 45 else 43) :: (if (length d <? 2)%nat then 48 :: d else d).

(** [format_float_short(x, 'r', 0, Py_DTSF_ADD_DOT_0)] from the digits
    [ds] of [_Py_dg_dtoa] and the position [decpt] of the decimal point
    (the value is [0.ds * 10^decpt]). *)
Definition repr_text (neg : bool) (ds : list Z) (decpt : Z) : list Z :=
  (if neg then [45] else []) ++
  (if (decpt <=? -4) || (16 <? decpt) then
     firstn 1 ds ++ (match skipn 1 ds with [] => [] | r => 46 :: r end) ++ 101 :: exp_text (decpt - 1)
   else if decpt <=? 0 then 48 :: 46 :: repeat 48 (Z.to_nat (- decpt)) ++ ds
   else if decpt <? Z.of_nat (length ds) then
     firstn (Z.to_nat decpt) ds ++ 46 :: skipn (Z.to_nat decpt) ds
   else ds ++ repeat 48 (Z.to_nat (decpt - Z.of_nat (length ds))) ++ [46; 48]).

(** The decimal digits of a positive integer. *)
Definition digits_of (M : Z) : list Z := uint_chars (N.to_uint (Z.to_N M)).

Definition ndigits (M : Z) : Z := Z.of_nat (length (digits_of M)).

(** Removes the trailing zeros of [M * 10^x]. *)
Fixpoint strip_zeros (fuel : nat) (M x : Z) : Z * Z :=
  match fuel with
  | O => (M, x)
  | S n => if (0 <? M) && (M mod 10 =? 0) then strip_zeros n (M / 10) (x + 1) else (M, x)
  end.

(** The text of [M * 10^x] with sign [neg]. *)
Definition dec_text (neg : bool) (M x : Z) : list Z :=
  let '(M', x') := strip_zeros (length (digits_of M)) M x in
  repr_text neg (digits_of M') (x' + ndigits M').

(** [10^k <= p/q], and [floor(log10(p/q))] as for [log2_q]. *)
Definition pow10_le (k p q : Z) : bool := q * 10 ^ Z.max k 0 <=? p * 10 ^ Z.max (- k) 0.

Definition log10_q (p q : Z) : Z :=
  let l := ndigits p - ndigits q in
  if pow10_le l p q then l else l - 1.

Definition float_beq (f g : float) : bool :=
  match f, g with
  | S754_zero a, S754_zero b | S754_infinity a, S754_infinity b => Bool.eqb a b
  | S754_nan, S754_nan => true
  | S754_finite a m e, S754_finite b m' e' => Bool.eqb a b && Pos.eqb m m' && Z.eqb e e'
  | _, _ => false
  end.

(** The text of [M * 10^x] when it reads back to [f]. *)
Definition check (f : float) (neg : bool) (M x : Z) : option (list Z) :=
  let t := dec_text neg M x in
  match float_of_text t with
  | Some g => if float_beq g f then Some t else None
  | None => None
  end.

(** The [k]-digit decimals around [P/Q] (exponent [x] of their last
    digit): the one below and the one above, kept when they read back to
    [f]; the nearer one when both do, the even one on a tie. *)
Definition candidates (f : float) (neg : bool) (P Q x : Z) : option (list Z) :=
  let num := P * 10 ^ Z.max (- x) 0 in
  let den := Q * 10 ^ Z.max x 0 in
  let lo := num / den in
  let rem := num mod den in
  let lo_t := check f neg lo x in
  let hi_t := if rem =? 0 then None else check f neg (lo + 1) x in
  match lo_t, hi_t with
  | Some a, Some b =>
      if 2 * rem <? den then Some a else if den <? 2 * rem then Some b
      else if Z.even lo then Some a else Some b
  | Some a, None => Some a
  | None, b => b
  end.

(** Shortest first: [k] significant digits for [k = 1, 2, ..., 17]. *)
Fixpoint search (f : float) (neg : bool) (P Q t : Z) (k : Z) (fuel : nat) : option (list Z) :=
  match fuel with
  | O => None
  | S n =>
      match candidates f neg P Q (t - k + 1) with
      | Some txt => Some txt
      | None => search f neg P Q t (k + 1) n
      end
  end.

(** [float.__repr__] of a finite float.  Seventeen digits always read
    back ([Shortest.repr_search_some]), so the exact decimal value after
    the search is never reached; it keeps the definition total. *)
Definition repr (f : float) : list Z :=
  match f with
  | S754_zero s => repr_text s [48] 1
  | S754_finite s m e =>
      let P := Zpos m * 2 ^ Z.max e 0 in
      let Q := 2 ^ Z.max (- e) 0 in
      match search f s P Q (log10_q P Q) 1 17 with
      | Some txt => txt
      | None => if 0 <=? e then dec_text s (Zpos m * 2 ^ e) 0 else dec_text s (Zpos m * 5 ^ (- e)) e
      end
  | S754_infinity s => (if s then [45] else []) ++ str_lit "inf"
  | S754_nan => str_lit "nan"
  end.

(** ** Digit strings *)

Lemma dval_uint_acc (d : uint) (acc : Z) :
  fold_left dstep (uint_chars d) acc =
    acc * 10 ^ Z.of_N (DecimalPos.Unsigned.usize d) + Z.of_N (DecimalPos.Unsigned.of_lu (Decimal.rev d)).
Proof.
  revert acc; induction d as [|d IH|d IH|d IH|d IH|d IH|d IH|d IH|d IH|d IH|d IH]; intros acc;
    [simpl; lia | ..];
    cbn [uint_chars fold_left]; rewrite IH;
    match goal with |- context [Decimal.rev (?c d)] =>
      change (Decimal.rev (c d)) with (Decimal.revapp d (c Nil)) end;
    rewrite DecimalPos.Unsigned.of_lu_revapp; cbn [DecimalPos.Unsigned.usize DecimalPos.Unsigned.of_lu];
    rewrite N2Z.inj_succ, Z.pow_succ_r by lia;
    rewrite N2Z.inj_add, N2Z.inj_mul, N2Z.inj_pow; cbn -[Z.mul Z.pow Z.add Z.sub]; unfold dstep; ring.
Qed.

Lemma dval_digits_of (M : Z) : 0 <= M -> dval (digits_of M) = M.
Proof.
  intros HM. unfold dval, digits_of. rewrite dval_uint_acc, Z.mul_0_l, Z.add_0_l.
  rewrite <- DecimalPos.Unsigned.of_uint_alt.
  change (Pos.of_uint (N.to_uint (Z.to_N M))) with (N.of_uint (N.to_uint (Z.to_N M))).
  rewrite DecimalN.Unsigned.of_to. apply Z2N.id. exact HM.
Qed.

Lemma float_beq_eq (f g : float) : float_beq f g = true -> f = g.
Proof.
  destruct f as [a | a | | a m e], g as [b | b | | b m' e']; simpl; try discriminate; intros H;
    rewrite ?andb_true_iff, ?Bool.eqb_true_iff, ?Pos.eqb_eq, ?Z.eqb_eq in H;
    [subst b .. | reflexivity | destruct H as [[-> ->] ->]]; reflexivity.
Qed.

(** Whatever the search returns is a decimal text that reads back. *)
Lemma check_sound (f : float) (neg : bool) (M x : Z) (t : list Z) :
  check f neg M x = Some t -> float_of_text t = Some f /\ t = dec_text neg M x.
Proof.
  unfold check. destruct (float_of_text (dec_text neg M x)) as [g|] eqn:E; [| discriminate].
  destruct (float_beq g f) eqn:B; [| discriminate]. intros [= <-].
  apply float_beq_eq in B. subst. auto.
Qed.

Lemma candidates_sound (f : float) (neg : bool) (P Q x : Z) (t : list Z) :
  candidates f neg P Q x = Some t -> exists M, float_of_text t = Some f /\ t = dec_text neg M x.
Proof.
  unfold candidates. intros H.
  repeat match type of H with
  | context [check f neg ?M x] =>
      let E := fresh "E" in destruct (check f neg M x) eqn:E;
      [apply check_sound in E as [? ?] |]
  | context [if ?b then _ else _] => destruct b
  end; try discriminate; injection H as <-; eauto.
Qed.

Lemma search_sound (f : float) (neg : bool) (P Q t k : Z) (n : nat) (txt : list Z) :
  search f neg P Q t k n = Some txt -> exists M x, float_of_text txt = Some f /\ txt = dec_text neg M x.
Proof.
  revert k; induction n as [|n IH]; intros k; simpl; [discriminate |].
  destruct (candidates f neg P Q (t - k + 1)) as [t'|] eqn:E; [| apply IH].
  intros [= <-]. apply candidates_sound in E as (M & H1 & H2). eauto.
Qed.

(** ** The shape of the text *)

Lemma forallb_firstn_skipn {A : Type} (p : A -> bool) (n : nat) (l : list A) :
  forallb p l = true -> forallb p (firstn n l) = true /\ forallb p (skipn n l) = true.
Proof.
  intros H. rewrite <- (firstn_skipn n l), forallb_app in H. apply andb_true_iff in H. exact H.
Qed.

Lemma forallb_repeat {A : Type} (p : A -> bool) (a : A) (n : nat) :
  p a = true -> forallb p (repeat a n) = true.
Proof. intros H. induction n; simpl; rewrite ?H, ?IHn; reflexivity. Qed.

Lemma digit_num (ds : list Z) : forallb is_digit ds = true -> forallb is_num_char ds = true.
Proof.
  induction ds as [|c ds IH]; simpl; [reflexivity |]. rewrite !andb_true_iff.
  intros [Hc Hds]. split; [| auto]. unfold is_digit, is_num_char in *. rewrite Hc. reflexivity.
Qed.

Lemma exp_text_num (x : Z) : forallb is_num_char (exp_text x) = true.
Proof.
  unfold exp_text. pose proof (int_repr_num (Z.abs x)) as H.
  destruct (x <? 0), (length (int_repr (Z.abs x)) <? 2)%nat; simpl; rewrite H; reflexivity.
Qed.

Lemma repr_text_num (neg : bool) (ds : list Z) (decpt : Z) :
  forallb is_digit ds = true -> forallb is_num_char (repr_text neg ds decpt) = true.
Proof.
  intros H. pose proof (digit_num ds H) as Hn.
  destruct (forallb_firstn_skipn is_num_char 1 ds Hn) as [H1 H2].
  destruct (forallb_firstn_skipn is_num_char (Z.to_nat decpt) ds Hn) as [H3 H4].
  assert (H0 : forallb is_num_char (repeat 48 (Z.to_nat (- decpt))) = true) by (apply forallb_repeat; reflexivity).
  assert (H5 : forallb is_num_char (repeat 48 (Z.to_nat (decpt - Z.of_nat (length ds)))) = true)
    by (apply forallb_repeat; reflexivity).
  unfold repr_text. rewrite forallb_app, andb_true_iff. split; [destruct neg; reflexivity |].
  destruct (_ || _); [| destruct (decpt <=? 0); [| destruct (decpt <? _)]];
    rewrite ?forallb_app; cbn [forallb];
    try (destruct (skipn 1 ds); cbn [forallb]; rewrite ?forallb_app);
    rewrite ?H1, ?H2, ?H3, ?H4, ?H0, ?H5, ?Hn, ?exp_text_num in *; try reflexivity;
    rewrite ?andb_true_r; try assumption; reflexivity.
Qed.

Lemma repr_text_float_token (neg : bool) (ds : list Z) (decpt : Z) :
  is_float_token (repr_text neg ds decpt) = true.
Proof.
  unfold repr_text, is_float_token. apply existsb_exists.
  destruct (_ || _); [exists 101 | exists 46; destruct (decpt <=? 0); [| destruct (decpt <? _)]];
    (split; [| reflexivity]); rewrite ?in_app_iff; simpl; rewrite ?in_app_iff; simpl; tauto.
Qed.

(** ** Reading the text back *)

Lemma dstep_fold (l : list Z) (acc : Z) :
  fold_left dstep l acc = acc * 10 ^ Z.of_nat (length l) + fold_left dstep l 0.
Proof.
  revert acc; induction l as [|c l IH]; intros acc; cbn [fold_left length]; [simpl; lia |].
  rewrite (IH (dstep acc c)), (IH (dstep 0 c)). unfold dstep.
  rewrite Nat2Z.inj_succ, Z.pow_succ_r by lia. ring.
Qed.

Lemma dval_app (a b : list Z) : dval (a ++ b) = dval a * 10 ^ Z.of_nat (length b) + dval b.
Proof. unfold dval. rewrite fold_left_app, dstep_fold. reflexivity. Qed.

Lemma dval_zeros (n : nat) : dval (repeat 48 n) = 0.
Proof. unfold dval. induction n; [reflexivity |]. cbn [repeat fold_left]. exact IHn. Qed.

Lemma dval_leading_zeros (n : nat) (ds : list Z) : dval (repeat 48 n ++ ds) = dval ds.
Proof. rewrite dval_app, dval_zeros. lia. Qed.

(** The longest digit prefix of [ds ++ rest] is [ds] when [rest] does
    not start with a digit. *)
Definition no_digit_head (rest : list Z) : bool :=
  match rest with [] => true | c :: _ => negb (is_digit c) end.

Lemma take_digits_app (ds rest : list Z) :
  forallb is_digit ds = true -> no_digit_head rest = true -> take_digits (ds ++ rest) = (ds, rest).
Proof.
  induction ds as [|c ds IH]; simpl; intros H1 H2.
  - destruct rest as [|c r]; [reflexivity |]. simpl in *. apply negb_true_iff in H2. rewrite H2. reflexivity.
  - apply andb_true_iff in H1 as [Hc Hds]. rewrite Hc, IH by assumption. reflexivity.
Qed.

Lemma digits_of_digits (M : Z) : forallb is_digit (digits_of M) = true.
Proof. apply uint_chars_digits. Qed.

Lemma int_repr_abs (y : Z) : int_repr (Z.abs y) = digits_of (Z.abs y).
Proof. unfold int_repr. replace (Z.abs y <? 0) with false by (symmetry; apply Z.ltb_ge; lia). reflexivity. Qed.

Lemma take_digits_all (ds : list Z) : forallb is_digit ds = true -> take_digits ds = (ds, []).
Proof. intros H. rewrite <- (app_nil_r ds) at 1. apply take_digits_app; [exact H | reflexivity]. Qed.

Lemma parse_exp_text (y : Z) : parse_exp (101 :: exp_text y) = Some y.
Proof.
  unfold exp_text. rewrite int_repr_abs.
  pose proof (dval_digits_of (Z.abs y) ltac:(lia)) as Hv.
  pose proof (digits_of_digits (Z.abs y)) as Hd.
  set (d := digits_of (Z.abs y)) in *.
  assert (Hne : d <> []).
  { unfold d, digits_of. destruct (uint_chars_head (Z.to_N (Z.abs y))) as (c & r & E & _).
    rewrite E. discriminate. }
  set (dd := if (length d <? 2)%nat then 48 :: d else d).
  assert (Hd' : forallb is_digit dd = true)
    by (unfold dd; destruct (length d <? 2)%nat; simpl; rewrite ?Hd; reflexivity).
  assert (Hv' : dval dd = Z.abs y)
    by (unfold dd; destruct (length d <? 2)%nat; [exact (eq_trans (dval_leading_zeros 1 d) Hv) | exact Hv]).
  assert (Hdd : dd <> []) by (unfold dd; destruct (length d <? 2)%nat; congruence).
  clearbody dd. cbn [parse_exp Z.eqb Pos.eqb orb].
  destruct (y <? 0) eqn:Hy; cbn [Z.eqb Pos.eqb]; rewrite take_digits_all by exact Hd';
    destruct dd as [|c r]; try congruence; rewrite Hv';
    [apply Z.ltb_lt in Hy | apply Z.ltb_ge in Hy]; f_equal; lia.
Qed.

(** What may follow the digits of the mantissa: nothing or an exponent. *)
Definition tail_of (exp : option Z) : list Z :=
  match exp with None => [] | Some y => 101 :: exp_text y end.

Definition exp_of (exp : option Z) : Z := match exp with None => 0 | Some y => y end.

Lemma tail_of_ok (exp : option Z) :
  no_digit_head (tail_of exp) = true /\ parse_exp (tail_of exp) = Some (exp_of exp).
Proof. destruct exp as [y|]; [split; [reflexivity | apply parse_exp_text] | split; reflexivity]. Qed.

Lemma parse_body_dot (neg : bool) (ip fp : list Z) (exp : option Z) :
  forallb is_digit ip = true -> forallb is_digit fp = true -> ip <> [] ->
  parse_body neg (ip ++ 46 :: fp ++ tail_of exp) =
    Some (neg, dval (ip ++ fp), exp_of exp - Z.of_nat (length fp)).
Proof.
  intros Hi Hf Hne. destruct (tail_of_ok exp) as [T1 T2]. unfold parse_body.
  rewrite take_digits_app by (assumption || reflexivity). cbn [Z.eqb Pos.eqb].
  rewrite take_digits_app by assumption.
  destruct ip as [|c ip]; [congruence |]. cbn [Datatypes.app]. rewrite T2. reflexivity.
Qed.

Lemma parse_body_dot0 (neg : bool) (ip fp : list Z) :
  forallb is_digit ip = true -> forallb is_digit fp = true -> ip <> [] ->
  parse_body neg (ip ++ 46 :: fp) = Some (neg, dval (ip ++ fp), - Z.of_nat (length fp)).
Proof.
  intros Hi Hf Hne. pose proof (parse_body_dot neg ip fp None Hi Hf Hne) as H.
  rewrite app_nil_r in H. exact H.
Qed.

Lemma parse_body_nodot (neg : bool) (ip : list Z) (y : Z) :
  forallb is_digit ip = true -> ip <> [] ->
  parse_body neg (ip ++ 101 :: exp_text y) = Some (neg, dval ip, y).
Proof.
  intros Hi Hne. unfold parse_body.
  rewrite take_digits_app by (assumption || reflexivity). cbn [Z.eqb Pos.eqb].
  rewrite app_nil_r. destruct ip as [|c ip]; [congruence |].
  rewrite parse_exp_text. cbn. rewrite ?app_nil_r. f_equal. f_equal. lia.
Qed.

Definition digit_head (body : list Z) : bool :=
  match body with c :: _ => is_digit c | [] => false end.

Lemma parse_dec_sign (neg : bool) (body : list Z) :
  digit_head body = true -> parse_dec ((if neg then [45] else []) ++ body) = parse_body neg body.
Proof.
  destruct body as [|c r]; [discriminate |]. intros Hc. destruct neg; [reflexivity |].
  cbn [Datatypes.app parse_dec]. replace (c =? 45) with false; [reflexivity |].
  unfold digit_head, is_digit in Hc. symmetry. apply Z.eqb_neq. rewrite andb_true_iff, !Z.leb_le in Hc. lia.
Qed.

Lemma is_digit_48 : is_digit 48 = true.
Proof. reflexivity. Qed.

Lemma head_digit (ds : list Z) :
  forallb is_digit ds = true -> ds <> [] -> exists c r, ds = c :: r /\ is_digit c = true.
Proof.
  destruct ds as [|c r]; intros H Hne; [congruence |]. simpl in H.
  apply andb_true_iff in H as [Hc _]. eauto.
Qed.

(** Closes [Some (a, b, x) = Some (a, b', y)] up to arithmetic. *)
Ltac triple_eq :=
  apply f_equal; apply (f_equal2 pair); [apply (f_equal2 pair) |]; try reflexivity; try lia.

(** [float()] reads [repr_text] as the digits [ds] (times a power of ten
    when the text pads them with zeros) and the matching exponent. *)
Lemma parse_repr_text (neg : bool) (ds : list Z) (decpt : Z) :
  forallb is_digit ds = true -> ds <> [] ->
  exists k, 0 <= k /\
    parse_dec (repr_text neg ds decpt) =
      Some (neg, dval ds * 10 ^ k, decpt - Z.of_nat (length ds) - k).
Proof.
  intros Hd Hne. destruct (head_digit ds Hd Hne) as (c & r & Eds & Hc).
  unfold repr_text.
  destruct ((decpt <=? -4) || (16 <? decpt)) eqn:Hexp.
  - exists 0. split; [lia |]. rewrite Z.pow_0_r, Z.mul_1_r, Eds. cbn [firstn skipn].
    rewrite parse_dec_sign by exact Hc.
    rewrite Eds in Hd. simpl in Hd. apply andb_true_iff in Hd as [_ Hr].
    destruct r as [|c' r'].
    + change ([c] ++ [] ++ 101 :: exp_text (decpt - 1)) with ([c] ++ 101 :: exp_text (decpt - 1)).
      rewrite parse_body_nodot by (simpl; rewrite ?Hc; reflexivity || discriminate).
      cbn [length]. triple_eq.
    + change ([c] ++ (46 :: c' :: r') ++ 101 :: exp_text (decpt - 1))
        with ([c] ++ 46 :: (c' :: r') ++ tail_of (Some (decpt - 1))).
      rewrite parse_body_dot by (first [exact Hr | discriminate | simpl; rewrite Hc; reflexivity]).
      cbn [exp_of Datatypes.app length]. rewrite Nat2Z.inj_succ. triple_eq.
  - destruct (decpt <=? 0) eqn:H0; [| destruct (decpt <? Z.of_nat (length ds)) eqn:H1].
    + exists 0. split; [lia |]. rewrite Z.pow_0_r, Z.mul_1_r.
      rewrite parse_dec_sign by reflexivity.
      change (48 :: 46 :: repeat 48 (Z.to_nat (- decpt)) ++ ds)
        with ([48] ++ 46 :: (repeat 48 (Z.to_nat (- decpt)) ++ ds)).
      rewrite parse_body_dot0 by (rewrite ?forallb_app, ?forallb_repeat by reflexivity; simpl;
                                 rewrite ?Hd; reflexivity || discriminate).
      rewrite app_assoc, (dval_leading_zeros (S (Z.to_nat (- decpt)))), length_app, repeat_length.
      cbn [exp_of]. apply Z.leb_le in H0. triple_eq.
    + exists 0. split; [lia |]. rewrite Z.pow_0_r, Z.mul_1_r.
      apply Z.leb_gt in H0. apply Z.ltb_lt in H1.
      assert (Hf : firstn (Z.to_nat decpt) ds <> []).
      { rewrite Eds. destruct (Z.to_nat decpt) eqn:E; [lia | discriminate]. }
      destruct (head_digit _ (proj1 (forallb_firstn_skipn _ (Z.to_nat decpt) ds Hd)) Hf)
        as (c1 & r1 & E1 & Hc1).
      rewrite parse_dec_sign by (rewrite E1; exact Hc1).
      rewrite parse_body_dot0 by (apply (forallb_firstn_skipn _ _ _ Hd) || assumption).
      rewrite firstn_skipn, length_skipn. cbn [exp_of]. triple_eq.
    + exists (decpt - Z.of_nat (length ds) + 1).
      apply Z.leb_gt in H0. apply Z.ltb_ge in H1. split; [lia |].
      rewrite parse_dec_sign by (rewrite Eds; exact Hc).
      change [46; 48] with (46 :: [48]). rewrite app_assoc.
      rewrite parse_body_dot0 by (rewrite ?forallb_app, ?forallb_repeat by reflexivity; simpl;
                                 rewrite ?Hd; reflexivity || (rewrite Eds; discriminate)).
      rewrite !dval_app, dval_zeros, repeat_length. cbn [exp_of length].
      change (dval [48]) with 0.
      replace (Z.of_nat (Z.to_nat (decpt - Z.of_nat (length ds)))) with (decpt - Z.of_nat (length ds)) by lia.
      rewrite Z.pow_add_r by lia. triple_eq.
Qed.

Lemma strip_zeros_spec (fuel : nat) (M x M' x' : Z) :
  0 < M -> strip_zeros fuel M x = (M', x') ->
  exists j, 0 <= j /\ M = M' * 10 ^ j /\ x' = x + j /\ 0 < M'.
Proof.
  revert M x; induction fuel as [|n IH]; intros M x HM H; simpl in H.
  - injection H as <- <-. exists 0. split; [lia |]. rewrite Z.pow_0_r. lia.
  - destruct ((0 <? M) && (M mod 10 =? 0)) eqn:E.
    + apply andb_true_iff in E as [_ E]. apply Z.eqb_eq in E.
      pose proof (Z.div_mod M 10 ltac:(lia)) as Hd. rewrite E, Z.add_0_r in Hd.
      destruct (IH (M / 10) (x + 1) ltac:(lia) H) as (j & Hj & HM' & Hx & Hp).
      exists (j + 1). split; [lia |]. split; [| lia].
      rewrite Z.pow_add_r, Z.pow_1_r by lia. lia.
    + injection H as <- <-. exists 0. split; [lia |]. rewrite Z.pow_0_r. lia.
Qed.

Lemma float_of_dec_q (neg : bool) (M E : Z) :
  float_of_dec neg M E = round_q neg (M * 10 ^ Z.max E 0) (10 ^ Z.max (- E) 0).
Proof.
  unfold float_of_dec. destruct (Z.leb_spec 0 E).
  - rewrite Z.max_l, Z.max_r, Z.pow_0_r by lia. reflexivity.
  - rewrite Z.max_r, Z.max_l, Z.pow_0_r, Z.mul_1_r by lia. reflexivity.
Qed.

Lemma pow_pos_max (b k : Z) : 0 < b -> 0 < b ^ Z.max k 0.
Proof. intros Hb. apply Z.pow_pos_nonneg; lia. Qed.

Lemma pow_merge (b u v : Z) : 0 <= u -> 0 <= v -> b ^ u * b ^ v = b ^ (u + v).
Proof. intros Hu Hv. rewrite Z.pow_add_r by assumption. reflexivity. Qed.

(** The text of a decimal [M' * 10^x'] equal to a binary64 number reads
    back to that number. *)
Lemma dec_text_exact (s : bool) (m : positive) (e N x : Z) :
  SpecFloat.bounded prec emax m e = true -> 0 < N ->
  N * 10 ^ Z.max x 0 * 2 ^ Z.max (- e) 0 = 10 ^ Z.max (- x) 0 * Zpos m * 2 ^ Z.max e 0 ->
  float_of_text (dec_text s N x) = Some (S754_finite s m e).
Proof.
  intros Hb HN Hv. unfold dec_text.
  destruct (strip_zeros _ N x) as [M' x'] eqn:Hs.
  destruct (strip_zeros_spec _ N x M' x' HN Hs) as (j & Hj & HNj & Hx & HM').
  pose proof (digits_of_digits M') as Hd.
  assert (Hne : digits_of M' <> []).
  { unfold digits_of. destruct (uint_chars_head (Z.to_N M')) as (c & r & E & _). rewrite E. discriminate. }
  destruct (parse_repr_text s (digits_of M') (x' + ndigits M') Hd Hne) as (k & Hk & Hp).
  unfold float_of_text. rewrite Hp. cbn [option_map]. f_equal.
  rewrite dval_digits_of by lia. unfold ndigits.
  replace (x' + Z.of_nat (length (digits_of M')) - Z.of_nat (length (digits_of M')) - k) with (x' - k) by lia.
  rewrite float_of_dec_q. apply round_q_exact; [exact Hb | apply pow_pos_max; lia |].
  subst N x'.
  set (a := Z.max (x + j - k) 0). set (b := Z.max (- (x + j - k)) 0).
  set (c := Z.max x 0). set (d := Z.max (- x) 0).
  set (T := 2 ^ Z.max (- e) 0).
  assert (HE : 10 ^ d * 10 ^ k * 10 ^ a = 10 ^ b * 10 ^ j * 10 ^ c).
  { unfold a, b, c, d. rewrite <- !Z.pow_add_r by lia. f_equal. lia. }
  assert (Hpos : 0 < 10 ^ j * 10 ^ c) by (unfold c; pose proof (pow_pos_max 10 x); nia).
  apply (Z.mul_cancel_r _ _ (10 ^ j * 10 ^ c)); [lia |].
  replace (M' * 10 ^ k * 10 ^ a * T * (10 ^ j * 10 ^ c))
    with ((M' * 10 ^ j * 10 ^ c * T) * (10 ^ k * 10 ^ a)) by ring.
  unfold c, T in *. rewrite Hv. fold c d.
  transitivity (Zpos m * 2 ^ Z.max e 0 * (10 ^ d * 10 ^ k * 10 ^ a)); [ring |]. rewrite HE. unfold c. ring.
Qed.

(** ** [float()] of a decimal string *)

(** A character of a plain decimal [ddd.ddd]. *)
Definition dec_char (c : Z) : bool := is_digit c || (c =? 46).

Lemma dec_char_plain (c : Z) :
  dec_char c = true -> is_ascii_space c = false /\ (c =? 95) = false /\ (128 <=? c) = false.
Proof.
  unfold dec_char, is_digit, is_ascii_space. intros H.
  apply orb_true_iff in H as [H | H]; [apply andb_true_iff in H as [H1 H2] | apply Z.eqb_eq in H];
    rewrite ?Z.leb_le in *; repeat split;
    repeat (apply orb_false_iff; split); rewrite ?andb_false_iff, ?Z.leb_gt, ?Z.eqb_neq; lia.
Qed.

Lemma digits_dec_char (l : list Z) : forallb is_digit l = true -> forallb dec_char l = true.
Proof.
  induction l as [|c l IH]; [reflexivity |]. cbn [forallb]. rewrite !andb_true_iff.
  intros [Hc H]. split; [unfold dec_char; rewrite Hc; reflexivity | exact (IH H)].
Qed.

Lemma forallb_rev {A : Type} (p : A -> bool) (l : list A) : forallb p (List.rev l) = forallb p l.
Proof.
  induction l as [|x l IH]; [reflexivity |]. cbn [List.rev forallb].
  rewrite forallb_app, IH. cbn [forallb]. rewrite andb_true_r, andb_comm. reflexivity.
Qed.

Lemma drop_spaces_plain (s : list Z) : forallb dec_char s = true -> drop_spaces s = s.
Proof.
  destruct s as [|c s]; [reflexivity |]. cbn [forallb drop_spaces]. intros H.
  apply andb_true_iff in H as [H _]. destruct (dec_char_plain c H) as [-> _]. reflexivity.
Qed.

Lemma drop_underscores_plain (b : bool) (s : list Z) :
  forallb dec_char s = true -> drop_underscores b s = Some s.
Proof.
  revert b; induction s as [|c s IH]; intros b H; [reflexivity |].
  cbn [forallb] in H. apply andb_true_iff in H as [Hc H]. destruct (dec_char_plain c Hc) as (_ & E & _).
  cbn [drop_underscores]. rewrite E, (IH _ H). reflexivity.
Qed.

(** [str_eqb] fails at a first character below the other's. *)
Lemma str_eqb_head_lt (x d : Z) (l w : list Z) : x < d -> str_eqb (x :: l) (d :: w) = false.
Proof. intros H. unfold str_eqb. cbn [str_compare]. rewrite (proj2 (Z.compare_lt_iff x d) H). reflexivity. Qed.

(** [float()] of a plain decimal [ip.fp] is [round_q] of its value
    [dval (ip ++ fp) / 10^|fp|]. *)
Lemma float_of_str_decimal (ip fp : list Z) :
  forallb is_digit (ip ++ fp) = true -> ip <> [] ->
  float_of_str (ip ++ 46 :: fp) = Ok (round_q false (dval (ip ++ fp)) (10 ^ Z.of_nat (length fp))).
Proof.
  intros Hd Hne. rewrite forallb_app in Hd. apply andb_true_iff in Hd as [Hi Hf].
  assert (Hs : forallb dec_char (ip ++ 46 :: fp) = true).
  { rewrite forallb_app. cbn [forallb]. rewrite !digits_dec_char by assumption. reflexivity. }
  unfold float_of_str.
  replace (has_non_ascii (ip ++ 46 :: fp)) with false.
  2: { symmetry. apply Bool.not_true_iff_false. unfold has_non_ascii. rewrite existsb_exists.
       intros (c & Hin & Hc). rewrite forallb_forall in Hs. destruct (dec_char_plain c (Hs c Hin)) as (_ & _ & E).
       congruence. }
  unfold strip_spaces. rewrite (drop_spaces_plain (ip ++ 46 :: fp)) by exact Hs.
  rewrite drop_spaces_plain by (rewrite forallb_rev; exact Hs). rewrite rev_involutive.
  destruct ip as [|c ip']; [congruence |]. cbn [forallb] in Hi. apply andb_true_iff in Hi as [Hc Hi'].
  unfold is_digit in Hc. apply andb_true_iff in Hc as [Hc1 Hc2]. apply Z.leb_le in Hc1, Hc2.
  cbn [Datatypes.app split_sign]. rewrite (proj2 (Z.eqb_neq c 45)), (proj2 (Z.eqb_neq c 43)) by lia.
  cbn [map]. replace (ascii_lower c) with c by (unfold ascii_lower; destruct (Z.leb_spec 65 c); simpl; lia).
  change (str_lit "inf") with [105; 110; 102]. change (str_lit "infinity") with [105; 110; 102; 105; 110; 105; 116; 121].
  change (str_lit "nan") with [110; 97; 110].
  rewrite !str_eqb_head_lt by lia. cbn [orb].
  rewrite drop_underscores_plain by exact Hs.
  change (c :: ip' ++ 46 :: fp) with ((c :: ip') ++ 46 :: fp).
  rewrite parse_body_dot0 by (cbn [forallb]; rewrite ?andb_true_iff; unfold is_digit;
                               rewrite ?andb_true_iff, ?Z.leb_le; auto || discriminate).
  rewrite float_of_dec_q. replace (Z.max (- Z.of_nat (length fp)) 0) with 0 by lia.
  replace (Z.max (- - Z.of_nat (length fp)) 0) with (Z.of_nat (length fp)) by lia.
  rewrite Z.pow_0_r, Z.mul_1_r. reflexivity.
Qed.

(** ** The laws of [FloatRepr] *)

Lemma repr_shape (f : float) :
  is_finite_float f = true ->
  exists neg ds decpt, repr f = repr_text neg ds decpt /\ forallb is_digit ds = true.
Proof.
  destruct f as [s | s | | s m e]; try discriminate; intros _; [exists s, [48], 1; auto |].
  unfold repr. destruct (search _ _ _ _ _ _ _) as [txt|] eqn:E.
  - apply search_sound in E as (M & x & _ & ->). unfold dec_text.
    destruct (strip_zeros _ M x) as [M' x']. eauto using digits_of_digits.
  - destruct (0 <=? e); unfold dec_text;
      match goal with |- context [strip_zeros ?n ?M ?x] => destruct (strip_zeros n M x) end;
      eauto using digits_of_digits.
Qed.

Lemma repr_num (f : float) : is_finite_float f = true -> forallb is_num_char (repr f) = true.
Proof. intros H. destruct (repr_shape f H) as (neg & ds & d & -> & Hd). apply repr_text_num, Hd. Qed.

Lemma repr_float_token (f : float) : is_finite_float f = true -> is_float_token (repr f) = true.
Proof. intros H. destruct (repr_shape f H) as (neg & ds & d & -> & _). apply repr_text_float_token. Qed.

(** [float(repr(f)) == f] for every finite binary64 number, the sign of
    zero included. *)
Lemma repr_read_back (f : float) :
  is_finite_float f = true -> valid_binary prec emax f = true -> float_of_text (repr f) = Some f.
Proof.
  destruct f as [s | s | | s m e]; try discriminate; intros _ Hv; [destruct s; reflexivity |].
  unfold repr. destruct (search _ _ _ _ _ _ _) as [txt|] eqn:E.
  - apply search_sound in E as (M & x & H & _). exact H.
  - simpl in Hv. pose proof (pow_pos_max 2 e ltac:(lia)).
    destruct (Z.leb_spec 0 e) as [He | He].
    + apply dec_text_exact; [exact Hv | nia |].
      replace (Z.max (- e) 0) with 0 by lia. replace (Z.max e 0) with e by lia.
      change (Z.max 0 0) with 0. change (Z.max (- 0) 0) with 0. rewrite !Z.pow_0_r. ring.
    + apply dec_text_exact; [exact Hv | pose proof (Z.pow_pos_nonneg 5 (- e)); nia |].
      replace (Z.max e 0) with 0 by lia. replace (Z.max (- e) 0) with (- e) by lia.
      rewrite !Z.pow_0_r. change 10 with (5 * 2). rewrite Z.pow_mul_l. ring.
Qed.

(** ** Properties of [float()] and [float.__repr__] *)

(** (C25) [float(confidence)] of line 91 on a confidence given as a plain
    decimal string [ip.fp]: the record's confidence is the binary64 value
    nearest to the decimal, a canonical float (a mantissa of at most 53
    bits, normalised unless subnormal) or an infinity, and when finite,
    [m * 2^e], within half a unit in the last place of
    [dval (ip ++ fp) / 10^|fp|] (cross-multiplied, without negative
    powers). *)
Theorem format_confidence_str (r : pyval) (o : out_rec) (ip fp : list Z) :
  build_record r = Ok (Some o) -> nth_error (seq_items r) 2 = Some (PStr (ip ++ 46 :: fp)) ->
  forallb is_digit (ip ++ fp) = true -> ip <> [] ->
  valid_binary prec emax (rec_confidence o) = true /\
  forall m e, rec_confidence o = S754_finite false m e ->
    Z.abs (2 * dval (ip ++ fp) * 2 ^ Z.max (- e) 0 - 2 * Zpos m * 10 ^ Z.of_nat (length fp) * 2 ^ Z.max e 0)
      <= 10 ^ Z.of_nat (length fp) * 2 ^ Z.max e 0.
Proof.
  intros Hb Hc Hd Hne. pose proof (build_record_confidence r o _ Hb Hc) as Hf.
  cbn [py_float] in Hf. rewrite float_of_str_decimal in Hf by assumption. injection Hf as <-.
  apply round_q_correct, Z.pow_pos_nonneg; lia.
Qed.

(** ** The [FloatRepr] of CPython *)

(** CPython's [float.__repr__] and [float()] are a [FloatRepr]. *)
#[export] Instance cpython_repr : FloatRepr := {|
  float_repr := repr;
  float_parse := float_of_text;
  float_repr_num := repr_num;
  float_repr_float_token := repr_float_token;
  float_parse_repr := repr_read_back
|}.

(** ** Witnesses of the laws of [Json] with CPython's [repr] *)

(** The record of the greeting scenario of [Format] is printed and read
    back as the object the spec gives it. *)
Lemma json_dumps_roundtrip_witness :
  format_results [hi_detection] = Ok [hi_record] /\ forallb wf_rec [hi_record] = true /\
  parse_json (json_dumps [hi_record]) =
    Some (JArr [spec_object (JStr (str_lit "Hi")) c087 10 20 50 40]).
Proof.
  assert (Hf : format_results [hi_detection] = Ok [hi_record]) by (vm_compute; reflexivity).
  assert (Hw : forallb wf_rec [hi_record] = true) by (vm_compute; reflexivity).
  split; [exact Hf | split; [exact Hw |]].
  destruct (json_dumps_roundtrip _ _ Hf Hw) as (items & Hp & H2). rewrite Hp.
  inversion H2 as [| o j os' js' (a & b & c & d & Hb & ->) Hnil]; subst.
  inversion Hnil; subst. cbn in Hb. injection Hb as <- <- <- <-. reflexivity.
Defined.

Lemma json_roundtrip_witness :
  parse_json (encode (JArr [JStr [34; 10; 233]; JFloat S754_nan; JFloat (S754_zero true); JObj []])) =
    Some (JArr [JStr [34; 10; 233]; JFloat S754_nan; JFloat (S754_zero true); JObj []]).
Proof. apply json_roundtrip. vm_compute. reflexivity. Defined.

(** A detection whose confidence is the string ["0.87"]: its record has
    the binary64 value of [0.87], as when the engine gives the float. *)
Lemma format_confidence_str_witness :
  build_record (PTuple [PList [pt 10 20; pt 50 40]; PStr (str_lit "Hi"); PStr (str_lit "0.87")]) =
    Ok (Some (mk_out_rec (PStr (str_lit "Hi")) c087 [10; 20; 50; 40])) /\
  valid_binary prec emax c087 = true /\
  Z.abs (2 * 87 * 2 ^ Z.max 53 0 - 2 * 7836263351624663 * 10 ^ 2 * 2 ^ Z.max (-53) 0)
    <= 10 ^ 2 * 2 ^ Z.max (-53) 0.
Proof.
  assert (Hb : build_record (PTuple [PList [pt 10 20; pt 50 40]; PStr (str_lit "Hi"); PStr (str_lit "0.87")]) =
    Ok (Some (mk_out_rec (PStr (str_lit "Hi")) c087 [10; 20; 50; 40]))) by (vm_compute; reflexivity).
  destruct (format_confidence_str _ _ [48] [56; 55] Hb eq_refl eq_refl ltac:(discriminate)) as [Hv He].
  split; [exact Hb | split; [exact Hv | exact (He 7836263351624663%positive (-53) eq_refl)]].
Defined.
