(* ===== verification/Shortest.v ===== *)
(** * [float.__repr__] prints the shortest decimal, the nearest of its length

    [Repr] proves that the text of [repr] reads back; this file proves
    that no decimal with fewer significant digits reads back to the
    float, and that no decimal with as few digits is nearer to it.  The
    argument is on rationals: [round_Q] is [round_q] on a [Q], the
    decimals a float reads back from form an interval ([round_q_between]),
    and the two candidates of [candidates] bracket every decimal of their
    length around the float. *)

From Stdlib Require Import ZArith QArith Qpower Qabs Lqa Lia List Bool SpecFloat Morphisms.
From S2P Require Import Prelude PyNum Strtod Json Repr.
Import ListNotations.

Open Scope Z_scope.

(** ** [round_q] on rationals *)

Definition round_Q (s : bool) (a : Q) : float := round_q s (Qnum a) (QDen a).

#[export] Instance round_Q_proper : Proper (eq ==> Qeq ==> eq) round_Q.
Proof. intros s ? <- a b H. unfold round_Q. apply round_q_ratio; [reflexivity | reflexivity | exact H]. Qed.

Lemma round_Q_eq (s : bool) (a b : Q) : (a == b)%Q -> round_Q s a = round_Q s b.
Proof. intros H. rewrite H. reflexivity. Qed.

Lemma round_q_Q (s : bool) (p q : Z) : 0 < q -> round_q s p q = round_Q s (p # Z.to_pos q).
Proof. intros Hq. unfold round_Q. apply round_q_ratio; simpl; rewrite ?Z2Pos.id; lia. Qed.

Lemma round_Q_between (s s' : bool) (a b c : Q) (m : positive) (e : Z) :
  (a <= b)%Q -> (b <= c)%Q ->
  round_Q s a = S754_finite s' m e -> round_Q s c = S754_finite s' m e ->
  round_Q s b = S754_finite s' m e.
Proof. intros Hab Hbc. apply round_q_between; [reflexivity .. | exact Hab | exact Hbc]. Qed.

(** ** Decimals as rationals *)

Lemma inject_Z_neq0 (a : Z) : 0 < a -> ~ (inject_Z a == 0)%Q.
Proof. intros Ha H. unfold Qeq in H. simpl in H. lia. Qed.

(** The value [M * 10^x]. *)
Definition dec_q (M x : Z) : Q := (inject_Z M * inject_Z 10 ^ x)%Q.

Lemma pow10_Q (k : Z) : 0 <= k -> (inject_Z (10 ^ k) == inject_Z 10 ^ k)%Q.
Proof. intros Hk. apply Zpower_Qpower, Hk. Qed.

Lemma pow10_Q_pos (x : Z) : (0 < inject_Z 10 ^ x)%Q.
Proof. apply Qpower_0_lt. reflexivity. Qed.

(** [M * B^x] as the fraction [M * B^max(x,0) / B^max(-x,0)]. *)
Lemma pow_Q_frac (B M x : Z) :
  0 < B -> (inject_Z M * inject_Z B ^ x == (M * B ^ Z.max x 0) # Z.to_pos (B ^ Z.max (- x) 0))%Q.
Proof.
  intros HB. destruct (Z.leb_spec 0 x) as [Hx | Hx].
  - rewrite Z.max_l, Z.max_r, Z.pow_0_r by lia. change (Z.to_pos 1) with 1%positive.
    rewrite <- Zpower_Qpower by exact Hx. rewrite <- inject_Z_mult. reflexivity.
  - rewrite Z.max_r, Z.max_l, Z.pow_0_r, Z.mul_1_r by lia.
    rewrite Qmake_Qdiv, Z2Pos.id by (apply Z.pow_pos_nonneg; lia).
    replace x with (- (- x)) at 1 by lia. rewrite Qpower_opp, <- Zpower_Qpower by lia.
    reflexivity.
Qed.

Lemma dec_q_frac (M x : Z) :
  (dec_q M x == (M * 10 ^ Z.max x 0) # Z.to_pos (10 ^ Z.max (- x) 0))%Q.
Proof. apply pow_Q_frac. lia. Qed.

(** [float()] of the decimal [M * 10^x] rounds its value. *)
Lemma float_of_dec_Q (s : bool) (M x : Z) : float_of_dec s M x = round_Q s (dec_q M x).
Proof.
  rewrite float_of_dec_q, round_q_Q by (apply Z.pow_pos_nonneg; lia).
  rewrite dec_q_frac. reflexivity.
Qed.

Lemma dec_q_shift (M x z : Z) : z <= x -> (dec_q M x == dec_q (M * 10 ^ (x - z)) z)%Q.
Proof.
  intros H. unfold dec_q. rewrite inject_Z_mult, pow10_Q by lia.
  replace x with ((x - z) + z) at 1 by lia. rewrite Qpower_plus by discriminate. ring.
Qed.

Lemma dec_q_le (M N x : Z) : M <= N -> (dec_q M x <= dec_q N x)%Q.
Proof.
  intros H. unfold dec_q. apply Qmult_le_compat_r; [rewrite <- Zle_Qle; exact H |].
  apply Qlt_le_weak, pow10_Q_pos.
Qed.

Lemma dec_q_pow10 (k p q : Z) :
  0 < q -> pow10_le k p q = true <-> (dec_q 1 k <= p # Z.to_pos q)%Q.
Proof.
  intros Hq. rewrite dec_q_frac. unfold Qle, pow10_le. cbn [Qnum Qden].
  rewrite !Z2Pos.id by first [lia | apply Z.pow_pos_nonneg; lia]. rewrite Z.leb_le. lia.
Qed.

(** ** Digit counts *)

Lemma dval_bound (ds : list Z) :
  forallb is_digit ds = true -> 0 <= dval ds < 10 ^ Z.of_nat (length ds).
Proof.
  induction ds as [| d r IH]; [intros _; cbn; lia |]. cbn [forallb]. rewrite andb_true_iff.
  intros [Hd Hr]. specialize (IH Hr). unfold is_digit in Hd. rewrite andb_true_iff, !Z.leb_le in Hd.
  change (d :: r) with ([d] ++ r). rewrite dval_app, length_app. cbn [length Nat.add].
  rewrite Nat2Z.inj_succ, Z.pow_succ_r by lia.
  change (dval [d]) with (0 * 10 + (d - 48)). nia.
Qed.

(** The leading digit of a positive number is not [0]. *)
Lemma digits_of_head (M : Z) : 0 < M -> exists d r, digits_of M = d :: r /\ 49 <= d <= 57.
Proof.
  intros HM. unfold digits_of. set (n := Z.to_N M).
  assert (Hn : n <> 0%N) by (unfold n; lia).
  assert (Hu : N.to_uint n = Decimal.unorm (N.to_uint n))
    by (rewrite <- DecimalN.Unsigned.to_of, DecimalN.Unsigned.of_to; reflexivity).
  destruct (N.to_uint n) as [| u | u | u | u | u | u | u | u | u | u] eqn:E;
    [exfalso; eapply to_uint_not_nil; exact E | | eexists _, _; split; [reflexivity | lia] ..].
  exfalso. rewrite DecimalFacts.unorm_D0 in Hu.
  assert (u = Decimal.Nil \/ u <> Decimal.Nil) as [Eu | Eu] by (destruct u; [left; reflexivity | right; discriminate ..]).
  - subst u. apply Hn. rewrite <- (DecimalN.Unsigned.of_to n), E. reflexivity.
  - pose proof (DecimalFacts.nb_digits_unorm u Eu) as H. rewrite <- Hu in H. simpl in H. lia.
Qed.

(** A positive [M] has [ndigits M] digits: [10^(n-1) <= M < 10^n]. *)
Lemma ndigits_bounds (M : Z) :
  0 < M -> 1 <= ndigits M /\ 10 ^ (ndigits M - 1) <= M < 10 ^ ndigits M.
Proof.
  intros HM. destruct (digits_of_head M HM) as (d & r & E & Hd).
  pose proof (digits_of_digits M) as Hall. rewrite E in Hall. cbn [forallb] in Hall.
  apply andb_true_iff in Hall as [_ Hr]. pose proof (dval_bound r Hr).
  assert (HMv : M = (d - 48) * 10 ^ Z.of_nat (length r) + dval r).
  { rewrite <- (dval_digits_of M) at 1 by lia. rewrite E.
    change (d :: r) with ([d] ++ r). rewrite dval_app. reflexivity. }
  unfold ndigits. rewrite E. cbn [length]. rewrite Nat2Z.inj_succ, Z.pow_succ_r by lia.
  replace (Z.succ (Z.of_nat (length r)) - 1) with (Z.of_nat (length r)) by lia.
  nia.
Qed.

Lemma pow10_le_split (k a c p q : Z) :
  0 <= a -> 0 <= c -> a - c = k -> pow10_le k p q = (q * 10 ^ a <=? p * 10 ^ c).
Proof. intros. apply pow_le_split; lia. Qed.

(** [log10_q p q] is [floor(log10(p/q))]. *)
Lemma log10_q_spec (p q : Z) :
  0 < p -> 0 < q -> pow10_le (log10_q p q) p q = true /\ pow10_le (log10_q p q + 1) p q = false.
Proof.
  intros Hp Hq. destruct (ndigits_bounds p Hp) as (Hp0 & Hp1 & Hp2).
  destruct (ndigits_bounds q Hq) as (Hq0 & Hq1 & Hq2).
  set (lp := ndigits p) in *. set (lq := ndigits q) in *.
  assert (HA : pow10_le (lp - lq + 1) p q = false).
  { rewrite (pow10_le_split _ lp (lq - 1)) by lia. apply Z.leb_gt.
    assert (10 ^ lp = 10 * 10 ^ (lp - 1)) by (rewrite <- Z.pow_succ_r by lia; f_equal; lia). nia. }
  assert (HB : pow10_le (lp - lq - 1) p q = true).
  { rewrite (pow10_le_split _ (lp - 1) lq) by lia. apply Z.leb_le.
    assert (10 ^ lq = 10 * 10 ^ (lq - 1)) by (rewrite <- Z.pow_succ_r by lia; f_equal; lia). nia. }
  unfold log10_q. fold lp lq. destruct (pow10_le (lp - lq) p q) eqn:E.
  - split; assumption.
  - split; [exact HB | replace (lp - lq - 1 + 1) with (lp - lq) by lia; exact E].
Qed.

(** ** The candidates read back as their values *)

Lemma dec_q_pow_le (a b : Z) : a <= b -> (dec_q 1 a <= dec_q 1 b)%Q.
Proof.
  intros H. rewrite (dec_q_shift 1 b a H). apply dec_q_le.
  pose proof (Z.pow_pos_nonneg 10 (b - a)). lia.
Qed.

(** The text of a positive decimal reads back as the float nearest to
    its value. *)
Lemma dec_text_read (s : bool) (M x : Z) :
  0 < M -> float_of_text (dec_text s M x) = Some (float_of_dec s M x).
Proof.
  intros HM. unfold dec_text. destruct (strip_zeros _ M x) as [M' x'] eqn:Hs.
  destruct (strip_zeros_spec _ M x M' x' HM Hs) as (j & Hj & HMj & Hx & HM').
  destruct (digits_of_head M' HM') as (d & r & Ed & _).
  destruct (parse_repr_text s (digits_of M') (x' + ndigits M') (digits_of_digits M'))
    as (k & Hk & Hp); [rewrite Ed; discriminate |].
  unfold float_of_text. rewrite Hp. cbn [option_map]. f_equal.
  rewrite dval_digits_of by lia. unfold ndigits.
  replace (x' + Z.of_nat (length (digits_of M')) - Z.of_nat (length (digits_of M')) - k) with (x' - k) by lia.
  rewrite !float_of_dec_Q. apply round_Q_eq. transitivity (dec_q M' x').
  - rewrite (dec_q_shift M' x' (x' - k)) by lia. replace (x' - (x' - k)) with k by lia. reflexivity.
  - subst M x'. rewrite (dec_q_shift M' (x + j) x) by lia. replace (x + j - x) with j by lia. reflexivity.
Qed.

Lemma float_beq_refl (f : float) : float_beq f f = true.
Proof. destruct f; simpl; rewrite ?Bool.eqb_reflx, ?Pos.eqb_refl, ?Z.eqb_refl; reflexivity. Qed.

(** [check] keeps a positive decimal exactly when it rounds to [f]. *)
Lemma check_cases (f : float) (s : bool) (M x : Z) :
  0 < M ->
  (round_Q s (dec_q M x) = f /\ check f s M x = Some (dec_text s M x)) \/
  (round_Q s (dec_q M x) <> f /\ check f s M x = None).
Proof.
  intros HM. unfold check. rewrite dec_text_read, float_of_dec_Q by exact HM.
  destruct (float_beq (round_Q s (dec_q M x)) f) eqn:E.
  - left. split; [apply float_beq_eq, E | reflexivity].
  - right. split; [intros H; rewrite H, float_beq_refl in E; discriminate | reflexivity].
Qed.

Lemma Qabs_below (a v D : Q) : (D <= a)%Q -> (a <= v)%Q -> (Qabs (a - v) <= Qabs (D - v))%Q.
Proof. intros. rewrite (Qabs_neg (a - v)), (Qabs_neg (D - v)) by lra. lra. Qed.

Lemma Qabs_above (b v D : Q) : (v <= b)%Q -> (b <= D)%Q -> (Qabs (b - v) <= Qabs (D - v))%Q.
Proof. intros. rewrite (Qabs_pos (b - v)), (Qabs_pos (D - v)) by lra. lra. Qed.

Lemma Qabs_cross_lo (a v b D : Q) :
  (a <= v)%Q -> (v - a <= b - v)%Q -> (b <= D)%Q -> (Qabs (a - v) <= Qabs (D - v))%Q.
Proof. intros. rewrite (Qabs_neg (a - v)), (Qabs_pos (D - v)) by lra. lra. Qed.

Lemma Qabs_cross_hi (b v a D : Q) :
  (v <= b)%Q -> (b - v <= v - a)%Q -> (D <= a)%Q -> (Qabs (b - v) <= Qabs (D - v))%Q.
Proof. intros. rewrite (Qabs_pos (b - v)), (Qabs_neg (D - v)) by lra. lra. Qed.

(** ** The two candidates of a length *)

Section Candidates.

Variables (p q x : Z).
Hypothesis Hp : 0 < p.
Hypothesis Hq : 0 < q.

Let v : Q := p # Z.to_pos q.
Let num := p * 10 ^ Z.max (- x) 0.
Let den := q * 10 ^ Z.max x 0.
Let lo := num / den.
Let rem := num mod den.

Lemma den_pos : 0 < den.
Proof. unfold den. pose proof (Z.pow_pos_nonneg 10 (Z.max x 0)). nia. Qed.

(** [p/q = (lo + rem/den) * 10^x]. *)
Lemma cand_split : (v == dec_q lo x + inject_Z rem / inject_Z den * dec_q 1 x)%Q.
Proof.
  pose proof den_pos. pose proof (Z.div_mod num den ltac:(lia)) as Hd.
  assert (HA : 0 < 10 ^ Z.max (- x) 0) by (apply Z.pow_pos_nonneg; lia).
  assert (HB : 0 < 10 ^ Z.max x 0) by (apply Z.pow_pos_nonneg; lia).
  assert (Hr : (inject_Z rem == inject_Z p * inject_Z (10 ^ Z.max (- x) 0)
                - inject_Z q * inject_Z (10 ^ Z.max x 0) * inject_Z lo)%Q).
  { unfold Qminus. rewrite <- !inject_Z_mult, <- inject_Z_opp, <- inject_Z_plus. apply inject_Z_injective.
    unfold rem, lo, num, den in *. lia. }
  unfold v. rewrite !dec_q_frac, !Qmake_Qdiv, !Z2Pos.id by lia.
  rewrite Hr. unfold den. rewrite !inject_Z_mult.
  field. repeat split; apply inject_Z_neq0; lia.
Qed.

Let a : Q := dec_q lo x.
Let b : Q := dec_q (lo + 1) x.
Let w : Q := dec_q 1 x.
Let u : Q := rem # Z.to_pos den.

Lemma cand_u : (0 <= u)%Q /\ (u < 1)%Q.
Proof.
  pose proof den_pos. pose proof (Z.mod_pos_bound num den ltac:(lia)) as Hr. change (num mod den) with rem in Hr.
  unfold u, Qle, Qlt. cbn [Qnum Qden]. rewrite Z2Pos.id by lia. lia.
Qed.

Lemma cand_v : (v == a + u * w)%Q.
Proof. pose proof den_pos. rewrite cand_split. unfold u. rewrite Qmake_Qdiv, Z2Pos.id by lia. reflexivity. Qed.

Lemma cand_w : (0 < w)%Q.
Proof. unfold w, dec_q. rewrite Qmult_1_l. apply pow10_Q_pos. Qed.

Lemma cand_b : (b == a + w)%Q.
Proof. unfold a, b, w, dec_q. rewrite inject_Z_plus. ring. Qed.

(** [lo * 10^x <= p/q < (lo + 1) * 10^x], with equality when [rem = 0]. *)
Lemma cand_bounds : (a <= v)%Q /\ (v < b)%Q /\ (rem = 0 -> (v == a)%Q).
Proof.
  pose proof cand_u. pose proof cand_w. rewrite cand_v, cand_b.
  split; [nra | split; [nra |]]. intros Hr. unfold u. rewrite Hr.
  setoid_replace (0 # Z.to_pos den) with 0%Q by reflexivity. ring.
Qed.

(** Which candidate is nearer: [rem/den] against one half. *)
Lemma cand_half :
  (2 * rem < den -> (v - a < b - v)%Q) /\ (2 * rem = den -> (v - a == b - v)%Q) /\
  (den < 2 * rem -> (b - v < v - a)%Q).
Proof.
  pose proof den_pos. pose proof cand_w. rewrite cand_v, cand_b.
  assert (U : forall c : Z, (inject_Z c * u == c * rem # Z.to_pos den)%Q)
    by (intros c; unfold u, Qeq, Qmult, inject_Z; cbn [Qnum Qden Pos.mul]; lia).
  assert (D : (1 == den # Z.to_pos den)%Q) by (unfold Qeq; cbn [Qnum Qden]; rewrite Z2Pos.id; lia).
  repeat split; intros Hc.
  - assert (2 * u < 1)%Q by (change 2%Q with (inject_Z 2); rewrite U, D; unfold Qlt; cbn [Qnum Qden]; nia). nra.
  - assert (Hu : (2 * u == 1)%Q)
      by (change 2%Q with (inject_Z 2); rewrite U, D; unfold Qeq; cbn [Qnum Qden]; nia).
    assert (Hh : (u == 1 / 2)%Q) by (rewrite <- Hu; field). rewrite Hh. field.
  - assert (1 < 2 * u)%Q by (change 2%Q with (inject_Z 2); rewrite U, D; unfold Qlt; cbn [Qnum Qden]; nia). nra.
Qed.

Section Length.

(** The candidates of [k] digits for a value of decimal exponent [t]. *)
Variables (k t : Z).
Hypothesis Hk : 1 <= k.
Hypothesis Hx : x = t - k + 1.
Hypothesis Ht : (dec_q 1 t <= v)%Q.

Lemma cand_lo_pos : 10 ^ (k - 1) <= lo.
Proof.
  destruct cand_bounds as (_ & Hb & _). apply Z.nlt_ge. intros Hlt.
  assert (dec_q (lo + 1) x <= dec_q (10 ^ (k - 1)) x)%Q by (apply dec_q_le; lia).
  rewrite (dec_q_shift 1 t x), Z.mul_1_l in Ht by lia. replace (t - x) with (k - 1) in Ht by lia.
  fold b in H. lra.
Qed.

Lemma cand_lo_lt : (v < dec_q 1 (t + 1))%Q -> lo < 10 ^ k.
Proof.
  intros H1. destruct cand_bounds as (Ha & _ & _). apply Z.nle_gt. intros Hle.
  assert (dec_q (10 ^ k) x <= a)%Q by (apply dec_q_le; lia).
  rewrite (dec_q_shift 1 (t + 1) x), Z.mul_1_l in H1 by lia. replace (t + 1 - x) with k in H1 by lia.
  fold a in Ha. lra.
Qed.

(** Every decimal of at most [k] digits lies at or below the lower
    candidate or at or above the upper one. *)
Lemma cand_bracket (M' x' : Z) :
  0 <= M' <= 10 ^ k -> (dec_q M' x' <= a)%Q \/ (b <= dec_q M' x')%Q.
Proof.
  intros HM. destruct (Z.le_gt_cases x x') as [Hle | Hgt].
  - rewrite (dec_q_shift M' x' x Hle). pose proof (Z.pow_pos_nonneg 10 (x' - x)).
    destruct (Z.le_gt_cases (M' * 10 ^ (x' - x)) lo); [left | right]; apply dec_q_le; lia.
  - left. pose proof cand_lo_pos. apply (Qle_trans _ (dec_q 1 t)).
    + rewrite (dec_q_shift 1 t x') by lia. apply dec_q_le. rewrite Z.mul_1_l.
      assert (10 ^ k <= 10 ^ (t - x')) by (apply Z.pow_le_mono_r; lia). lia.
    + rewrite (dec_q_shift 1 t x) by lia. apply dec_q_le. replace (t - x) with (k - 1) by lia. lia.
Qed.

(** The float the candidates must read back to: [p/q] rounds to it. *)
Variables (sg : bool) (mf : positive) (ef : Z).
Hypothesis Hv : round_Q sg v = S754_finite sg mf ef.

Lemma cand_reads_lo (D : Q) :
  (D <= a)%Q -> round_Q sg D = S754_finite sg mf ef -> round_Q sg a = S754_finite sg mf ef.
Proof. intros HD HR. apply (round_Q_between _ _ D a v); [exact HD | apply cand_bounds | exact HR | exact Hv]. Qed.

Lemma cand_reads_hi (D : Q) :
  (b <= D)%Q -> round_Q sg D = S754_finite sg mf ef -> round_Q sg b = S754_finite sg mf ef.
Proof.
  intros HD HR. destruct cand_bounds as (_ & Hb & _).
  apply (round_Q_between _ _ v b D); [apply Qlt_le_weak, Hb | exact HD | exact Hv | exact HR].
Qed.

(** The lower candidate is at least as near as any decimal of [k]
    digits that reads back, unless the upper one reads back and is
    nearer. *)
Lemma near_lo (M' x' : Z) :
  round_Q sg a = S754_finite sg mf ef ->
  rem = 0 \/ round_Q sg b <> S754_finite sg mf ef \/ (v - a <= b - v)%Q ->
  0 <= M' <= 10 ^ k -> round_Q sg (dec_q M' x') = S754_finite sg mf ef ->
  (Qabs (a - v) <= Qabs (dec_q M' x' - v))%Q.
Proof.
  intros Ra Hc HM HR. destruct cand_bounds as (Ha & Hb & He).
  destruct (cand_bracket M' x' HM) as [Hl | Hr]; [apply Qabs_below; assumption |].
  destruct Hc as [H0 | [H0 | H0]].
  - rewrite (He H0). setoid_replace (a - a)%Q with 0%Q by ring. apply Qabs_nonneg.
  - exfalso. apply H0, (cand_reads_hi _ Hr HR).
  - apply (Qabs_cross_lo a v b); assumption.
Qed.

Lemma near_hi (M' x' : Z) :
  round_Q sg b = S754_finite sg mf ef ->
  round_Q sg a <> S754_finite sg mf ef \/ (b - v <= v - a)%Q ->
  0 <= M' <= 10 ^ k -> round_Q sg (dec_q M' x') = S754_finite sg mf ef ->
  (Qabs (b - v) <= Qabs (dec_q M' x' - v))%Q.
Proof.
  intros Rb Hc HM HR. destruct cand_bounds as (Ha & Hb & He).
  destruct (cand_bracket M' x' HM) as [Hl | Hr]; [| apply Qabs_above; [apply Qlt_le_weak |]; assumption].
  destruct Hc as [H0 | H0].
  - exfalso. apply H0, (cand_reads_lo _ Hl HR).
  - apply (Qabs_cross_hi b v a); [apply Qlt_le_weak | |]; assumption.
Qed.

(** [candidates] with its local definitions named. *)
Lemma candidates_unfold :
  candidates (S754_finite sg mf ef) sg p q x =
    match check (S754_finite sg mf ef) sg lo x,
          (if rem =? 0 then None else check (S754_finite sg mf ef) sg (lo + 1) x) with
    | Some t1, Some t2 =>
        if 2 * rem <? den then Some t1 else if den <? 2 * rem then Some t2
        else if Z.even lo then Some t1 else Some t2
    | Some t1, None => Some t1
    | None, t2 => t2
    end.
Proof. reflexivity. Qed.

(** The search at [k] digits succeeds when some decimal of [k] digits
    reads back. *)
Lemma candidates_complete (M' x' : Z) :
  0 <= M' <= 10 ^ k -> round_Q sg (dec_q M' x') = S754_finite sg mf ef ->
  candidates (S754_finite sg mf ef) sg p q x <> None.
Proof.
  intros HM HR. rewrite candidates_unfold. pose proof cand_lo_pos. assert (0 < 10 ^ (k - 1)) by (apply Z.pow_pos_nonneg; lia).
  destruct cand_bounds as (Ha & Hb & He).
  destruct (check_cases (S754_finite sg mf ef) sg lo x ltac:(lia)) as [[Ra ->] | [Ra ->]].
  { destruct (_ =? 0); [| destruct (check _ _ (lo + 1) x)];
      repeat match goal with |- context [if ?c then _ else _] => destruct c end; discriminate. }
  destruct (cand_bracket M' x' HM) as [Hl | Hr]; [exfalso; exact (Ra (cand_reads_lo _ Hl HR)) |].
  destruct (Z.eqb_spec rem 0) as [Hr0 | Hr0].
  - exfalso. apply Ra. fold a. rewrite <- (He Hr0). exact Hv.
  - destruct (check_cases (S754_finite sg mf ef) sg (lo + 1) x ltac:(lia)) as [[Rb ->] | [Rb _]];
      [discriminate | exfalso; exact (Rb (cand_reads_hi _ Hr HR))].
Qed.
(** What the search at [k] digits returns: a candidate that reads back
    and is at least as near to [p/q] as any decimal of [k] digits that
    reads back. *)
Lemma candidates_near (txt : list Z) :
  candidates (S754_finite sg mf ef) sg p q x = Some txt ->
  exists N, (N = lo \/ N = lo + 1) /\ txt = dec_text sg N x /\
    round_Q sg (dec_q N x) = S754_finite sg mf ef /\
    forall M' x', 0 <= M' <= 10 ^ k -> round_Q sg (dec_q M' x') = S754_finite sg mf ef ->
      (Qabs (dec_q N x - v) <= Qabs (dec_q M' x' - v))%Q.
Proof.
  rewrite candidates_unfold. intros H. pose proof cand_lo_pos.
  assert (0 < 10 ^ (k - 1)) by (apply Z.pow_pos_nonneg; lia).
  destruct cand_half as (Hn1 & Hn2 & Hn3).
  destruct (check_cases (S754_finite sg mf ef) sg lo x ltac:(lia)) as [[Ra Ca] | [Ra Ca]];
    destruct (check_cases (S754_finite sg mf ef) sg (lo + 1) x ltac:(lia)) as [[Rb Cb] | [Rb Cb]];
    rewrite Ca in H; destruct (Z.eqb_spec rem 0) as [Hr0 | Hr0]; rewrite ?Cb in H;
    try discriminate.
  (* the lower candidate alone, or the nearer of the two *)
  all: repeat match type of H with
    | (if ?c then _ else _) = _ => let E := fresh "Ec" in destruct c eqn:E
    end; injection H as <-;
    rewrite ?Z.ltb_lt, ?Z.ltb_ge in *.
  all: first
    [ exists lo; split; [left; reflexivity | split; [reflexivity | split; [exact Ra |]]];
      intros M' x' HM HR; apply near_lo; auto;
      right; right; (apply Qlt_le_weak, Hn1; lia) || (rewrite Hn2 by lia; apply Qle_refl)
    | exists (lo + 1); split; [right; reflexivity | split; [reflexivity | split; [exact Rb |]]];
      intros M' x' HM HR; apply near_hi; auto;
      right; (apply Qlt_le_weak, Hn3; lia) || (rewrite Hn2 by lia; apply Qle_refl) ].
Qed.
End Length.

End Candidates.

(** ** The search over lengths *)

Section Search.

Variables (f : float) (s : bool) (P Q t : Z).

(** [search] from [k0] returns the text of the first length [j] whose
    candidates succeed, trying [n] lengths. *)
Lemma search_first (k0 : Z) (n : nat) (txt : list Z) :
  search f s P Q t k0 n = Some txt ->
  exists j, k0 <= j < k0 + Z.of_nat n /\ candidates f s P Q (t - j + 1) = Some txt /\
    forall j', k0 <= j' < j -> candidates f s P Q (t - j' + 1) = None.
Proof.
  revert k0; induction n as [| n IH]; intros k0; simpl; [discriminate |].
  destruct (candidates f s P Q (t - k0 + 1)) as [t'|] eqn:E.
  - intros [= <-]. exists k0. split; [lia | split; [exact E | intros; lia]].
  - intros H. destruct (IH (k0 + 1) H) as (j & Hj & Hc & Hb). exists j.
    split; [lia | split; [exact Hc |]]. intros j' Hj'.
    destruct (Z.eq_dec j' k0) as [-> | Hne]; [exact E | apply Hb; lia].
Qed.

Lemma search_none (k0 : Z) (n : nat) :
  search f s P Q t k0 n = None ->
  forall j, k0 <= j < k0 + Z.of_nat n -> candidates f s P Q (t - j + 1) = None.
Proof.
  revert k0; induction n as [| n IH]; intros k0; simpl; [intros _ j; lia |].
  destruct (candidates f s P Q (t - k0 + 1)) as [t'|] eqn:E; [discriminate |].
  intros H j Hj. destruct (Z.eq_dec j k0) as [-> | Hne]; [exact E | apply (IH (k0 + 1) H); lia].
Qed.

End Search.

(** ** Trailing zeros *)

(** [strip_zeros] with as much fuel as digits removes every trailing zero. *)
Lemma strip_zeros_full (fuel : nat) (M x : Z) :
  0 < M -> M < 10 ^ Z.of_nat fuel -> (fst (strip_zeros fuel M x)) mod 10 <> 0.
Proof.
  revert M x; induction fuel as [| n IH]; intros M x HM Hlt; [simpl in Hlt; lia |].
  simpl. destruct ((0 <? M) && (M mod 10 =? 0)) eqn:E.
  - apply andb_true_iff in E as [_ E]. apply Z.eqb_eq in E.
    pose proof (Z.div_mod M 10 ltac:(lia)). rewrite Nat2Z.inj_succ, Z.pow_succ_r in Hlt by lia.
    apply IH; lia.
  - rewrite andb_false_iff, Z.ltb_ge, Z.eqb_neq in E. cbn [fst]. lia.
Qed.

(** The text of a positive decimal [N * 10^x] is [repr_text] of the
    digits of [N] without its trailing zeros, of the same value. *)
Lemma dec_text_shape (s : bool) (N x : Z) :
  0 < N ->
  exists ds decpt, dec_text s N x = repr_text s ds decpt /\ forallb is_digit ds = true /\
    0 < dval ds /\ dval ds mod 10 <> 0 /\ dval ds <= N /\ Z.of_nat (length ds) = ndigits (dval ds) /\
    (dec_q (dval ds) (decpt - Z.of_nat (length ds)) == dec_q N x)%Q.
Proof.
  intros HN. unfold dec_text. destruct (strip_zeros _ N x) as [N' x'] eqn:Hs.
  destruct (strip_zeros_spec _ N x N' x' HN Hs) as (j & Hj & HNj & Hx & HN').
  pose proof (strip_zeros_full (length (digits_of N)) N x HN) as Hfull. rewrite Hs in Hfull.
  destruct (ndigits_bounds N HN) as (_ & _ & Hlt). specialize (Hfull Hlt). cbn [fst] in Hfull.
  exists (digits_of N'), (x' + ndigits N'). rewrite dval_digits_of by lia.
  pose proof (Z.pow_pos_nonneg 10 j). split; [reflexivity | split; [apply digits_of_digits |]].
  do 3 (split; [nia |]). split; [reflexivity |]. unfold ndigits.
  replace (x' + Z.of_nat (length (digits_of N')) - Z.of_nat (length (digits_of N'))) with x' by lia.
  subst N x'. rewrite (dec_q_shift N' (x + j) x) by lia. replace (x + j - x) with j by lia. reflexivity.
Qed.

(** A number at most [10^j] without trailing zeros has at most [j] digits. *)
Lemma ndigits_le (N j : Z) : 1 <= j -> 0 < N -> N <= 10 ^ j -> N mod 10 <> 0 -> ndigits N <= j.
Proof.
  intros Hj HN Hle Hm. destruct (ndigits_bounds N HN) as (H1 & H2 & _).
  destruct (Z.eq_dec N (10 ^ j)) as [-> | Hne].
  - exfalso. apply Hm. replace j with (Z.succ (j - 1)) by lia.
    rewrite Z.pow_succ_r, Z.mul_comm, Z.mod_mul by lia. reflexivity.
  - apply Z.nlt_ge. intros Hlt. assert (10 ^ j <= 10 ^ (ndigits N - 1)) by (apply Z.pow_le_mono_r; lia). lia.
Qed.

Lemma finite_value_frac (m : positive) (e : Z) :
  (finite_value false m e == (Zpos m * 2 ^ Z.max e 0) # Z.to_pos (2 ^ Z.max (- e) 0))%Q.
Proof.
  unfold finite_value. destruct (Z.leb_spec 0 e) as [He | He].
  - rewrite Z.max_l, Z.max_r, Z.pow_0_r, Z.shiftl_mul_pow2 by lia. reflexivity.
  - rewrite Z.max_r, Z.max_l, Z.pow_0_r, Z.mul_1_r by lia. unfold Qeq. cbn [Qnum Qden].
    rewrite Pos2Z.inj_pow, !Z2Pos.id by first [lia | apply Z.pow_pos_nonneg; lia]. reflexivity.
Qed.

(** A binary64 number is the float nearest to its own value. *)
Lemma round_Q_float (s : bool) (m : positive) (e : Z) :
  SpecFloat.bounded prec emax m e = true -> round_Q s (finite_value false m e) = S754_finite s m e.
Proof.
  intros Hb. rewrite finite_value_frac, <- round_q_Q by (apply Z.pow_pos_nonneg; lia).
  apply round_q_exact; [exact Hb | apply Z.pow_pos_nonneg; lia | ring].
Qed.

Lemma repr_finite (s : bool) (m : positive) (e : Z) :
  repr (S754_finite s m e) =
    match search (S754_finite s m e) s (Zpos m * 2 ^ Z.max e 0) (2 ^ Z.max (- e) 0)
                 (log10_q (Zpos m * 2 ^ Z.max e 0) (2 ^ Z.max (- e) 0)) 1 17 with
    | Some txt => txt
    | None => if 0 <=? e then dec_text s (Zpos m * 2 ^ e) 0 else dec_text s (Zpos m * 5 ^ (- e)) e
    end.
Proof. reflexivity. Qed.

(** ** Rounding a rational near a float *)

Lemma finite_value_pow (m : positive) (e : Z) :
  (finite_value false m e == inject_Z (Zpos m) * inject_Z 2 ^ e)%Q.
Proof. rewrite finite_value_frac, pow_Q_frac by lia. reflexivity. Qed.

(** The inequalities of [round_q_near], multiplied by [2 * q * 2^1074],
    are those of [y] against [v = m * 2^e]. *)
Lemma scale_1074 (y : Q) (m : positive) (e : Z) :
  -1074 <= e ->
  (inject_Z (2 * Qnum y * 2 ^ 1074 - 2 * Zpos m * 2 ^ (e + 1074) * QDen y)
     == (y - finite_value false m e) * inject_Z (2 * QDen y * 2 ^ 1074))%Q /\
  (inject_Z (QDen y * 2 ^ (e + 1074)) == inject_Z 2 ^ e / 2 * inject_Z (2 * QDen y * 2 ^ 1074))%Q.
Proof.
  intros He. destruct y as [n d]. cbn [Qnum Qden]. rewrite finite_value_pow, Qmake_Qdiv.
  unfold Qminus, Z.sub. rewrite !inject_Z_mult, inject_Z_plus, inject_Z_opp, !inject_Z_mult.
  rewrite !Zpower_Qpower, Qpower_plus by (lia || discriminate).
  assert (~ (inject_Z 2 ^ 1074 == 0)%Q) by (apply Qpower_not_0; discriminate).
  assert (~ (inject_Z (Zpos d) == 0)%Q) by (apply inject_Z_neq0; lia).
  split; field; assumption.
Qed.

(** [round_q_near] on rationals: [y] within half a unit of [v = m * 2^e],
    and within a quarter unit below it when [m = 2^52] above the
    subnormals, rounds to [m * 2^e]. *)
Lemma round_Q_near (s : bool) (m : positive) (e : Z) (y : Q) :
  SpecFloat.bounded prec emax m e = true ->
  (Qabs (y - finite_value false m e) < inject_Z 2 ^ e / 2)%Q ->
  (Zpos m = 2 ^ 52 -> e = -1074 \/ (finite_value false m e - y < inject_Z 2 ^ e / 4)%Q) ->
  round_Q s y = S754_finite s m e.
Proof.
  intros Hb H1 H2. destruct (bounded_facts m e Hb) as (_ & He & _).
  destruct (scale_1074 y m e ltac:(lia)) as [E1 E2].
  set (c := inject_Z (2 * QDen y * 2 ^ 1074)) in *.
  assert (Hc : (0 < c)%Q) by (unfold c; change 0%Q with (inject_Z 0); rewrite <- Zlt_Qlt; pose proof (Z.pow_pos_nonneg 2 1074); lia).
  apply Qabs_Qlt_condition in H1 as [H1a H1b].
  apply round_q_near; [exact Hb | reflexivity | |].
  - apply Z.abs_lt. rewrite !Zlt_Qlt, inject_Z_opp, E1, E2.
    split; [setoid_replace (- (inject_Z 2 ^ e / 2 * c))%Q with (- (inject_Z 2 ^ e / 2) * c)%Q by ring |];
      apply Qmult_lt_r; assumption.
  - intros Hm. destruct (H2 Hm) as [He' | H3]; [left; exact He' | right].
    replace (4 * (Zpos m * 2 ^ (e + 1074) * QDen y - Qnum y * 2 ^ 1074))
      with (-2 * (2 * Qnum y * 2 ^ 1074 - 2 * Zpos m * 2 ^ (e + 1074) * QDen y)) by ring.
    rewrite Zlt_Qlt, inject_Z_mult, E1, E2.
    setoid_replace (inject_Z (-2) * ((y - finite_value false m e) * c))%Q
      with ((inject_Z (-2) * (y - finite_value false m e)) * c)%Q by ring.
    apply Qmult_lt_r; [exact Hc |]. set (u := (inject_Z 2 ^ e)%Q) in *.
    set (w := finite_value false m e) in *. change (inject_Z (-2)) with (-2)%Q.
    setoid_replace (u / 2)%Q with (u * (1 # 2))%Q by reflexivity.
    setoid_replace (u / 4)%Q with (u * (1 # 4))%Q in H3 by reflexivity. lra.
Qed.

(** The quantities [repr] works with for a finite float [m * 2^e]: its
    value [P/Q], which rounds to it, and the decimal exponent [t] with
    [10^t <= P/Q < 10^(t+1)]. *)
Lemma repr_setup (s : bool) (m : positive) (e : Z) :
  SpecFloat.bounded prec emax m e = true ->
  let P := Zpos m * 2 ^ Z.max e 0 in let Q := 2 ^ Z.max (- e) 0 in
  0 < P /\ 0 < Q /\ (finite_value false m e == P # Z.to_pos Q)%Q /\
  round_Q s (P # Z.to_pos Q) = S754_finite s m e /\
  (dec_q 1 (log10_q P Q) <= P # Z.to_pos Q)%Q /\ (P # Z.to_pos Q < dec_q 1 (log10_q P Q + 1))%Q.
Proof.
  intros Hb P Q.
  assert (HP : 0 < P) by (unfold P; pose proof (Z.pow_pos_nonneg 2 (Z.max e 0)); nia).
  assert (HQ : 0 < Q) by (apply Z.pow_pos_nonneg; lia).
  assert (Hfv : (finite_value false m e == P # Z.to_pos Q)%Q) by apply finite_value_frac.
  destruct (log10_q_spec P Q HP HQ) as [Ht Ht1].
  do 3 (split; [assumption |]). split; [rewrite <- Hfv; apply round_Q_float, Hb |].
  split; [apply dec_q_pow10; assumption |].
  apply Qnot_le_lt. rewrite <- dec_q_pow10 by exact HQ. congruence.
Qed.

(** Seventeen significant digits always read back: the nearer of the
    two 17-digit candidates is within [10^(t-16)/2 <= v / (2 * 10^16)]
    of the value [v], less than half a unit (a quarter below a power of
    two) since [2^53 < 10^16]. *)
Lemma seventeen_digits (s : bool) (m : positive) (e : Z) :
  SpecFloat.bounded prec emax m e = true ->
  let P := Zpos m * 2 ^ Z.max e 0 in let Q := 2 ^ Z.max (- e) 0 in
  candidates (S754_finite s m e) s P Q (log10_q P Q - 17 + 1) <> None.
Proof.
  intros Hb P Q. pose proof (repr_setup s m e Hb) as HS. cbv zeta in HS. fold P Q in HS.
  destruct HS as (HP & HQ & Hfv & Hv & Ht & Ht1).
  set (t := log10_q P Q) in *. set (x := t - 17 + 1). set (v := (P # Z.to_pos Q)%Q) in *.
  destruct (bounded_facts m e Hb) as (Hm & He & Hn).
  set (lo := P * 10 ^ Z.max (- x) 0 / (Q * 10 ^ Z.max x 0)).
  pose proof (cand_lo_lt P Q x HQ 17 t ltac:(lia) eq_refl Ht1) as Hlo.
  pose proof (cand_lo_pos P Q x HQ 17 t ltac:(lia) eq_refl Ht) as Hlo0. fold lo in Hlo, Hlo0.
  destruct (cand_bounds P Q x HQ) as (Ha & Hb' & _). destruct (cand_half P Q x HQ) as (H1 & H2 & H3).
  pose proof (cand_b P Q x) as Eb. pose proof (cand_w x) as Hw. fold v lo in Ha, Hb', H1, H2, H3, Eb.
  (* the spacing [w] of the candidates against the value *)
  assert (Hwv : (dec_q 1 x * inject_Z (10 ^ 16) <= v)%Q).
  { rewrite (dec_q_shift 1 t x) in Ht by (unfold x; lia). replace (t - x) with 16 in Ht by (unfold x; lia).
    unfold dec_q in *. rewrite Qmult_1_l in *. rewrite Qmult_comm. exact Ht. }
  change (inject_Z (10 ^ 16)) with (10000000000000000 # 1)%Q in Hwv.
  assert (Hvu : (v == inject_Z (Zpos m) * inject_Z 2 ^ e)%Q) by (rewrite <- Hfv; apply finite_value_pow).
  assert (Hu : (0 < inject_Z 2 ^ e)%Q) by (apply Qpower_0_lt; reflexivity).
  assert (Hmu : (v <= (9007199254740991 # 1) * inject_Z 2 ^ e)%Q).
  { rewrite Hvu. apply Qmult_le_compat_r; [| apply Qlt_le_weak, Hu].
    change (9007199254740991 # 1)%Q with (inject_Z (2 ^ 53 - 1)). rewrite <- Zle_Qle. lia. }
  (* the nearer candidate *)
  assert (Hnear : exists N, 0 <= N <= 10 ^ 17 /\
            (Qabs (dec_q N x - v) <= dec_q 1 x * (1 # 2))%Q /\ (v - dec_q N x <= dec_q 1 x * (1 # 2))%Q).
  { destruct (Z.leb_spec (2 * (P * 10 ^ Z.max (- x) 0 mod (Q * 10 ^ Z.max x 0))) (Q * 10 ^ Z.max x 0)).
    - exists lo. split; [lia |]. assert (v - dec_q lo x <= dec_q (lo + 1) x - v)%Q
        by (destruct (Z.lt_ge_cases (2 * (P * 10 ^ Z.max (- x) 0 mod (Q * 10 ^ Z.max x 0))) (Q * 10 ^ Z.max x 0));
            [apply Qlt_le_weak, H1 | rewrite H2 by lia; apply Qle_refl]; assumption).
      rewrite Qabs_neg by lra. split; lra.
    - exists (lo + 1). split; [lia |]. pose proof (H3 ltac:(lia)).
      rewrite Qabs_pos by lra. split; lra. }
  destruct Hnear as (N & HN & Hd1 & Hd2).
  apply (candidates_complete P Q x HQ 17 t ltac:(lia) eq_refl Ht s m e Hv N x HN).
  apply round_Q_near; [exact Hb | |]; setoid_replace (finite_value false m e) with v by exact Hfv.
  - apply (Qle_lt_trans _ _ _ Hd1). set (u := (inject_Z 2 ^ e)%Q) in *.
    setoid_replace (u / 2)%Q with (u * (1 # 2))%Q by reflexivity. set (w := dec_q 1 x) in *. lra.
  - intros Hm52. right. set (u := (inject_Z 2 ^ e)%Q) in *.
    assert (Hv52 : (v == (4503599627370496 # 1) * u)%Q) by (rewrite Hvu, Hm52; reflexivity).
    setoid_replace (u / 4)%Q with (u * (1 # 4))%Q by reflexivity. set (w := dec_q 1 x) in *. lra.
Qed.

(** ** [float.__repr__] is shortest and nearest *)

(** The digit search of [repr] always succeeds: the exact-value
    fallback of [repr] is never taken. *)
Lemma repr_search_some (s : bool) (m : positive) (e : Z) :
  SpecFloat.bounded prec emax m e = true ->
  let P := Zpos m * 2 ^ Z.max e 0 in let Q := 2 ^ Z.max (- e) 0 in
  exists txt, search (S754_finite s m e) s P Q (log10_q P Q) 1 17 = Some txt.
Proof.
  intros Hb P Q. destruct (search _ _ _ _ _ _ _) as [txt |] eqn:HS; [eexists; reflexivity |].
  exfalso. apply (seventeen_digits s m e Hb). apply (search_none _ _ _ _ _ _ _ HS).
  change (Z.of_nat 17) with 17. lia.
Qed.

(** (C26) [repr] of a finite binary64 number [f] is the text of a
    decimal [dval ds * 10^(decpt - |ds|)] that [float()] reads back to
    [f], and it is the shortest such decimal: every decimal [M' * 10^x']
    that reads back to [f] has at least as many significant digits, and
    none with as many digits is nearer to the value of [f].  This is
    what [_Py_dg_dtoa] in mode 0 promises. *)
Theorem repr_shortest_nearest (s : bool) (m : positive) (e : Z) :
  SpecFloat.bounded prec emax m e = true ->
  exists ds decpt,
    repr (S754_finite s m e) = repr_text s ds decpt /\ forallb is_digit ds = true /\
    float_of_dec s (dval ds) (decpt - Z.of_nat (length ds)) = S754_finite s m e /\
    forall M' x', 0 < M' -> float_of_dec s M' x' = S754_finite s m e ->
      Z.of_nat (length ds) <= ndigits M' /\
      (ndigits M' <= Z.of_nat (length ds) ->
       (Qabs (dec_q (dval ds) (decpt - Z.of_nat (length ds)) - finite_value false m e)
          <= Qabs (dec_q M' x' - finite_value false m e))%Q).
Proof.
  intros Hb. rewrite repr_finite.
  pose proof (repr_setup s m e Hb) as HS0. pose proof (repr_search_some s m e Hb) as [txt HS].
  cbv zeta in HS0, HS.
  set (P := Zpos m * 2 ^ Z.max e 0) in *. set (Q := 2 ^ Z.max (- e) 0) in *.
  set (t := log10_q P Q) in *. destruct HS0 as (HP & HQ & Hfv & Hv & Ht & Ht1'). rewrite HS.
  destruct (search_first _ _ _ _ _ _ _ _ HS) as (j & Hj & Hcj & Hbefore).
  change (Z.of_nat 17) with 17 in Hj.
  destruct (candidates_near P Q (t - j + 1) HQ j t ltac:(lia) eq_refl Ht s m e Hv txt Hcj)
    as (N & HN & -> & HRN & Hnear).
  pose proof (cand_lo_pos P Q (t - j + 1) HQ j t ltac:(lia) eq_refl Ht) as Hlo1.
  pose proof (cand_lo_lt P Q (t - j + 1) HQ j t ltac:(lia) eq_refl Ht1') as Hlo2.
  assert (0 < 10 ^ (j - 1)) by (apply Z.pow_pos_nonneg; lia).
  assert (HN0 : 0 < N /\ N <= 10 ^ j) by lia.
  destruct (dec_text_shape s N (t - j + 1) (proj1 HN0))
    as (ds & decpt & Htxt & Hd & Hpos & Hmod & Hle & Hnd & Hval).
  assert (Hlen : Z.of_nat (length ds) <= j) by (rewrite Hnd; apply ndigits_le; lia).
  exists ds, decpt. split; [exact Htxt |]. split; [exact Hd |]. split.
  - rewrite float_of_dec_Q, (round_Q_eq _ _ _ Hval). exact HRN.
  - intros M' x' HM HR. rewrite float_of_dec_Q in HR.
    destruct (ndigits_bounds M' HM) as (H1 & _ & H3).
    assert (Hjk : j <= ndigits M').
    { apply Z.nlt_ge. intros Hlt.
      apply (candidates_complete P Q _ HQ (ndigits M') t H1 eq_refl Ht s m e Hv M' x'); [lia | exact HR |].
      apply Hbefore. lia. }
    split; [lia |]. intros Hle'. rewrite Hfv, Hval.
    assert (10 ^ ndigits M' <= 10 ^ j) by (apply Z.pow_le_mono_r; lia).
    apply Hnear; [lia | exact HR].
Qed.

Lemma repr_shortest_nearest_witness :
  SpecFloat.bounded prec emax 7836263351624663 (-53) = true /\
  exists ds decpt,
    repr (S754_finite false 7836263351624663 (-53)) = repr_text false ds decpt /\
    forallb is_digit ds = true /\
    float_of_dec false (dval ds) (decpt - Z.of_nat (length ds)) = S754_finite false 7836263351624663 (-53) /\
    forall M' x', 0 < M' -> float_of_dec false M' x' = S754_finite false 7836263351624663 (-53) ->
      Z.of_nat (length ds) <= ndigits M' /\
      (ndigits M' <= Z.of_nat (length ds) ->
       (Qabs (dec_q (dval ds) (decpt - Z.of_nat (length ds)) - finite_value false 7836263351624663 (-53))
          <= Qabs (dec_q M' x' - finite_value false 7836263351624663 (-53)))%Q).
Proof. split; [reflexivity | apply repr_shortest_nearest; reflexivity]. Defined.
