(* ===== verification/Extern.v ===== *)
(** * The process state and the interfaces of the libraries

    [ocr_service.py] talks to the outside through [sys] (argv, stdout,
    stderr, [sys.exit]), OpenCV ([cv2.imread], [cv2.resize],
    [cv2.cvtColor]) and EasyOCR ([easyocr.Reader], [readtext]).  This
    file gives
    - [world]: the process state the program threads: its arguments,
      whether [sys.stdout.reconfigure] is supported, stdout's codec, the
      lines written to stdout (as code points) and stderr, and the trace
      of library calls in the order they are made;
    - [codec]: an encoding with the error handler of the stream, reduced
      to its name and the code points it can encode; [utf8] is UTF-8 with
      the [strict] handler [reconfigure] installs;
    - [IO]: a state-and-exception monad over [world] with [x <- m ;; k]
      notation in [io_scope], [try/except Exception], [print] and
      [sys.exit]; [print] to stdout encodes the whole line first and
      raises [UnicodeEncodeError] at the first code point the codec
      cannot encode, writing nothing; [print] to stderr never fails
      (stderr's handler is [backslashreplace]);
    - [Cv2] and [EasyOcr]: the libraries as type classes,
      with [Cv2Laws] stating what the program relies on (positive image
      sizes, [resize] to the requested size, grey conversion to one
      channel of the same size);
    - [shape_cv2] and [fixed_ocr]: small computable instances (images
      reduced to their shape, an engine returning a fixed answer) used by
      the witnesses; they are not models of OpenCV's or EasyOCR's
      algorithms. *)

From Stdlib Require Import String ZArith List Lia Bool.
From S2P Require Import Prelude PyNum PyVal.
Import ListNotations.

Open Scope Z_scope.

(** ** Process state *)

(** A library call, as the trace records it. *)
Inductive call : Type :=
| CReconfigure
| CImread (path : string)
| CResize (new_w new_h : Z)
| CCvtColor
| CReaderNew (langs : list string) (gpu verbose : bool)
| CReadtext (detail : Z) (paragraph : bool).

(** A line on stderr: text the program prints, or the traceback CPython
    prints for an uncaught exception. *)
Inductive err_line : Type :=
| ELine (s : string)
| ETraceback (e : exn).

(** A text stream's encoding with its error handler: its name and the
    code points it encodes without raising. *)
Record codec : Type := mk_codec {
  codec_name : string;
  encodable : Z -> bool
}.

(** UTF-8 with the [strict] handler: every code point but the
    surrogates U+D800..U+DFFF. *)
Definition utf8 : codec :=
  mk_codec "utf-8" (fun c => (0 <=? c) && (c <? 1114112) && negb ((55296 <=? c) && (c <=? 57343))).

Record world : Type := mk_world {
  w_argv : list string;
  w_reconfigure_ok : bool;
  w_codec : codec;
  w_stdout : list (list Z);
  w_stderr : list err_line;
  w_trace : list call
}.

Definition set_codec (cd : codec) (w : world) : world :=
  mk_world (w_argv w) (w_reconfigure_ok w) cd (w_stdout w) (w_stderr w) (w_trace w).
Definition add_stdout (s : list Z) (w : world) : world :=
  mk_world (w_argv w) (w_reconfigure_ok w) (w_codec w) (w_stdout w ++ [s]) (w_stderr w) (w_trace w).
Definition add_stderr (l : err_line) (w : world) : world :=
  mk_world (w_argv w) (w_reconfigure_ok w) (w_codec w) (w_stdout w) (w_stderr w ++ [l]) (w_trace w).
Definition add_call (c : call) (w : world) : world :=
  mk_world (w_argv w) (w_reconfigure_ok w) (w_codec w) (w_stdout w) (w_stderr w) (w_trace w ++ [c]).

(** ** The monad *)

Definition IO (A : Type) : Type := world -> res A * world.

Definition io_ret {A : Type} (a : A) : IO A := fun w => (Ok a, w).

Definition io_bind {A B : Type} (m : IO A) (k : A -> IO B) : IO B :=
  fun w => match m w with
           | (Ok a, w') => k a w'
           | (Raise e, w') => (Raise e, w')
           end.

(** A pure Python computation that may raise. *)
Definition io_lift {A : Type} (r : res A) : IO A := fun w => (r, w).

Definition io_raise {A : Type} (e : exn) : IO A := fun w => (Raise e, w).

Declare Scope io_scope.
Delimit Scope io_scope with io.
Notation "x <- m ;; k" := (io_bind m (fun x => k))
  (at level 61, m at next level, right associativity) : io_scope.
Notation "m ;;; k" := (io_bind m (fun _ => k))
  (at level 61, right associativity) : io_scope.
Open Scope io_scope.

(** [except Exception] catches everything but [SystemExit], which
    derives from [BaseException] only. *)
Definition is_Exception (e : exn) : bool :=
  match e with SystemExit _ => false | _ => true end.

(** [try: m except Exception as e: h e] *)
Definition try_except {A : Type} (m : IO A) (h : exn -> IO A) : IO A :=
  fun w => match m w with
           | (Raise e, w') => if is_Exception e then h e w' else (Raise e, w')
           | r => r
           end.

Definition get_argv : IO (list string) := fun w => (Ok (w_argv w), w).

(** [sys.stdout.reconfigure(encoding=...)]: raises [AttributeError]
    where stdout is not a [TextIOWrapper] (a replaced or wrapped stream). *)
Definition stdout_reconfigure (cd : codec) : IO unit :=
  fun w => if w_reconfigure_ok w
           then (Ok tt, add_call CReconfigure (set_codec cd w))
           else (Raise (AttributeError "reconfigure"), add_call CReconfigure w).

(** The first code point of [s] that [cd] cannot encode. *)
Definition first_unencodable (cd : codec) (s : list Z) : option Z :=
  find (fun c => negb (encodable cd c)) s.

(** [print(s)]: the text is encoded before anything is written. *)
Definition print_stdout (s : list Z) : IO unit :=
  fun w => match first_unencodable (w_codec w) s with
           | Some c => (Raise (UnicodeEncodeError (codec_name (w_codec w)) c), w)
           | None => (Ok tt, add_stdout s w)
           end.

(** [print(s, file=sys.stderr)] *)
Definition print_stderr (s : string) : IO unit := fun w => (Ok tt, add_stderr (ELine s) w).

(** [sys.exit(code)] raises [SystemExit]. *)
Definition sys_exit {A : Type} (code : Z) : IO A := io_raise (SystemExit code).

(** ** Monad lemmas *)

Lemma io_bind_ret {A B : Type} (a : A) (k : A -> IO B) (w : world) :
  io_bind (io_ret a) k w = k a w.
Proof. reflexivity. Qed.

Lemma io_bind_Ok {A B : Type} (m : IO A) (k : A -> IO B) (w w' : world) (a : A) :
  m w = (Ok a, w') -> io_bind m k w = k a w'.
Proof. intros H; unfold io_bind; rewrite H; reflexivity. Qed.

Lemma io_bind_Raise {A B : Type} (m : IO A) (k : A -> IO B) (w w' : world) (e : exn) :
  m w = (Raise e, w') -> io_bind m k w = (Raise e, w').
Proof. intros H; unfold io_bind; rewrite H; reflexivity. Qed.

Lemma io_bind_inv {A B : Type} (m : IO A) (k : A -> IO B) (w w'' : world) (r : res B) :
  io_bind m k w = (r, w'') ->
  (exists a w', m w = (Ok a, w') /\ k a w' = (r, w'')) \/
  (exists e, m w = (Raise e, w'') /\ r = Raise e).
Proof.
  unfold io_bind. destruct (m w) as [[a|e] w']; intros H; [left | right]; eauto.
  injection H as <- <-. eauto.
Qed.

(** ** Library interfaces *)

(** OpenCV, as the program uses it.  [shape_hw img] is [img.shape[:2]]
    ([(h, w)]); [channels] is the third dimension (1 for grey). *)
Class Cv2 : Type := {
  mat : Type;
  imread_color : string -> option mat;
  shape_hw : mat -> Z * Z;
  channels : mat -> Z;
  resize_cubic : mat -> Z -> Z -> res mat;
  cvt_bgr2gray : mat -> res mat
}.

(** What the program relies on from OpenCV. *)
Class Cv2Laws `{Cv2} : Prop := {
  imread_color_shape : forall p img, imread_color p = Some img ->
    0 < fst (shape_hw img) /\ 0 < snd (shape_hw img) /\ channels img = 3;
  resize_shape : forall img w h, 0 < w -> 0 < h ->
    exists img', resize_cubic img w h = Ok img' /\ shape_hw img' = (h, w) /\
                 channels img' = channels img;
  gray_shape : forall img, channels img = 3 -> exists g, cvt_bgr2gray img = Ok g /\
    shape_hw g = shape_hw img /\ channels g = 1
}.

(** EasyOCR: a reader is built for some languages and answers [readtext]
    with a Python value (a list of detections). *)
Class EasyOcr (image : Type) : Type := {
  reader : Type;
  reader_new : list string -> bool -> bool -> res reader;
  readtext : reader -> image -> Z -> bool -> res pyval
}.

(** The library calls, each recorded in the trace when it is made. *)
Definition call_imread `{C : Cv2} (path : string) : IO (option mat) :=
  fun w => (Ok (imread_color path), add_call (CImread path) w).
Definition call_resize `{C : Cv2} (img : mat) (new_w new_h : Z) : IO mat :=
  fun w => (resize_cubic img new_w new_h, add_call (CResize new_w new_h) w).
Definition call_cvt_gray `{C : Cv2} (img : mat) : IO mat :=
  fun w => (cvt_bgr2gray img, add_call CCvtColor w).

Definition call_reader_new {image : Type} `{E : EasyOcr image}
    (langs : list string) (gpu verbose : bool) : IO reader :=
  fun w => (reader_new langs gpu verbose, add_call (CReaderNew langs gpu verbose) w).
Definition call_readtext {image : Type} `{E : EasyOcr image}
    (r : reader) (img : image) (detail : Z) (paragraph : bool) : IO pyval :=
  fun w => (readtext r img detail paragraph, add_call (CReadtext detail paragraph) w).

(** ** Frame properties

    A computation [m] commutes with a change [f] of the world that it
    neither reads nor writes: running [m] on [f w] is running it on [w]
    and applying [f] to the final world.  [f] is a change of the argv, of
    stdout's encoding or of the reconfiguration flag; the computations
    after [main] reads its arguments commute with all of them.  [f] keeps
    stdout's codec, which [print] reads. *)
Section Frame.
Variable f : world -> world.
Hypothesis f_call : forall c w, f (add_call c w) = add_call c (f w).
Hypothesis f_out : forall s w, f (add_stdout s w) = add_stdout s (f w).
Hypothesis f_err : forall l w, f (add_stderr l w) = add_stderr l (f w).
Hypothesis f_codec : forall w, w_codec (f w) = w_codec w.

Definition commutes {A : Type} (m : IO A) : Prop :=
  forall w, m (f w) = (fst (m w), f (snd (m w))).

Lemma commutes_ret {A : Type} (a : A) : commutes (io_ret a).
Proof. intros w; reflexivity. Qed.

Lemma commutes_lift {A : Type} (r : res A) : commutes (io_lift r).
Proof. intros w; reflexivity. Qed.

Lemma commutes_raise {A : Type} (e : exn) : commutes (@io_raise A e).
Proof. intros w; reflexivity. Qed.

Lemma commutes_bind {A B : Type} (m : IO A) (k : A -> IO B) :
  commutes m -> (forall a, commutes (k a)) -> commutes (io_bind m k).
Proof.
  intros Hm Hk w. unfold io_bind. rewrite Hm.
  destruct (m w) as [[a|e] w']; simpl; [apply Hk | reflexivity].
Qed.

Lemma commutes_print_stdout (s : list Z) : commutes (print_stdout s).
Proof.
  intros w. unfold print_stdout. rewrite f_codec.
  destruct (first_unencodable _ s); simpl; [| rewrite f_out]; reflexivity.
Qed.

Lemma commutes_print_stderr (s : string) : commutes (print_stderr s).
Proof. intros w. unfold print_stderr. simpl. rewrite f_err. reflexivity. Qed.

Lemma commutes_call_imread `{C : Cv2} (p : string) : commutes (call_imread p).
Proof. intros w. unfold call_imread. simpl. rewrite f_call. reflexivity. Qed.

Lemma commutes_call_resize `{C : Cv2} (img : mat) (nw nh : Z) : commutes (call_resize img nw nh).
Proof. intros w. unfold call_resize. simpl. rewrite f_call. reflexivity. Qed.

Lemma commutes_call_cvt_gray `{C : Cv2} (img : mat) : commutes (call_cvt_gray img).
Proof. intros w. unfold call_cvt_gray. simpl. rewrite f_call. reflexivity. Qed.

Lemma commutes_call_reader_new {image : Type} `{E : EasyOcr image} langs gpu verbose :
  commutes (call_reader_new langs gpu verbose).
Proof. intros w. unfold call_reader_new. simpl. rewrite f_call. reflexivity. Qed.

Lemma commutes_call_readtext {image : Type} `{E : EasyOcr image} r img detail paragraph :
  commutes (call_readtext r img detail paragraph).
Proof. intros w. unfold call_readtext. simpl. rewrite f_call. reflexivity. Qed.

End Frame.

Create HintDb frame.
#[export] Hint Resolve commutes_ret commutes_lift commutes_raise commutes_print_stdout
  commutes_print_stderr commutes_call_imread commutes_call_resize commutes_call_cvt_gray
  commutes_call_reader_new commutes_call_readtext : frame.
#[export] Hint Extern 1 (forall _ _, _ = _) => intros; reflexivity : frame.
#[export] Hint Extern 1 (forall _, _ = _) => intros; reflexivity : frame.

(** Replaces the part of the world no library call or print touches:
    the arguments and the reconfiguration flag. *)
Definition set_env (argv : list string) (reconfigure_ok : bool) (w : world) : world :=
  mk_world argv reconfigure_ok (w_codec w) (w_stdout w) (w_stderr w) (w_trace w).

(** Breaks a [commutes] goal down to the library calls. *)
Ltac frame_tac :=
  repeat match goal with
  | |- commutes _ (io_bind _ _) => apply commutes_bind; [| intros ?]
  | |- commutes _ (match ?x with _ => _ end) => destruct x
  | |- commutes _ (let '(_, _) := ?x in _) => destruct x
  end; eauto with frame.

(** Computations that do not write to stdout. *)
Definition keeps_stdout {A : Type} (m : IO A) : Prop :=
  forall w, w_stdout (snd (m w)) = w_stdout w.

Lemma keeps_stdout_bind {A B : Type} (m : IO A) (k : A -> IO B) :
  keeps_stdout m -> (forall a, keeps_stdout (k a)) -> keeps_stdout (io_bind m k).
Proof.
  intros Hm Hk w. unfold io_bind. specialize (Hm w).
  destruct (m w) as [[a|e] w']; simpl in *; [rewrite Hk |]; exact Hm.
Qed.

Lemma keeps_stdout_ret {A : Type} (a : A) : keeps_stdout (io_ret a).
Proof. intros w; reflexivity. Qed.
Lemma keeps_stdout_lift {A : Type} (r : res A) : keeps_stdout (io_lift r).
Proof. intros w; reflexivity. Qed.
Lemma keeps_stdout_raise {A : Type} (e : exn) : keeps_stdout (@io_raise A e).
Proof. intros w; reflexivity. Qed.
Lemma keeps_stdout_print_stderr (s : string) : keeps_stdout (print_stderr s).
Proof. intros w; reflexivity. Qed.
Lemma keeps_stdout_call_imread `{C : Cv2} (p : string) : keeps_stdout (call_imread p).
Proof. intros w; reflexivity. Qed.
Lemma keeps_stdout_call_resize `{C : Cv2} (img : mat) (nw nh : Z) :
  keeps_stdout (call_resize img nw nh).
Proof. intros w; reflexivity. Qed.
Lemma keeps_stdout_call_cvt_gray `{C : Cv2} (img : mat) : keeps_stdout (call_cvt_gray img).
Proof. intros w; reflexivity. Qed.
Lemma keeps_stdout_call_reader_new {image : Type} `{E : EasyOcr image} langs gpu verbose :
  keeps_stdout (call_reader_new langs gpu verbose).
Proof. intros w; reflexivity. Qed.
Lemma keeps_stdout_call_readtext {image : Type} `{E : EasyOcr image} r img detail paragraph :
  keeps_stdout (call_readtext r img detail paragraph).
Proof. intros w; reflexivity. Qed.

Create HintDb quiet.
#[export] Hint Resolve keeps_stdout_ret keeps_stdout_lift keeps_stdout_raise
  keeps_stdout_print_stderr keeps_stdout_call_imread keeps_stdout_call_resize
  keeps_stdout_call_cvt_gray keeps_stdout_call_reader_new keeps_stdout_call_readtext : quiet.

(** Breaks a [keeps_stdout] goal down to the library calls. *)
Ltac quiet_tac :=
  repeat match goal with
  | |- keeps_stdout (io_bind _ _) => apply keeps_stdout_bind; [| intros ?]
  | |- keeps_stdout (match ?x with _ => _ end) => destruct x
  | |- keeps_stdout (let '(_, _) := ?x in _) => destruct x
  end; eauto with quiet.

(** ** Test instances *)

(** Images reduced to their height, width and channel count. *)
Record shape_img : Type := mk_shape { sh_h : Z; sh_w : Z; sh_c : Z }.

(** Files are a list of (path, image) entries. *)
Definition shape_cv2 (files : list (string * shape_img)) : Cv2 := {|
  mat := shape_img;
  imread_color p :=
    match find (fun e => String.eqb (fst e) p) files with
    | Some (_, img) => Some img
    | None => None
    end;
  shape_hw img := (sh_h img, sh_w img);
  channels := sh_c;
  resize_cubic img w h :=
    if (0 <? w) && (0 <? h) then Ok (mk_shape h w (sh_c img))
    else Raise (Cv2Error "resize: invalid size");
  cvt_bgr2gray img :=
    if sh_c img =? 3 then Ok (mk_shape (sh_h img) (sh_w img) 1)
    else Raise (Cv2Error "cvtColor: invalid number of channels")
|}.

#[export] Instance shape_cv2_laws (files : list (string * shape_img)) :
  Forall (fun e => 0 < sh_h (snd e) /\ 0 < sh_w (snd e) /\ sh_c (snd e) = 3) files ->
  @Cv2Laws (shape_cv2 files).
Proof.
  intros Hfiles; split; simpl.
  - intros p img. destruct (find _ files) as [[q i]|] eqn:E; [| discriminate].
    intros [= <-]. apply find_some in E as [Hin _].
    rewrite Forall_forall in Hfiles. apply (Hfiles _ Hin).
  - intros img w h Hw Hh. exists (mk_shape h w (sh_c img)).
    apply Z.ltb_lt in Hw, Hh. rewrite Hw, Hh. auto.
  - intros img Hc. rewrite Hc. eexists; split; [reflexivity | split; reflexivity].
Qed.

(** An engine that answers every image with the same value. *)
Definition fixed_ocr (image : Type) (answer : res pyval) : EasyOcr image := {|
  reader := unit;
  reader_new _ _ _ := Ok tt;
  readtext _ _ _ _ := answer
|}.

(** Windows code page 1252 with the [strict] handler, the console
    encoding the program's comment mentions: ASCII, U+00A0..U+00FF and the
    27 characters of bytes 0x80..0x9F. *)
Definition cp1252 : codec :=
  mk_codec "cp1252" (fun c =>
    ((0 <=? c) && (c <? 128)) || ((160 <=? c) && (c <=? 255)) ||
    existsb (Z.eqb c) [8364; 8218; 402; 8222; 8230; 8224; 8225; 710; 8240; 352; 8249; 338; 381;
                       8216; 8217; 8220; 8221; 8226; 8211; 8212; 732; 8482; 353; 8250; 339; 382; 376]).
