(* ===== verification/Preprocess.v ===== *)
(** * Image preprocessing (lines 8-39 of [ocr_service.py])

    [upscale_dims] is the arithmetic of [upscale_if_needed] (lines
    14-17): [scale_factor = min_width / w] as a binary64 quotient,
    [new_w = int(w * scale_factor)], [new_h = int(h * scale_factor)].
    [upscale_if_needed] and [minimal_preprocess] are the two functions
    against the OpenCV interface of [Extern], in the [IO] monad so that
    the calls they make are recorded.

    The upscale rule is checked on every width below 1200 by evaluation:
    the quotient and the product are rounded, and for nine widths the
    product falls just below 1200 and truncates to 1199, so the resized
    image is narrower than the [min_width] the docstring promises. *)

From Stdlib Require Import String ZArith List Lia Bool.
From S2P Require Import Prelude PyNum PyVal Format Extern.
Import ListNotations.

Open Scope Z_scope.
Open Scope io_scope.

(** [int(d * scale_factor)] for an integer dimension [d]. *)
Definition scaled_dim (d : Z) (scale_factor : float) : res Z :=
  let* f := int_mul_float d scale_factor in
  int_of_float f.

(** Lines 15-17: the size [(new_w, new_h)] an image of height [h] and
    width [w] is resized to. *)
Definition upscale_dims (h w min_width : Z) : res (Z * Z) :=
  let* scale_factor := int_truediv min_width w in
  let* new_w := scaled_dim w scale_factor in
  let* new_h := scaled_dim h scale_factor in
  Ok (new_w, new_h).

Section Preprocess.
Context `{C : Cv2}.

(** Lines 8-19. *)
Definition upscale_if_needed (img_bgr : mat) (min_width : Z) : IO mat :=
  let '(h, w) := shape_hw img_bgr in
  if w <? min_width then
    dims <- io_lift (upscale_dims h w min_width) ;;
    call_resize img_bgr (fst dims) (snd dims)
  else io_ret img_bgr.

(** Lines 21-39. *)
Definition minimal_preprocess (image_path : string) : IO mat :=
  read <- call_imread image_path ;;
  match read with
  | None => io_raise (ValueError ("Could not load image from: " ++ image_path))
  | Some img_bgr =>
      img <- upscale_if_needed img_bgr 1200 ;;
      call_cvt_gray img
  end.

End Preprocess.

(** The widths below 1200 whose upscaled width truncates to 1199. *)
Definition short_widths : list Z := [281; 291; 562; 582; 1109; 1124; 1164; 1171; 1187].

(** The width [upscale_if_needed] produces from a width [w] below 1200. *)
Definition expected_width (w : Z) : Z :=
  if existsb (Z.eqb w) short_widths then 1199 else 1200.

(** The check of one width, by evaluation of the binary64 arithmetic. *)
Definition width_ok (w : Z) : bool :=
  match int_truediv 1200 w with
  | Ok s => match scaled_dim w s with
            | Ok nw => nw =? expected_width w
            | Raise _ => false
            end
  | Raise _ => false
  end.

Lemma width_ok_all : forallb width_ok (Zrange 1 1199) = true.
Proof. vm_compute. reflexivity. Qed.

Lemma width_ok_spec (w : Z) :
  width_ok w = true ->
  exists s, int_truediv 1200 w = Ok s /\ scaled_dim w s = Ok (expected_width w).
Proof.
  unfold width_ok. destruct (int_truediv 1200 w) as [s|e] eqn:Hs; [| discriminate].
  destruct (scaled_dim w s) as [nw|e] eqn:Hn; [| discriminate].
  intros H. apply Z.eqb_eq in H. exists s. rewrite Hn, H. split; reflexivity.
Qed.

(** ** Properties *)

(** (C9) Bounds of the upscale rule: for every width [1 <= w < 1200],
    [1200 / w] and [int(w * scale_factor)] evaluate without error, and the
    new width is 1200, except for the nine widths of [short_widths]
    (281, 291, 562, 582, 1109, 1124, 1164, 1171, 1187) where rounding
    puts the product just below 1200 and [int] truncates it to 1199. *)
Theorem upscale_width_table (w : Z) :
  1 <= w < 1200 ->
  exists scale_factor, int_truediv 1200 w = Ok scale_factor /\
    scaled_dim w scale_factor = Ok (expected_width w).
Proof.
  intros Hw. apply width_ok_spec.
  exact (forallb_Zrange width_ok 1 1199 width_ok_all w ltac:(simpl; lia)).
Qed.

Lemma upscale_width_table_witness :
  1 <= 281 < 1200 /\
  exists scale_factor, int_truediv 1200 281 = Ok scale_factor /\
    scaled_dim 281 scale_factor = Ok 1199.
Proof.
  split; [lia |]. exact (upscale_width_table 281 ltac:(lia)).
Defined.

(** ** The two functions against the OpenCV interface *)

Section Laws.
Context `{C : Cv2} `{CL : @Cv2Laws C}.

Lemma upscale_wide (img : mat) (h w min_width : Z) (st : world) :
  shape_hw img = (h, w) -> min_width <= w ->
  upscale_if_needed img min_width st = (Ok img, st).
Proof.
  intros Hs Hw. unfold upscale_if_needed. rewrite Hs.
  replace (w <? min_width) with false by (symmetry; apply Z.ltb_ge; lia). reflexivity.
Qed.

Lemma upscale_narrow (img : mat) (h w min_width nw nh : Z) (st : world) :
  shape_hw img = (h, w) -> w < min_width -> upscale_dims h w min_width = Ok (nw, nh) ->
  0 < nw -> 0 < nh ->
  exists img', upscale_if_needed img min_width st = (Ok img', add_call (CResize nw nh) st) /\
    shape_hw img' = (nh, nw) /\ channels img' = channels img.
Proof.
  intros Hs Hw Hd Hnw Hnh. unfold upscale_if_needed. rewrite Hs.
  replace (w <? min_width) with true by (symmetry; apply Z.ltb_lt; exact Hw).
  destruct (resize_shape img nw nh Hnw Hnh) as (img' & Hr & Hsh & Hc).
  exists img'. unfold io_bind, io_lift, call_resize. rewrite Hd. simpl. rewrite Hr. auto.
Qed.

Lemma preprocess_gray (p : string) (img img' : mat) (st st' : world) :
  imread_color p = Some img -> channels img' = 3 ->
  upscale_if_needed img 1200 (add_call (CImread p) st) = (Ok img', st') ->
  exists g, minimal_preprocess p st = (Ok g, add_call CCvtColor st') /\
    shape_hw g = shape_hw img' /\ channels g = 1.
Proof.
  intros Hr Hc Hu. destruct (gray_shape img' Hc) as (g & Hg & Hsh & Hch).
  exists g. unfold minimal_preprocess, io_bind, call_imread. rewrite Hr. cbv beta iota.
  rewrite Hu. unfold call_cvt_gray. rewrite Hg. auto.
Qed.

(** (C10) An image at least 1200 pixels wide is not resized: preprocessing
    reads it and converts it to grey, with the same height and width and
    one channel, and makes no [resize] call. *)
Theorem preprocess_wide (p : string) (img : mat) (h w : Z) (st : world) :
  imread_color p = Some img -> shape_hw img = (h, w) -> 1200 <= w ->
  exists g, minimal_preprocess p st = (Ok g, add_call CCvtColor (add_call (CImread p) st)) /\
    shape_hw g = (h, w) /\ channels g = 1.
Proof.
  intros Hr Hs Hw. destruct (imread_color_shape p img Hr) as (_ & _ & Hc).
  rewrite <- Hs. apply (preprocess_gray p img img); [exact Hr | exact Hc |].
  apply (upscale_wide img h w); assumption.
Qed.

(** (C11) An image narrower than 1200 pixels is resized once, to the width
    of the table [expected_width] (1200, or 1199 for the nine short widths)
    and to the height [int(h * scale_factor)], then converted to grey. *)
Theorem preprocess_narrow (p : string) (img : mat) (h w nw nh : Z) (st : world) :
  imread_color p = Some img -> shape_hw img = (h, w) -> w < 1200 ->
  upscale_dims h w 1200 = Ok (nw, nh) -> 0 < nh ->
  nw = expected_width w /\
  exists g, minimal_preprocess p st =
      (Ok g, add_call CCvtColor (add_call (CResize nw nh) (add_call (CImread p) st))) /\
    shape_hw g = (nh, nw) /\ channels g = 1.
Proof.
  intros Hr Hs Hw Hd Hnh. destruct (imread_color_shape p img Hr) as (_ & Hw0 & Hc).
  rewrite Hs in Hw0; simpl in Hw0.
  destruct (width_ok_spec w (forallb_Zrange width_ok 1 1199 width_ok_all w ltac:(simpl; lia)))
    as (s & Hs1 & Hs2).
  assert (Hnw : nw = expected_width w).
  { unfold upscale_dims in Hd. rewrite Hs1 in Hd; cbn [res_bind] in Hd.
    rewrite Hs2 in Hd; cbn [res_bind] in Hd.
    destruct (scaled_dim h s); [injection Hd as -> _; reflexivity | discriminate]. }
  split; [exact Hnw |].
  assert (Hpos : 0 < nw) by (rewrite Hnw; unfold expected_width; destruct existsb; lia).
  destruct (upscale_narrow img h w 1200 nw nh (add_call (CImread p) st) Hs Hw Hd Hpos Hnh)
    as (img' & Hu & Hsh & Hc').
  rewrite <- Hsh. apply (preprocess_gray p img img'); [exact Hr | congruence | exact Hu].
Qed.

End Laws.

(** (C12) Error path: when [cv2.imread] returns [None], preprocessing
    raises [ValueError("Could not load image from: <path>")] right after
    the read, with no other OpenCV call. *)
Theorem preprocess_imread_fails `{C : Cv2} (p : string) (st : world) :
  imread_color p = None ->
  minimal_preprocess p st =
    (Raise (ValueError ("Could not load image from: " ++ p)), add_call (CImread p) st).
Proof.
  intros Hr. unfold minimal_preprocess, io_bind, call_imread. rewrite Hr. reflexivity.
Qed.

(** ** Witnesses *)

Definition ex_files : list (string * shape_img) :=
  [("wide.png"%string, mk_shape 900 1600 3); ("narrow.png"%string, mk_shape 100 281 3)].

Lemma ex_files_ok :
  Forall (fun e => 0 < sh_h (snd e) /\ 0 < sh_w (snd e) /\ sh_c (snd e) = 3) ex_files.
Proof. repeat constructor. Qed.

Definition ex_cv2 : Cv2 := shape_cv2 ex_files.

Definition ex_world (argv : list string) : world := mk_world argv true cp1252 [] [] [].

Lemma preprocess_wide_witness :
  @imread_color ex_cv2 "wide.png" = Some (mk_shape 900 1600 3) /\
  exists g, @minimal_preprocess ex_cv2 "wide.png" (ex_world []) =
    (Ok g, add_call CCvtColor (add_call (CImread "wide.png") (ex_world []))) /\
    @shape_hw ex_cv2 g = (900, 1600) /\ @channels ex_cv2 g = 1.
Proof.
  split; [reflexivity |].
  exact (@preprocess_wide ex_cv2 (shape_cv2_laws ex_files ex_files_ok) "wide.png"
           (mk_shape 900 1600 3) 900 1600 (ex_world []) eq_refl eq_refl ltac:(lia)).
Defined.

Lemma preprocess_narrow_witness :
  @imread_color ex_cv2 "narrow.png" = Some (mk_shape 100 281 3) /\
  upscale_dims 100 281 1200 = Ok (1199, 427) /\
  1199 = expected_width 281 /\
  exists g, @minimal_preprocess ex_cv2 "narrow.png" (ex_world []) =
    (Ok g, add_call CCvtColor (add_call (CResize 1199 427)
             (add_call (CImread "narrow.png") (ex_world [])))) /\
    @shape_hw ex_cv2 g = (427, 1199) /\ @channels ex_cv2 g = 1.
Proof.
  assert (Hd : upscale_dims 100 281 1200 = Ok (1199, 427)) by (vm_compute; reflexivity).
  split; [reflexivity | split; [exact Hd |]].
  exact (@preprocess_narrow ex_cv2 (shape_cv2_laws ex_files ex_files_ok) "narrow.png"
           (mk_shape 100 281 3) 100 281 1199 427 (ex_world []) eq_refl eq_refl ltac:(lia)
           Hd ltac:(lia)).
Defined.

Lemma preprocess_imread_fails_witness :
  @imread_color ex_cv2 "missing.png" = None /\
  @minimal_preprocess ex_cv2 "missing.png" (ex_world []) =
    (Raise (ValueError "Could not load image from: missing.png"),
     add_call (CImread "missing.png") (ex_world [])).
Proof.
  split; [reflexivity |].
  exact (@preprocess_imread_fails ex_cv2 "missing.png" (ex_world []) eq_refl).
Defined.
