(* ===== verification/Service.v ===== *)
(** * The recognition call and the entry point (lines 41-99)

    [run_easyocr] builds the reader ([['en']], [gpu=True],
    [verbose=False]) and calls [readtext] with [detail=1] and
    [paragraph=True].  [main] reconfigures stdout to UTF-8 inside
    [try/except Exception: pass], checks [len(sys.argv) < 2] (usage line on
    stderr, [sys.exit(1)]), then [build_output] preprocesses [sys.argv[1]],
    recognises and formats, and [process] prints the JSON line with
    stdout's codec.  [run_main] is what the process shows when [main()]
    returns or raises, from a stdout whose codec is the platform default
    [dflt]: its exit status ([SystemExit]'s code, 1 and a traceback for
    any other exception, 0 otherwise), stdout, stderr, the trace of
    library calls and stdout's encoding.

    The theorems give the exit status and output of each path, that
    stdout holds either nothing or exactly one printable JSON line (all or
    nothing), that arguments after the first are ignored, and what the
    fallback of a failing [reconfigure] does: the same run when the
    default codec encodes the line, [UnicodeEncodeError] at the [print]
    otherwise; with CPython's [repr] of [Repr], the exact lines printed
    for no detection ([[]]) and for the scenarios of the spec. *)

From Stdlib Require Import String ZArith List Lia Bool.
From S2P Require Import Prelude PyNum PyVal Format Json Repr Extern Preprocess.
Import ListNotations.

Open Scope Z_scope.
Open Scope io_scope.

Definition usage_line : string := "Usage: ocr_service.py <IMAGE_PATH>".

Section Service.
Context `{C : Cv2} `{E : EasyOcr mat} `{FR : FloatRepr}.

(** Lines 41-49. *)
Definition run_easyocr (numpy_image : mat) : IO pyval :=
  reader <- call_reader_new ["en"%string] true false ;;
  call_readtext reader numpy_image 1 true.

(** Lines 64-93, after the argument check: preprocessing, recognition and
    the loop over the results. *)
Definition build_output (image_path : string) : IO (list out_rec) :=
  processed <- minimal_preprocess image_path ;;
  ocr_results <- run_easyocr processed ;;
  io_lift (let* items := py_iter ocr_results in format_results items).

(** Lines 64-96: the records, then the [print] of line 96. *)
Definition process (image_path : string) : IO unit :=
  output_data <- build_output image_path ;;
  print_stdout (json_dumps output_data).

(** Lines 51-96. *)
Definition main : IO unit :=
  try_except (stdout_reconfigure utf8) (fun _ => io_ret tt) ;;;
  argv <- get_argv ;;
  if Nat.ltb (length argv) 2 then
    print_stderr usage_line ;;; sys_exit 1
  else process (nth 1 argv ""%string).

(** What the process shows when it ends. *)
Record outcome : Type := mk_outcome {
  exit_status : Z;
  out_lines : list (list Z);
  err_lines : list err_line;
  calls : list call;
  out_encoding : string
}.

Definition exit_status_of (r : res unit) : Z :=
  match r with
  | Ok _ => 0
  | Raise (SystemExit code) => code
  | Raise _ => 1
  end.

(** The traceback CPython prints for an uncaught exception. *)
Definition traceback_of (r : res unit) : list err_line :=
  match r with
  | Raise e => if is_Exception e then [ETraceback e] else []
  | Ok _ => []
  end.

(** Lines 98-99: [main()] run in a fresh process whose stdout starts with
    the codec [dflt]. *)
Definition run_main (argv : list string) (reconfigure_ok : bool) (dflt : codec) : outcome :=
  let '(r, w) := main (mk_world argv reconfigure_ok dflt [] [] []) in
  mk_outcome (exit_status_of r) (w_stdout w) (w_stderr w ++ traceback_of r) (w_trace w)
    (codec_name (w_codec w)).

End Service.

(** ** Running [main] *)

(** The codec of stdout after lines 53-56. *)
Definition codec_after (b : bool) (dflt : codec) : codec := if b then utf8 else dflt.

(** The world after lines 53-56 with the arguments and the flag cleared. *)
Definition start_world (cd : codec) : world := add_call CReconfigure (mk_world [] false cd [] [] []).

Definition with_encoding (enc : string) (o : outcome) : outcome :=
  mk_outcome (exit_status o) (out_lines o) (err_lines o) (calls o) enc.

Section Run.
Context `{C : Cv2} `{E : EasyOcr mat} `{FR : FloatRepr}.

(** The world after lines 53-56, whether [reconfigure] succeeds or not. *)
Definition after_reconfigure (w : world) : world :=
  add_call CReconfigure (if w_reconfigure_ok w then set_codec utf8 w else w).

Lemma main_unfold (w : world) :
  main w =
    if Nat.ltb (length (w_argv w)) 2
    then (Raise (SystemExit 1), add_stderr (ELine usage_line) (after_reconfigure w))
    else process (nth 1 (w_argv w) ""%string) (after_reconfigure w).
Proof.
  unfold main, after_reconfigure, io_bind, try_except, stdout_reconfigure, get_argv.
  destruct (w_reconfigure_ok w); cbn -[process];
    destruct (length (w_argv w)) as [|[|]]; reflexivity.
Qed.

Lemma preprocess_wide_run (p : string) (img g : mat) (h w : Z) (st : world) :
  imread_color p = Some img -> shape_hw img = (h, w) -> 1200 <= w -> cvt_bgr2gray img = Ok g ->
  minimal_preprocess p st = (Ok g, add_call CCvtColor (add_call (CImread p) st)).
Proof.
  intros Hr Hs Hw Hg. unfold minimal_preprocess, io_bind, call_imread. rewrite Hr. cbv beta iota.
  rewrite (upscale_wide img h w 1200 _ Hs Hw). unfold call_cvt_gray. rewrite Hg. reflexivity.
Qed.

(** The records of a wide image, with the calls that produce them. *)
Lemma build_output_wide (p : string) (img g : mat) (h w : Z) (rd : reader) (v : pyval)
    (st : world) :
  imread_color p = Some img -> shape_hw img = (h, w) -> 1200 <= w ->
  cvt_bgr2gray img = Ok g -> reader_new ["en"%string] true false = Ok rd ->
  readtext rd g 1 true = Ok v ->
  build_output p st =
    (let* items := py_iter v in format_results items,
     add_call (CReadtext 1 true) (add_call (CReaderNew ["en"%string] true false)
       (add_call CCvtColor (add_call (CImread p) st)))).
Proof.
  intros Hr Hs Hw Hg Hn Ht. unfold build_output.
  rewrite (io_bind_Ok _ _ _ _ _ (preprocess_wide_run p img g h w _ Hr Hs Hw Hg)).
  unfold run_easyocr, io_bind, call_reader_new, call_readtext, io_lift.
  rewrite Hn, Ht. reflexivity.
Qed.

(** Preprocessing, recognition and formatting never write to stdout. *)
Lemma keeps_stdout_build_output (p : string) : keeps_stdout (build_output p).
Proof. unfold build_output, minimal_preprocess, upscale_if_needed, run_easyocr. quiet_tac. Qed.

Lemma build_output_commutes (p : string) (f : world -> world) :
  (forall c w, f (add_call c w) = add_call c (f w)) ->
  (forall s w, f (add_stdout s w) = add_stdout s (f w)) ->
  (forall l w, f (add_stderr l w) = add_stderr l (f w)) ->
  commutes f (build_output p).
Proof.
  intros Hc Ho He. unfold build_output, minimal_preprocess, upscale_if_needed, run_easyocr.
  frame_tac.
Qed.

Lemma process_commutes (p : string) (argv : list string) (b : bool) :
  commutes (set_env argv b) (process p).
Proof.
  unfold process. apply commutes_bind; [apply build_output_commutes; auto with frame |].
  intros os. apply commutes_print_stdout; auto with frame.
Qed.

(** [process] as the records and the [print] of line 96. *)
Lemma process_split (p : string) (w : world) :
  process p w =
    match build_output p w with
    | (Ok os, w1) => print_stdout (json_dumps os) w1
    | (Raise e, w1) => (Raise e, w1)
    end.
Proof. reflexivity. Qed.

(** The records do not depend on stdout's codec. *)
Lemma build_output_codec (p : string) (cd : codec) :
  build_output p (start_world cd) =
    (fst (build_output p (start_world utf8)), set_codec cd (snd (build_output p (start_world utf8)))).
Proof.
  exact (build_output_commutes p (set_codec cd) (fun _ _ => eq_refl) (fun _ _ => eq_refl)
           (fun _ _ => eq_refl) (start_world utf8)).
Qed.

(** After its argument check, [main] either raises with stdout untouched
    or returns having printed exactly one JSON line. *)
Lemma process_stdout (p : string) (w w' : world) (r : res unit) :
  process p w = (r, w') ->
  (w_stdout w' = w_stdout w /\ exists e, r = Raise e) \/
  (r = Ok tt /\ exists os, w_stdout w' = w_stdout w ++ [json_dumps os]).
Proof.
  rewrite process_split. pose proof (keeps_stdout_build_output p w) as K.
  destruct (build_output p w) as [[os|e] w1]; simpl in K; intros H.
  - unfold print_stdout in H. destruct (first_unencodable _ _); injection H as <- <-.
    + left. eauto.
    + right. split; [reflexivity |]. exists os. simpl. congruence.
  - injection H as <- <-. left. eauto.
Qed.

Lemma after_reconfigure_env (argv : list string) (b : bool) (dflt : codec) :
  after_reconfigure (mk_world argv b dflt [] [] []) = set_env argv b (start_world (codec_after b dflt)).
Proof. destruct b; reflexivity. Qed.

(** The run of [main] once the arguments are checked, from a world whose
    environment is [set_env]. *)
Lemma run_process (argv : list string) (b : bool) (dflt : codec) (p : string) :
  (2 <= length argv)%nat -> nth 1 argv ""%string = p ->
  run_main argv b dflt =
    let '(r, w) := process p (start_world (codec_after b dflt)) in
    mk_outcome (exit_status_of r) (w_stdout w) (w_stderr w ++ traceback_of r) (w_trace w)
      (codec_name (w_codec w)).
Proof.
  intros Hlen Hp. unfold run_main. rewrite main_unfold. cbn [w_argv].
  replace (Nat.ltb (length argv) 2) with false by (symmetry; apply Nat.ltb_ge; exact Hlen).
  rewrite Hp, after_reconfigure_env, process_commutes.
  destruct (process p _) as [r w]. reflexivity.
Qed.

Lemma first_unencodable_None (cd : codec) (s : list Z) :
  first_unencodable cd s = None <-> forallb (encodable cd) s = true.
Proof.
  unfold first_unencodable. induction s as [|c s IH]; simpl; [split; reflexivity |].
  destruct (encodable cd c); simpl; [exact IH | split; discriminate].
Qed.

(** A codec that encodes less fails on any text the larger one fails on. *)
Lemma first_unencodable_sub (d1 d2 : codec) (s : list Z) :
  (forall c, encodable d1 c = true -> encodable d2 c = true) ->
  first_unencodable d1 s = None -> first_unencodable d2 s = None.
Proof.
  rewrite !first_unencodable_None, !forallb_forall. intros Hsub H c Hc. auto.
Qed.

Lemma build_output_keeps_codec (p : string) (w : world) :
  w_codec (snd (build_output p w)) = w_codec w.
Proof.
  destruct w as [a b cd o e t].
  pose proof (build_output_commutes p (set_codec cd) (fun _ _ => eq_refl) (fun _ _ => eq_refl)
                (fun _ _ => eq_refl) (mk_world a b cd o e t)) as H.
  change (set_codec cd (mk_world a b cd o e t)) with (mk_world a b cd o e t) in H.
  rewrite H. reflexivity.
Qed.

(** Without the image path nothing reaches stdout, the status is 1 and
    [reconfigure] is the only call. *)
Lemma run_short_argv (argv : list string) (b : bool) (dflt : codec) :
  (length argv < 2)%nat ->
  out_lines (run_main argv b dflt) = [] /\ exit_status (run_main argv b dflt) = 1 /\
  calls (run_main argv b dflt) = [CReconfigure].
Proof.
  intros H. unfold run_main. rewrite main_unfold. cbn [w_argv].
  apply Nat.ltb_lt in H. rewrite H. destruct b; repeat split.
Qed.

(** (C13) Missing argument: with fewer than two entries in [sys.argv],
    [main] writes the usage line to stderr, exits with status 1, prints
    nothing on stdout and calls no library besides [reconfigure]. *)
Theorem main_usage (argv : list string) (b : bool) (dflt : codec) :
  (length argv < 2)%nat ->
  run_main argv b dflt =
    mk_outcome 1 [] [ELine usage_line] [CReconfigure] (codec_name (codec_after b dflt)).
Proof.
  intros H. unfold run_main. rewrite main_unfold. cbn [w_argv].
  apply Nat.ltb_lt in H. rewrite H. destruct b; reflexivity.
Qed.

(** (C14) Extra arguments are ignored: a run with [sys.argv[2:]] non-empty
    is the run without them, although the spec asks for exactly one
    argument. *)
Theorem main_extra_args_ignored (a p : string) (extra : list string) (b : bool) (dflt : codec) :
  run_main (a :: p :: extra) b dflt = run_main [a; p] b dflt.
Proof.
  rewrite (run_process (a :: p :: extra) b dflt p), (run_process [a; p] b dflt p); simpl; auto; lia.
Qed.

(** (C15) The fallback of lines 53-56: when [reconfigure] fails, stdout
    keeps its default codec.  If the run with UTF-8 prints the line
    [line], the run with the default codec is the same run when the codec
    encodes [line]; otherwise its [print] raises [UnicodeEncodeError] at
    the first code point it cannot encode: exit status 1, nothing on
    stdout, the traceback on stderr, the same library calls. *)
Theorem main_reconfigure_fallback (argv : list string) (dflt : codec) (line : list Z) :
  out_lines (run_main argv true dflt) = [line] ->
  run_main argv false dflt =
    match first_unencodable dflt line with
    | None => with_encoding (codec_name dflt) (run_main argv true dflt)
    | Some c =>
        mk_outcome 1 [] (err_lines (run_main argv true dflt) ++
                         [ETraceback (UnicodeEncodeError (codec_name dflt) c)])
          (calls (run_main argv true dflt)) (codec_name dflt)
    end.
Proof.
  intros H. destruct (Nat.lt_ge_cases (length argv) 2) as [Hl | Hl].
  - rewrite (proj1 (run_short_argv argv true dflt Hl)) in H. discriminate.
  - rewrite !(run_process argv _ dflt _ Hl eq_refl) in *. cbn [codec_after] in *.
    rewrite !process_split in *. rewrite (build_output_codec _ dflt).
    pose proof (keeps_stdout_build_output (nth 1 argv ""%string) (start_world utf8)) as K.
    cbn in K.
    pose proof (build_output_keeps_codec (nth 1 argv ""%string) (start_world utf8)) as Kc.
    cbn in Kc.
    destruct (build_output _ (start_world utf8)) as [[os|e] w1]; cbn [fst snd] in *;
      [| simpl in H; congruence].
    unfold print_stdout in *. cbn [w_codec set_codec] in *. rewrite Kc in H |- *.
    destruct (first_unencodable utf8 (json_dumps os)); [simpl in H; congruence |].
    simpl in H. rewrite K in H. injection H as <-.
    destruct (first_unencodable dflt (json_dumps os)); simpl; rewrite ?K, ?app_nil_r; reflexivity.
Qed.

(** (C16) When the run with UTF-8 prints nothing, neither does the run
    with a default codec that encodes no more than UTF-8 (every codec with
    the [strict] handler): same exit status and library calls. *)
Theorem main_reconfigure_no_output (argv : list string) (dflt : codec) :
  (forall c, encodable dflt c = true -> encodable utf8 c = true) ->
  out_lines (run_main argv true dflt) = [] ->
  out_lines (run_main argv false dflt) = [] /\
  exit_status (run_main argv false dflt) = exit_status (run_main argv true dflt) /\
  calls (run_main argv false dflt) = calls (run_main argv true dflt).
Proof.
  intros Hsub H. destruct (Nat.lt_ge_cases (length argv) 2) as [Hl | Hl].
  - destruct (run_short_argv argv true dflt Hl) as (_ & E1 & C1).
    destruct (run_short_argv argv false dflt Hl) as (O2 & E2 & C2).
    rewrite O2, E1, E2, C1, C2. repeat split.
  - rewrite !(run_process argv _ dflt _ Hl eq_refl) in *. cbn [codec_after] in *.
    rewrite !process_split in *. rewrite (build_output_codec _ dflt).
    pose proof (keeps_stdout_build_output (nth 1 argv ""%string) (start_world utf8)) as K.
    cbn in K.
    pose proof (build_output_keeps_codec (nth 1 argv ""%string) (start_world utf8)) as Kc.
    cbn in Kc.
    destruct (build_output _ (start_world utf8)) as [[os|e] w1]; cbn [fst snd] in *;
      [| simpl in *; repeat split; assumption].
    unfold print_stdout in *. cbn [w_codec set_codec] in *. rewrite Kc in H |- *.
    destruct (first_unencodable utf8 (json_dumps os)) eqn:Hu;
      [| simpl in H; rewrite K in H; discriminate].
    destruct (first_unencodable dflt (json_dumps os)) eqn:Hd.
    + simpl in *. repeat split; assumption.
    + apply (first_unencodable_sub _ _ _ Hsub) in Hd. congruence.
Qed.

(** (C17) All or nothing: stdout is empty, or it holds exactly one line,
    the JSON of the records, with no control character in it, and the
    exit status is 0. *)
Theorem main_all_or_nothing (argv : list string) (b : bool) (dflt : codec) :
  out_lines (run_main argv b dflt) = [] \/
  (exit_status (run_main argv b dflt) = 0 /\
   exists os, out_lines (run_main argv b dflt) = [json_dumps os] /\
              Forall (fun c => 32 <= c) (json_dumps os)).
Proof.
  destruct (Nat.lt_ge_cases (length argv) 2) as [H | H].
  - left. exact (proj1 (run_short_argv argv b dflt H)).
  - rewrite (run_process argv b dflt (nth 1 argv ""%string) H eq_refl).
    destruct (process _ _) as [r w] eqn:Hp. apply process_stdout in Hp.
    destruct Hp as [[-> _] | [-> [os ->]]]; [left; reflexivity | right].
    split; [reflexivity | exists os; split; [reflexivity | apply encode_printable]].
Qed.

(** (C18) Unreadable image: when [cv2.imread] returns [None], the process
    exits with status 1 and the [ValueError] traceback, prints nothing on
    stdout, and never builds the OCR reader. *)
Theorem main_imread_fails (a p : string) (b : bool) (dflt : codec) :
  imread_color p = None ->
  run_main [a; p] b dflt =
    mk_outcome 1 [] [ETraceback (ValueError ("Could not load image from: " ++ p))]
      [CReconfigure; CImread p] (codec_name (codec_after b dflt)).
Proof.
  intros Hr. rewrite (run_process [a; p] b dflt p) by (simpl; auto).
  rewrite process_split. unfold build_output, minimal_preprocess, io_bind, call_imread.
  rewrite Hr. reflexivity.
Qed.

(** (C19) Success on an image at least 1200 pixels wide: the calls are
    [reconfigure], [imread], [cvtColor], [Reader(['en'], gpu=True,
    verbose=False)] and [readtext(detail=1, paragraph=True)] in this
    order; when stdout's codec encodes the JSON of the formatted records,
    stdout is that one line, stderr is empty and the exit status is 0. *)
Theorem main_success_wide (a p : string) (b : bool) (dflt : codec) (img g : mat) (h w : Z)
    (rd : reader) (v : pyval) (items : list pyval) (os : list out_rec) :
  imread_color p = Some img -> shape_hw img = (h, w) -> 1200 <= w ->
  cvt_bgr2gray img = Ok g -> reader_new ["en"%string] true false = Ok rd ->
  readtext rd g 1 true = Ok v -> py_iter v = Ok items -> format_results items = Ok os ->
  first_unencodable (codec_after b dflt) (json_dumps os) = None ->
  run_main [a; p] b dflt =
    mk_outcome 0 [json_dumps os] []
      [CReconfigure; CImread p; CCvtColor; CReaderNew ["en"%string] true false; CReadtext 1 true]
      (codec_name (codec_after b dflt)).
Proof.
  intros Hr Hs Hw Hg Hn Ht Hi Hf Henc. rewrite (run_process [a; p] b dflt p) by (simpl; auto).
  rewrite process_split, (build_output_wide p img g h w rd v _ Hr Hs Hw Hg Hn Ht), Hi.
  cbn [res_bind]. rewrite Hf. unfold print_stdout. cbn [w_codec add_call start_world].
  rewrite Henc. reflexivity.
Qed.

(** (C20) A failing engine: when [readtext] raises an exception, it
    propagates out of [main]: exit status 1, its traceback on stderr,
    nothing on stdout, [readtext] the last call made. *)
Theorem main_engine_error (a p : string) (b : bool) (dflt : codec) (img g : mat) (h w : Z)
    (rd : reader) (e : exn) :
  imread_color p = Some img -> shape_hw img = (h, w) -> 1200 <= w ->
  cvt_bgr2gray img = Ok g -> reader_new ["en"%string] true false = Ok rd ->
  readtext rd g 1 true = Raise e -> is_Exception e = true ->
  run_main [a; p] b dflt =
    mk_outcome 1 [] [ETraceback e]
      [CReconfigure; CImread p; CCvtColor; CReaderNew ["en"%string] true false; CReadtext 1 true]
      (codec_name (codec_after b dflt)).
Proof.
  intros Hr Hs Hw Hg Hn Ht He. rewrite (run_process [a; p] b dflt p) by (simpl; auto).
  rewrite process_split. unfold build_output.
  rewrite (io_bind_Ok _ _ _ _ _ (preprocess_wide_run p img g h w _ Hr Hs Hw Hg)).
  unfold run_easyocr, io_bind, call_reader_new, call_readtext.
  rewrite Hn, Ht. simpl. rewrite He. destruct e; try discriminate; reflexivity.
Qed.

(** (C22) No text found: when the records are none (the engine returned
    no detection, or the guards dropped every one), the process prints
    exactly [[]] on stdout (spec: "Given zero detections, output is
    exactly [[]]") and exits with status 0, for any codec that encodes
    the two brackets. *)
Theorem main_no_detections (a p : string) (b : bool) (dflt : codec) (img g : mat) (h w : Z)
    (rd : reader) (v : pyval) (items : list pyval) :
  imread_color p = Some img -> shape_hw img = (h, w) -> 1200 <= w ->
  cvt_bgr2gray img = Ok g -> reader_new ["en"%string] true false = Ok rd ->
  readtext rd g 1 true = Ok v -> py_iter v = Ok items -> format_results items = Ok [] ->
  encodable (codec_after b dflt) 91 = true -> encodable (codec_after b dflt) 93 = true ->
  run_main [a; p] b dflt =
    mk_outcome 0 [str_lit "[]"] []
      [CReconfigure; CImread p; CCvtColor; CReaderNew ["en"%string] true false; CReadtext 1 true]
      (codec_name (codec_after b dflt)).
Proof.
  intros Hr Hs Hw Hg Hn Ht Hi Hf H91 H93. rewrite (run_process [a; p] b dflt p) by (simpl; auto).
  rewrite process_split, (build_output_wide p img g h w rd v _ Hr Hs Hw Hg Hn Ht), Hi.
  cbn [res_bind]. rewrite Hf. unfold print_stdout. cbn [w_codec add_call start_world].
  change (json_dumps []) with [91; 93]. unfold first_unencodable. cbn [find].
  rewrite H91, H93. reflexivity.
Qed.

(** (C21) A malformed detection aborts the whole run: when the formatter
    raises (for instance [ValueError] for an empty polygon), the process
    exits with status 1 and prints no JSON at all, not even the records of
    the well-formed detections. *)
Theorem main_format_error (a p : string) (b : bool) (dflt : codec) (img g : mat) (h w : Z)
    (rd : reader) (v : pyval) (items : list pyval) (e : exn) :
  imread_color p = Some img -> shape_hw img = (h, w) -> 1200 <= w ->
  cvt_bgr2gray img = Ok g -> reader_new ["en"%string] true false = Ok rd ->
  readtext rd g 1 true = Ok v -> py_iter v = Ok items -> format_results items = Raise e ->
  is_Exception e = true ->
  run_main [a; p] b dflt =
    mk_outcome 1 [] [ETraceback e]
      [CReconfigure; CImread p; CCvtColor; CReaderNew ["en"%string] true false; CReadtext 1 true]
      (codec_name (codec_after b dflt)).
Proof.
  intros Hr Hs Hw Hg Hn Ht Hi Hf He. rewrite (run_process [a; p] b dflt p) by (simpl; auto).
  rewrite process_split, (build_output_wide p img g h w rd v _ Hr Hs Hw Hg Hn Ht), Hi.
  cbn [res_bind]. rewrite Hf. simpl. rewrite He. destruct e; try discriminate; reflexivity.
Qed.

End Run.

(** ** Witnesses

    The witnesses run [main] with the shape-only OpenCV of [Preprocess]
    ([ex_cv2], where [wide.png] is 1600 pixels wide), engines that answer
    with fixed detections, CPython's [repr] of [Repr], and code page
    1252 as stdout's default codec. *)

Definition ex_argv : list string := ["ocr_service.py"; "wide.png"]%string.

Definition ex_answer : pyval := PList [hi_detection].

Definition ex_ocr : EasyOcr shape_img := fixed_ocr shape_img (Ok ex_answer).

Definition ex_ocr_failing : EasyOcr shape_img :=
  fixed_ocr shape_img (Raise (EngineError "model load failed")).

Definition ex_ocr_malformed : EasyOcr shape_img :=
  fixed_ocr shape_img (Ok (PList [hi_detection; PTuple [PList []; PStr (str_lit "x")]])).

(** A detection whose text ends with U+2192 (rightwards arrow), which code
    page 1252 cannot encode. *)
Definition arrow_text : pyval := PStr [72; 105; 32; 8594].

Definition ex_ocr_arrow : EasyOcr shape_img :=
  fixed_ocr shape_img
    (Ok (PList [PTuple [PList [pt 10 20; pt 50 20; pt 50 40; pt 10 40]; arrow_text;
                        PNum (NFloat c087)]])).

Definition arrow_record : out_rec := mk_out_rec arrow_text c087 [10; 20; 50; 40].

Definition ex_ocr_empty : EasyOcr shape_img := fixed_ocr shape_img (Ok (PList [])).

(** The detection of the greeting scenario without its confidence. *)
Definition ex_ocr_noconf : EasyOcr shape_img :=
  fixed_ocr shape_img
    (Ok (PList [PList [PList [pt 10 20; pt 50 20; pt 50 40; pt 10 40]; PStr (str_lit "Hi")]])).

(** A JSON line written with single quotes in place of double quotes. *)
Definition json_line (s : string) : list Z := map (fun c => if c =? 39 then 34 else c) (str_lit s).

Lemma utf8_low (c : Z) : 0 <= c < 55296 -> encodable utf8 c = true.
Proof.
  intros Hc. cbn [encodable utf8].
  destruct (Z.leb_spec 0 c), (Z.ltb_spec c 1114112), (Z.leb_spec 55296 c); simpl; try lia; reflexivity.
Qed.

Lemma cp1252_in_utf8 (c : Z) : encodable cp1252 c = true -> encodable utf8 c = true.
Proof.
  intros H. apply utf8_low. cbn [encodable cp1252] in H. apply orb_true_iff in H as [H | H].
  - rewrite orb_true_iff, !andb_true_iff, !Z.leb_le, !Z.ltb_lt in H. lia.
  - apply existsb_exists in H as (x & Hx & Ex). apply Z.eqb_eq in Ex. subst x. simpl in Hx. lia.
Qed.

Lemma main_usage_witness :
  (length ["ocr_service.py"%string] < 2)%nat /\
  run_main (C := ex_cv2) (E := ex_ocr) ["ocr_service.py"%string] false cp1252 =
    mk_outcome 1 [] [ELine usage_line] [CReconfigure] "cp1252".
Proof.
  split; [simpl; lia |].
  exact (@main_usage ex_cv2 ex_ocr cpython_repr ["ocr_service.py"%string] false cp1252
           ltac:(simpl; lia)).
Defined.

(** Without [reconfigure], the arrow cannot be printed on a cp1252
    console: the run ends with [UnicodeEncodeError] at U+2192. *)
Lemma main_reconfigure_fallback_witness :
  out_lines (run_main (C := ex_cv2) (E := ex_ocr_arrow) ex_argv true cp1252) =
    [json_dumps [arrow_record]] /\
  run_main (C := ex_cv2) (E := ex_ocr_arrow) ex_argv false cp1252 =
    match first_unencodable cp1252 (json_dumps [arrow_record]) with
    | None => with_encoding (codec_name cp1252)
                (run_main (C := ex_cv2) (E := ex_ocr_arrow) ex_argv true cp1252)
    | Some c =>
        mk_outcome 1 []
          (err_lines (run_main (C := ex_cv2) (E := ex_ocr_arrow) ex_argv true cp1252) ++
           [ETraceback (UnicodeEncodeError (codec_name cp1252) c)])
          (calls (run_main (C := ex_cv2) (E := ex_ocr_arrow) ex_argv true cp1252))
          (codec_name cp1252)
    end.
Proof.
  assert (H : out_lines (run_main (C := ex_cv2) (E := ex_ocr_arrow) ex_argv true cp1252) =
                [json_dumps [arrow_record]]) by (vm_compute; reflexivity).
  split; [exact H | exact (@main_reconfigure_fallback ex_cv2 ex_ocr_arrow cpython_repr _ _ _ H)].
Defined.

Lemma main_reconfigure_no_output_witness :
  (forall c, encodable cp1252 c = true -> encodable utf8 c = true) /\
  out_lines (run_main (C := ex_cv2) (E := ex_ocr) ["ocr_service.py"; "missing.png"]%string
               true cp1252) = [] /\
  out_lines (run_main (C := ex_cv2) (E := ex_ocr) ["ocr_service.py"; "missing.png"]%string
               false cp1252) = [] /\
  exit_status (run_main (C := ex_cv2) (E := ex_ocr) ["ocr_service.py"; "missing.png"]%string
                 false cp1252) =
    exit_status (run_main (C := ex_cv2) (E := ex_ocr) ["ocr_service.py"; "missing.png"]%string
                   true cp1252) /\
  calls (run_main (C := ex_cv2) (E := ex_ocr) ["ocr_service.py"; "missing.png"]%string
           false cp1252) =
    calls (run_main (C := ex_cv2) (E := ex_ocr) ["ocr_service.py"; "missing.png"]%string
             true cp1252).
Proof.
  assert (H : out_lines (run_main (C := ex_cv2) (E := ex_ocr)
                           ["ocr_service.py"; "missing.png"]%string true cp1252) = [])
    by (vm_compute; reflexivity).
  split; [exact cp1252_in_utf8 | split; [exact H |]].
  exact (@main_reconfigure_no_output ex_cv2 ex_ocr cpython_repr _ cp1252 cp1252_in_utf8 H).
Defined.

Lemma main_imread_fails_witness :
  @imread_color ex_cv2 "missing.png" = None /\
  run_main (C := ex_cv2) (E := ex_ocr) ["ocr_service.py"; "missing.png"]%string true cp1252 =
    mk_outcome 1 [] [ETraceback (ValueError "Could not load image from: missing.png")]
      [CReconfigure; CImread "missing.png"] "utf-8".
Proof.
  split; [reflexivity |].
  exact (@main_imread_fails ex_cv2 ex_ocr cpython_repr "ocr_service.py" "missing.png" true cp1252
           eq_refl).
Defined.

Lemma main_success_wide_witness :
  format_results [hi_detection] = Ok [hi_record] /\
  first_unencodable (codec_after false cp1252) (json_dumps [hi_record]) = None /\
  run_main (C := ex_cv2) (E := ex_ocr) ex_argv false cp1252 =
    mk_outcome 0 [json_dumps [hi_record]] []
      [CReconfigure; CImread "wide.png"; CCvtColor; CReaderNew ["en"%string] true false;
       CReadtext 1 true] "cp1252".
Proof.
  assert (Hf : format_results [hi_detection] = Ok [hi_record]) by (vm_compute; reflexivity).
  assert (He : first_unencodable (codec_after false cp1252) (json_dumps [hi_record]) = None)
    by (vm_compute; reflexivity).
  split; [exact Hf | split; [exact He |]].
  exact (@main_success_wide ex_cv2 ex_ocr cpython_repr "ocr_service.py" "wide.png" false cp1252
           (mk_shape 900 1600 3) (mk_shape 900 1600 1) 900 1600 tt ex_answer [hi_detection]
           [hi_record] eq_refl eq_refl ltac:(lia) eq_refl eq_refl eq_refl eq_refl Hf He).
Defined.

Lemma main_engine_error_witness :
  run_main (C := ex_cv2) (E := ex_ocr_failing) ex_argv false cp1252 =
    mk_outcome 1 [] [ETraceback (EngineError "model load failed")]
      [CReconfigure; CImread "wide.png"; CCvtColor; CReaderNew ["en"%string] true false;
       CReadtext 1 true] "cp1252".
Proof.
  exact (@main_engine_error ex_cv2 ex_ocr_failing cpython_repr "ocr_service.py" "wide.png" false
           cp1252 (mk_shape 900 1600 3) (mk_shape 900 1600 1) 900 1600 tt
           (EngineError "model load failed") eq_refl eq_refl ltac:(lia) eq_refl eq_refl eq_refl
           eq_refl).
Defined.

Lemma main_format_error_witness :
  run_main (C := ex_cv2) (E := ex_ocr_malformed) ex_argv false cp1252 =
    mk_outcome 1 [] [ETraceback (ValueError "min() arg is an empty sequence")]
      [CReconfigure; CImread "wide.png"; CCvtColor; CReaderNew ["en"%string] true false;
       CReadtext 1 true] "cp1252".
Proof.
  exact (@main_format_error ex_cv2 ex_ocr_malformed cpython_repr "ocr_service.py" "wide.png" false
           cp1252 (mk_shape 900 1600 3) (mk_shape 900 1600 1) 900 1600 tt
           (PList [hi_detection; PTuple [PList []; PStr (str_lit "x")]])
           [hi_detection; PTuple [PList []; PStr (str_lit "x")]]
           (ValueError "min() arg is an empty sequence") eq_refl eq_refl ltac:(lia) eq_refl eq_refl
           eq_refl eq_refl ltac:(vm_compute; reflexivity) eq_refl).
Defined.

Lemma main_no_detections_witness :
  run_main (C := ex_cv2) (E := ex_ocr_empty) ex_argv false cp1252 =
    mk_outcome 0 [str_lit "[]"] []
      [CReconfigure; CImread "wide.png"; CCvtColor; CReaderNew ["en"%string] true false;
       CReadtext 1 true] "cp1252".
Proof.
  exact (@main_no_detections ex_cv2 ex_ocr_empty cpython_repr "ocr_service.py" "wide.png" false
           cp1252 (mk_shape 900 1600 3) (mk_shape 900 1600 1) 900 1600 tt (PList []) [] eq_refl
           eq_refl ltac:(lia) eq_refl eq_refl eq_refl eq_refl eq_refl eq_refl eq_refl).
Defined.

(** The scenarios of the spec, end to end on a 1600-pixel image:
    the detection [[[10,20],[50,20],[50,40],[10,40]], "Hi", 0.87] prints
    exactly the line [[{"text": "Hi", "confidence": 0.87, "bbox": [10,
    20, 50, 40]}]] (the shortest [repr] of the binary64 value of [0.87],
    and [json.dumps]'s separators ", " and ": "), and the same detection
    without a confidence prints [1.0] in its place. *)
Example main_spec_scenarios :
  out_lines (run_main (C := ex_cv2) (E := ex_ocr) ex_argv true cp1252) =
    [json_line "[{'text': 'Hi', 'confidence': 0.87, 'bbox': [10, 20, 50, 40]}]"] /\
  out_lines (run_main (C := ex_cv2) (E := ex_ocr_noconf) ex_argv true cp1252) =
    [json_line "[{'text': 'Hi', 'confidence': 1.0, 'bbox': [10, 20, 50, 40]}]"].
Proof. split; vm_compute; reflexivity. Qed.
